(** * Interview-Prep-Helper: the turn-taking interview orchestrator

    A shallow embedding of
      - [src/llm.py]                          (the text-generation wrapper),
      - [src/agents/sme_react.py]             (the SME node: ask / feedback),
      - [src/agents/langgraph_orchestrator.py] (routing graph and the
        orchestrator's operations),
      - [src/agents/panel_builder.py]         (panel proposal with fallback),
    followed by the properties of the specification, each proved or refuted
    on the embedding.

    Conventions.  Python dictionaries with a fixed set of keys are records;
    a key that may be absent is an [option] field.  Mutation of a dictionary
    and exceptions are threaded through a state-and-exception monad whose
    store survives a raise, so that "what is left after a failure" can be
    stated.  The text-generation service is an oracle indexed by the number
    of calls made so far; every call is logged. *)

From Stdlib Require Import ZArith List String Ascii Bool Lia DecimalString.
Import ListNotations.

Local Open Scope string_scope.
Local Open Scope Z_scope.

Set Implicit Arguments.
Set Warnings "-register-all".

(* ================================================================= *)
(** ** Python strings and lists *)

Module Py.

Definition nl : string := String (ascii_of_nat 10) EmptyString.

(** Truthiness of a [str]: the empty string is falsy. *)
Definition truthy (s : string) : bool :=
  match s with EmptyString => false | _ => true end.

(** Truthiness of an optional [str] ([None] is falsy). *)
Definition truthy_opt (o : option string) : bool :=
  match o with Some s => truthy s | None => false end.

(** [x or d] on an optional string. *)
Definition or_else (o : option string) (d : string) : string :=
  match o with
  | Some s => if truthy s then s else d
  | None => d
  end.

(** [str.isspace] on one character; strings are sequences of code
    points below 256. *)
Definition is_space (c : ascii) : bool :=
  let n := nat_of_ascii c in
  ((9 <=? n) && (n <=? 13) || (28 <=? n) && (n <=? 32)
   || (n =? 133) || (n =? 160))%nat.

Fixpoint lstrip (s : string) : string :=
  match s with
  | EmptyString => EmptyString
  | String c r => if is_space c then lstrip r else s
  end.

Fixpoint rev_string (acc s : string) : string :=
  match s with
  | EmptyString => acc
  | String c r => rev_string (String c acc) r
  end.

Definition rstrip (s : string) : string :=
  rev_string "" (lstrip (rev_string "" s)).

(** [str.strip()] *)
Definition strip (s : string) : string := rstrip (lstrip s).

(** ["".join(l)] and [sep.join(l)] *)
Definition join (sep : string) (l : list string) : string :=
  String.concat sep l.

(** [str(i)] for an integer. *)
Definition str_of_Z (z : Z) : string :=
  NilZero.string_of_int (Z.to_int z).

(** [l[-n:]] for a positive [n]. *)
Definition last_n {A} (n : nat) (l : list A) : list A :=
  skipn (List.length l - n)%nat l.

(** Index of the first element satisfying [f] (the [for i, p in
    enumerate(...)] searches of the source). *)
Fixpoint find_index {A} (f : A -> bool) (l : list A) : option nat :=
  match l with
  | [] => None
  | x :: r => if f x then Some O
              else match find_index f r with
                   | Some i => Some (S i)
                   | None => None
                   end
  end.

End Py.

(* ================================================================= *)
(** ** Data model *)

(** A panel entry: a dictionary [{name, system_prompt}]; both keys are read
    with [.get] and a default, so either may be missing. *)
Record PanelEntry := mkEntry {
  name : option string;
  system_prompt : option string
}.

(** An element of [history]: [{agent, question, user_answer, feedback}]. *)
Record TurnRecord := mkTurn {
  agent : string;
  question : string;
  turn_answer : string;
  feedback : string
}.

(** [mode]: 'route' | 'ask' | 'await_answer' | 'feedback' | 'done'. *)
Inductive Mode := MRoute | MAsk | MAwaitAnswer | MFeedback | MDone.

Definition mode_eqb (a b : Mode) : bool :=
  match a, b with
  | MRoute, MRoute | MAsk, MAsk | MAwaitAnswer, MAwaitAnswer
  | MFeedback, MFeedback | MDone, MDone => true
  | _, _ => false
  end.

(** [InterviewState].  The seven keys written by [init_graph] are always
    present; the four others appear when first written. *)
Record InterviewState := mkState {
  prompts : list PanelEntry;
  resume_notes : string;
  history : list TurnRecord;
  turn_index : Z;
  max_turns : Z;
  current_agent : option string;
  mode : Mode;
  last_question : option string;
  last_feedback : option string;
  user_answer : option string;
  force_stop : bool
}.

Definition set_mode (m : Mode) (s : InterviewState) : InterviewState :=
  mkState (prompts s) (resume_notes s) (history s) (turn_index s)
          (max_turns s) (current_agent s) m (last_question s)
          (last_feedback s) (user_answer s) (force_stop s).

Definition set_current_agent (a : string) (s : InterviewState) :=
  mkState (prompts s) (resume_notes s) (history s) (turn_index s)
          (max_turns s) (Some a) (mode s) (last_question s)
          (last_feedback s) (user_answer s) (force_stop s).

Definition set_last_question (q : string) (s : InterviewState) :=
  mkState (prompts s) (resume_notes s) (history s) (turn_index s)
          (max_turns s) (current_agent s) (mode s) (Some q)
          (last_feedback s) (user_answer s) (force_stop s).

Definition set_last_feedback (f : string) (s : InterviewState) :=
  mkState (prompts s) (resume_notes s) (history s) (turn_index s)
          (max_turns s) (current_agent s) (mode s) (last_question s)
          (Some f) (user_answer s) (force_stop s).

Definition set_user_answer (a : string) (s : InterviewState) :=
  mkState (prompts s) (resume_notes s) (history s) (turn_index s)
          (max_turns s) (current_agent s) (mode s) (last_question s)
          (last_feedback s) (Some a) (force_stop s).

Definition set_history (h : list TurnRecord) (s : InterviewState) :=
  mkState (prompts s) (resume_notes s) h (turn_index s)
          (max_turns s) (current_agent s) (mode s) (last_question s)
          (last_feedback s) (user_answer s) (force_stop s).

Definition set_turn_index (i : Z) (s : InterviewState) :=
  mkState (prompts s) (resume_notes s) (history s) i
          (max_turns s) (current_agent s) (mode s) (last_question s)
          (last_feedback s) (user_answer s) (force_stop s).

Definition set_force_stop (b : bool) (s : InterviewState) :=
  mkState (prompts s) (resume_notes s) (history s) (turn_index s)
          (max_turns s) (current_agent s) (mode s) (last_question s)
          (last_feedback s) (user_answer s) b.

(* ================================================================= *)
(** ** The outside world: text generation and the event sink *)

(** One logged call of [LLM.invoke]. *)
Record Call := mkCall {
  call_stream : bool;
  call_json : bool;
  call_system : string;
  call_user : string
}.

(** A Socket.IO emission [socketio.emit(event, payload, to=room)]. *)
Inductive Event :=
| question_start (agent_name room : string)
| question_chunk (text room : string)
| question_end (agent_name room : string).

Record World := mkWorld {
  calls : list Call;
  emitted : list Event
}.

(** What a non-streaming call does: raise, or return
    [resp.choices[0].message.content] (a string or [None]). *)
Inductive PlainReply :=
| PlainRaise
| PlainContent (content : option string).

(** What a streaming call does: raise when the request is made, or hand
    back a chunk iterator.  Each chunk carries an optional [delta.content];
    [aborts] tells whether iterating past the last chunk raises. *)
Inductive StreamReply :=
| StreamRaise
| StreamChunks (deltas : list (option string)) (aborts : bool).

(** The service itself: its answer may depend on how many calls were made
    before (so it need not be a function of the prompts). *)
Record LLM := mkLLM {
  plain : nat -> bool -> string -> string -> PlainReply;
  stream : nat -> string -> string -> StreamReply
}.

Inductive Exn :=
| LLMError              (* whatever the client library raised *)
| ZeroDivisionError
| IndexError
| KeyError
| ValueError
| GraphRecursionError.

(* ================================================================= *)
(** ** State-and-exception monad *)

Record Store := mkStore {
  dict : InterviewState;
  world : World
}.

Inductive Outcome (A : Type) :=
| Ok (a : A)
| Raised (e : Exn).
Arguments Raised {A} e.

Definition M (A : Type) : Type := Store -> Outcome A * Store.

Definition ret {A} (a : A) : M A := fun st => (Ok a, st).

Definition bind {A B} (m : M A) (k : A -> M B) : M B :=
  fun st => match m st with
            | (Ok a, st') => k a st'
            | (Raised e, st') => (Raised e, st')
            end.

Definition raise {A} (e : Exn) : M A := fun st => (Raised e, st).

Definition get_state : M InterviewState := fun st => (Ok (dict st), st).

Definition update (f : InterviewState -> InterviewState) : M unit :=
  fun st => (Ok tt, mkStore (f (dict st)) (world st)).

(** The world after one more logged call. *)
Definition logged (w : World) (c : Call) : World :=
  mkWorld (calls w ++ [c]) (emitted w).

Definition log_call (c : Call) : M nat :=
  fun st => (Ok (List.length (calls (world st))),
             mkStore (dict st) (logged (world st) c)).

Definition emit (e : Event) : M unit :=
  fun st => (Ok tt,
             mkStore (dict st)
                     (mkWorld (calls (world st)) (emitted (world st) ++ [e]))).

Declare Scope monad_scope.
Delimit Scope monad_scope with monad.
Notation "x <- c ;; k" := (bind c (fun x => k))
  (at level 61, c at next level, right associativity) : monad_scope.
Notation "c ;; k" := (bind c (fun _ => k))
  (at level 61, right associativity) : monad_scope.
Local Open Scope monad_scope.

(** [for x in l: body(x)] *)
Fixpoint for_each {A} (l : list A) (body : A -> M unit) : M unit :=
  match l with
  | [] => ret tt
  | x :: r => body x ;; for_each r body
  end.

(* ================================================================= *)
(** ** [src/llm.py] *)

Section Service.

Variable llm : LLM.

(** [LLM.invoke(system_prompt, user_prompt, json=json)] *)
Definition invoke_llm (json : bool) (sys user : string) : M (option string) :=
  n <- log_call (mkCall false json sys user) ;;
  match plain llm n json sys user with
  | PlainRaise => raise LLMError
  | PlainContent c => ret c
  end.

(** The generator [_gen]: chunks whose content is missing, empty or
    unreadable are skipped. *)
Definition gen (deltas : list (option string)) : list string :=
  flat_map (fun d => match d with
                     | Some piece => if Py.truthy piece then [piece] else []
                     | None => []
                     end) deltas.

(** [LLM.invoke(system_prompt, user_prompt, stream=True)]: the pieces the
    generator will yield, and whether it raises after the last one. *)
Definition invoke_llm_stream (sys user : string) : M (list string * bool) :=
  n <- log_call (mkCall true false sys user) ;;
  match stream llm n sys user with
  | StreamRaise => raise LLMError
  | StreamChunks deltas aborts => ret (gen deltas, aborts)
  end.

End Service.

(* ================================================================= *)
(** ** [src/agents/sme_react.py] *)

Definition opt_default (d : string) (o : option string) : string :=
  match o with Some x => x | None => d end.

Definition ask_instr : string :=
  "Craft the next interview question. Ask a single, clear, challenging question tailored to the role and context.".

Definition fb_instr : string :=
  "Provide brief feedback in 2-4 bullets: strengths and improvements.".

(** The f-string rendering one recent turn. *)
Definition render_recent (h : TurnRecord) : string :=
  "Q by " ++ agent h ++ ": " ++ question h ++ Py.nl ++ "User: " ++ turn_answer h.

(** The list [context] of the ask branch (the same list is rebuilt by
    [_compose_context] in the orchestrator): resume notes when truthy, then
    the last five turns when there are any. *)
Definition context_items (s : InterviewState) : list string :=
  (if Py.truthy (resume_notes s)
   then ["Resume Notes:" ++ Py.nl ++ resume_notes s] else [])
  ++ match Py.last_n 5 (history s) with
     | [] => []
     | recent => ["History (most recent last):" ++ Py.nl
                  ++ Py.join Py.nl (map render_recent recent)]
     end.

(** The user prompt of the ask branch. *)
Definition ask_prompt (s : InterviewState) : string :=
  Py.join (Py.nl ++ Py.nl) (context_items s) ++ Py.nl ++ Py.nl ++ ask_instr.

(** The user prompt of the feedback branch. *)
Definition feedback_prompt (s : InterviewState) : string :=
  "Question: " ++ opt_default "" (last_question s) ++ Py.nl
  ++ "Answer: " ++ opt_default "" (user_answer s)
  ++ Py.nl ++ Py.nl ++ fb_instr.

Section WithLLM.

Variable llm : LLM.

(** [build_sme_node(system_prompt, llm)]: the node function. *)
Definition node (sys : string) : M unit :=
  s <- get_state ;;
  let name := opt_default "Expert" (current_agent s) in
  match mode s with
  | MAsk =>
      r <- invoke_llm llm false sys (ask_prompt s) ;;
      let question := Py.strip (Py.or_else r "") in
      update (set_last_question question) ;;
      update (set_mode MAwaitAnswer)
  | MFeedback =>
      let a := opt_default "" (user_answer s) in
      r <- invoke_llm llm false sys (feedback_prompt s) ;;
      let fb := Py.strip (Py.or_else r "") in
      update (set_last_feedback fb) ;;
      update (fun s' =>
                set_history
                  (history s' ++ [mkTurn name (opt_default "" (last_question s')) a fb])
                  s') ;;
      update (set_mode MRoute)
  | _ => ret tt
  end.

(* ================================================================= *)
(** ** [src/agents/langgraph_orchestrator.py]: the graph *)

Variable panel : list PanelEntry.

(** [p.get("name", f"Expert {i+1}")] *)
Definition name_or_expert (i : nat) (p : PanelEntry) : string :=
  opt_default ("Expert " ++ Py.str_of_Z (Z.of_nat i + 1)) (name p).

Definition stopping (s : InterviewState) : bool :=
  force_stop s || (max_turns s <=? turn_index s).

(** [idx = state.get("turn_index", 0) % len(self.panel)] *)
Definition route_index (s : InterviewState) : nat :=
  Z.to_nat (turn_index s mod Z.of_nat (List.length panel)).

Definition route : M unit :=
  s <- get_state ;;
  if stopping s then update (set_mode MDone)
  else match mode s with
       | MRoute =>
           match panel with
           | [] => raise ZeroDivisionError
           | _ =>
               let idx := route_index s in
               match nth_error panel idx with
               | Some p =>
                   update (set_current_agent (name_or_expert idx p)) ;;
                   update (set_mode MAsk)
               | None => raise IndexError
               end
           end
       | _ => ret tt
       end.

Definition done_node : M unit := update (set_mode MDone).

(** Where an edge may lead. *)
Inductive Node := NRoute | NSme (i : nat) | NDone.
Inductive Target := Goto (n : Node) | END.

Definition name_is (cur : string) (p : PanelEntry) : bool :=
  match name p with
  | Some n => String.eqb n cur
  | None => false
  end.

(** The search [for i, p in enumerate(self.panel): if p.get("name") == cur]
    with its fallback to entry 0. *)
Definition index_of_agent (cur : string) : nat :=
  match Py.find_index (name_is cur) panel with
  | Some i => i
  | None => O
  end.

(** [p.get("system_prompt", "You are an expert interviewer.")] *)
Definition prompt_of (p : PanelEntry) : string :=
  opt_default "You are an expert interviewer." (system_prompt p).

(** [from_route_cond], followed by the lookup in the path map
    [{"done", "sme_0", "sme_1", "sme_2", "__end__"}] given to
    [add_conditional_edges]: a label outside the map is a [KeyError]. *)
Definition from_route_cond : M Target :=
  s <- get_state ;;
  if mode_eqb (mode s) MDone then ret (Goto NDone)
  else match current_agent s with
       | None => ret END
       | Some cur =>
           if negb (Py.truthy cur) then ret END
           else
             let i := index_of_agent cur in
             if (i <? 3)%nat then ret (Goto (NSme i)) else raise KeyError
       end.

Definition from_sme_cond : M Target :=
  s <- get_state ;;
  if mode_eqb (mode s) MRoute then ret (Goto NRoute) else ret END.

(** The node [sme_i] is built from the [i]-th panel entry. *)
Definition sme (i : nat) : M unit :=
  match nth_error panel i with
  | Some p => node (prompt_of p)
  | None => raise KeyError
  end.

(** One run of the compiled graph from a node: execute it, follow its
    outgoing edge, and go on until [END].  [fuel] bounds the number of
    steps, as the graph runner's recursion limit does. *)
Fixpoint run (fuel : nat) (n : Node) : M unit :=
  match fuel with
  | O => raise GraphRecursionError
  | S fuel' =>
      match n with
      | NRoute =>
          route ;;
          t <- from_route_cond ;;
          match t with Goto n' => run fuel' n' | END => ret tt end
      | NSme i =>
          sme i ;;
          t <- from_sme_cond ;;
          match t with Goto n' => run fuel' n' | END => ret tt end
      | NDone => done_node
      end
  end.

Definition recursion_limit : nat := 25.

(** [self.state = self._app.invoke(self.state)].  The nodes work on the
    runner's own dictionary, which replaces [self.state] when the run
    returns.  When a node raises, the assignment does not happen and
    [self.state] keeps its keys; but the [history] list object is shared
    with the runner, so what was appended to it stays appended. *)
Definition app_invoke : M unit :=
  fun st =>
    match run recursion_limit NRoute st with
    | (Ok tt, st') => (Ok tt, st')
    | (Raised e, st') =>
        (Raised e,
         mkStore (set_history (history (dict st')) (dict st)) (world st'))
    end.

(* ================================================================= *)
(** ** [src/agents/langgraph_orchestrator.py]: the operations *)

(** [init_graph]: the state it installs.  Compiling the graph checks that
    every target of the path map is a node, so a panel without [sme_1] or
    [sme_2] is refused there. *)
Definition init_graph (notes : string) (max_turns0 : Z)
  : Outcome InterviewState :=
  if (List.length panel <? 3)%nat then Raised ValueError
  else Ok (mkState panel notes [] 0 max_turns0 None MRoute None None None false).

Definition next_question : M (string * string * bool) :=
  update (set_mode MRoute) ;;
  app_invoke ;;
  app_invoke ;;
  s <- get_state ;;
  let agent := opt_default "Expert" (current_agent s) in
  let question := opt_default "" (last_question s) in
  let done := mode_eqb (mode s) MDone in
  ret (question, agent, done).

Definition process_user_answer (answer : string) : M bool :=
  update (set_user_answer answer) ;;
  update (set_mode MFeedback) ;;
  app_invoke ;;
  update (fun s => set_turn_index (turn_index s + 1) s) ;;
  app_invoke ;;
  s <- get_state ;;
  ret (mode_eqb (mode s) MDone).

Definition stop : M unit := update (set_force_stop true).

Definition no_interview : string := "No interview conducted.".

Definition render_turn (h : TurnRecord) : string :=
  "Q: " ++ question h ++ Py.nl ++ "A: " ++ turn_answer h ++ Py.nl
  ++ "Feedback: " ++ feedback h.

Definition summary_prompt : string :=
  "Using the interview transcript and feedback, write a concise summary for the candidate: What went well and what to improve. Include actionable tips.".

Definition summary : M string :=
  s <- get_state ;;
  match history s with
  | [] => ret no_interview
  | _ =>
      let items := map render_turn (history s) in
      let context := Py.join (Py.nl ++ Py.nl) items in
      r <- invoke_llm llm false
             "You are an interview coach who writes concise, helpful summaries."
             (context ++ Py.nl ++ Py.nl ++ summary_prompt) ;;
      ret (Py.strip (Py.or_else r ""))
  end.

Definition compose_context (s : InterviewState) : string :=
  Py.join (Py.nl ++ Py.nl) (context_items s).

Definition stream_next_question (room : string) : M (string * string * bool) :=
  update (set_mode MRoute) ;;
  app_invoke ;;
  s <- get_state ;;
  if mode_eqb (mode s) MDone then ret ("", "", true)
  else
    let agent := opt_default "Expert" (current_agent s) in
    emit (question_start agent room) ;;
    let idx := index_of_agent agent in
    match nth_error panel idx with
    | None => raise IndexError
    | Some p =>
        let sys := prompt_of p in
        let context := compose_context s in
        r <- invoke_llm_stream llm sys (context ++ Py.nl ++ Py.nl ++ ask_instr) ;;
        let (pieces, aborts) := r in
        for_each pieces (fun piece => emit (question_chunk piece room)) ;;
        (if aborts then raise LLMError else ret tt) ;;
        let question := Py.strip (Py.join "" pieces) in
        update (set_last_question question) ;;
        update (set_mode MAwaitAnswer) ;;
        emit (question_end agent room) ;;
        s' <- get_state ;;
        ret (question, agent, mode_eqb (mode s') MDone)
    end.

End WithLLM.

(* ================================================================= *)
(** ** [src/agents/panel_builder.py] *)

Definition JD_PANEL_PROMPT : string :=
  "You are configuring a mock interview panel based on a given Job Description (JD). Choose exactly 3 SME roles and write a concise, effective system prompt for each SME to conduct interviews. Return JSON with an array 'panel' of 3 objects: {name, system_prompt}. Keep prompts under 200 words each.".

(** The user prompt: the first 4000 characters of the job description. *)
Definition panel_user_prompt (jd_text : string) : string :=
  "JD:" ++ Py.nl ++ substring 0 4000 jd_text ++ Py.nl ++ Py.nl
  ++ "Return JSON with array 'panel' of 3 objects as specified.".

Section PanelBuilder.

(** JSON numbers are kept abstract: the code only looks at their
    truthiness. *)
Variable Num : Type.
Variable num_truthy : Num -> bool.

(** The values [json.loads] can return.  A dict is given by the list of
    its items; a lookup takes the first item with the key. *)
Inductive Json :=
| JNull
| JBool (b : bool)
| JNum (x : Num)
| JStr (s : string)
| JList (l : list Json)
| JDict (items : list (string * Json)).

Fixpoint dict_get (k : string) (items : list (string * Json)) : option Json :=
  match items with
  | [] => None
  | (k', v) :: r => if String.eqb k' k then Some v else dict_get k r
  end.

Definition json_truthy (v : Json) : bool :=
  match v with
  | JNull => false
  | JBool b => b
  | JNum x => num_truthy x
  | JStr s => Py.truthy s
  | JList l => match l with [] => false | _ => true end
  | JDict items => match items with [] => false | _ => true end
  end.

(** [d.get(k) or default] *)
Definition get_or (k : string) (items : list (string * Json)) (d : Json) : Json :=
  match dict_get k items with
  | Some v => if json_truthy v then v else d
  | None => d
  end.

(** An entry of the returned panel. *)
Record PanelDict := mkPanelDict {
  pd_name : Json;
  pd_system_prompt : Json
}.

(** [json.loads] on a string: [None] when it raises. *)
Variable json_loads : string -> option Json.

(** The normalising loop; [None] when an element has no [.get] (the
    [AttributeError] is caught by the enclosing [except]). *)
Fixpoint normalize (i : nat) (panel : list Json) : option (list PanelDict) :=
  match panel with
  | [] => Some []
  | p :: r =>
      match p with
      | JDict items =>
          match normalize (S i) r with
          | Some out =>
              Some (mkPanelDict
                      (get_or "name" items
                         (JStr ("Expert " ++ Py.str_of_Z (Z.of_nat i + 1))))
                      (get_or "system_prompt" items
                         (JStr "You are a helpful expert interviewer."))
                    :: out)
          | None => None
          end
      | _ => None
      end
  end.

(** The [try] block: [Some out] when it reaches [return out], [None] when
    it falls through or an exception is swallowed. *)
Definition try_parse (content : option string) : option (list PanelDict) :=
  match content with
  | None => None
  | Some text =>
      match json_loads text with
      | Some (JDict items) =>
          match dict_get "panel" items with
          | Some (JList panel) =>
              if (List.length panel =? 3)%nat then normalize 0 panel else None
          | _ => None
          end
      | _ => None
      end
  end.

Definition fallback_panel : list PanelDict :=
  [ mkPanelDict (JStr "Domain Expert") (JStr "You are a domain expert interviewer.");
    mkPanelDict (JStr "Systems Expert") (JStr "You are a systems design interviewer.");
    mkPanelDict (JStr "Behavioral Expert") (JStr "You are a behavioral interviewer.") ].

Definition panel_of_content (content : option string) : list PanelDict :=
  match try_parse content with
  | Some out => out
  | None => fallback_panel
  end.

(** The reply parses as an object whose ['panel'] is a list of exactly
    three objects. *)
Definition parses_as_three_objects (content : option string) : Prop :=
  exists text items a b c,
    content = Some text
    /\ json_loads text = Some (JDict items)
    /\ dict_get "panel" items = Some (JList [JDict a; JDict b; JDict c]).

Variable llm : LLM.

(** [propose_panel_from_jd(llm, jd_text)]; the generation call is made
    outside the [try], so its exception is not caught. *)
Definition propose_panel_from_jd (jd_text : string) (w : World)
  : Outcome (list PanelDict) * World :=
  let user := panel_user_prompt jd_text in
  let w' := logged w (mkCall false true JD_PANEL_PROMPT user) in
  match plain llm (List.length (calls w)) true JD_PANEL_PROMPT user with
  | PlainRaise => (Raised LLMError, w')
  | PlainContent content => (Ok (panel_of_content content), w')
  end.

End PanelBuilder.

Arguments JNull {Num}.
Arguments JBool {Num} b.
Arguments JNum {Num} x.
Arguments JStr {Num} s.
Arguments JList {Num} l.
Arguments JDict {Num} items.

(* ================================================================= *)
(** ** Sessions: the operations a caller may apply, and reachability *)

Inductive Op :=
| OpNextQuestion
| OpAnswer (answer : string)
| OpStreamNextQuestion (room : string)
| OpStop
| OpSummary.

Section Sessions.

Variable llm : LLM.
Variable panel : list PanelEntry.

(** The store after an operation, whether it returned or raised. *)
Definition exec (op : Op) (st : Store) : Store :=
  match op with
  | OpNextQuestion => snd (next_question llm panel st)
  | OpAnswer a => snd (process_user_answer llm panel a st)
  | OpStreamNextQuestion room => snd (stream_next_question llm panel room st)
  | OpStop => snd (stop st)
  | OpSummary => snd (summary llm st)
  end.

(** States a session can be in: [init_graph], then any operations. *)
Inductive reachable : Store -> Prop :=
| reach_init notes mt s w :
    init_graph panel notes mt = Ok s -> reachable (mkStore s w)
| reach_step op st :
    reachable st -> reachable (exec op st).

(** The same, for a caller that submits an answer only when one is awaited
    and starts with a non-negative turn budget. *)
Inductive reachable_in_protocol : Store -> Prop :=
| proto_init notes mt s w :
    0 <= mt ->
    init_graph panel notes mt = Ok s -> reachable_in_protocol (mkStore s w)
| proto_step op st :
    reachable_in_protocol st ->
    (forall a, op = OpAnswer a -> mode (dict st) = MAwaitAnswer) ->
    reachable_in_protocol (exec op st).

End Sessions.

(** The service never raises on a non-streaming call. *)
Definition plain_never_raises (llm : LLM) : Prop :=
  forall n j sys user, plain llm n j sys user <> PlainRaise.

(** A streaming call is answered by a chunk sequence that ends normally. *)
Definition stream_completes (llm : LLM) : Prop :=
  forall n sys user, exists deltas, stream llm n sys user = StreamChunks deltas false.

(* ================================================================= *)
(** ** Vocabulary of the properties *)

(** [keeps R m]: whatever [m] does (return or raise), the store it leaves
    is [R]-related to the store it started from. *)
Definition keeps (R : Store -> Store -> Prop) {A} (m : M A) : Prop :=
  forall st, R st (snd (m st)).

(** The fields no graph node writes: the turn counter, the budget and the
    stop flag. *)
Definition same_budget (a b : Store) : Prop :=
  turn_index (dict b) = turn_index (dict a)
  /\ max_turns (dict b) = max_turns (dict a)
  /\ force_stop (dict b) = force_stop (dict a).

(** [done] is entered only under a stopping condition. *)
Definition done_justified (a b : Store) : Prop :=
  mode (dict b) = MDone -> mode (dict a) = MDone \/ stopping (dict a) = true.

Definition graph_step (a b : Store) : Prop :=
  same_budget a b /\ done_justified a b.

(** No graph node emits an event. *)
Definition same_events (a b : Store) : Prop :=
  emitted (world b) = emitted (world a).

(** A state in mode [done] is one in which routing stops. *)
Definition done_means_stopping (s : InterviewState) : Prop :=
  mode s = MDone -> stopping s = true.

Definition within_budget (s : InterviewState) : Prop :=
  0 <= turn_index s <= max_turns s.

(** What holds between the operations of a caller that follows the
    protocol: the counter is within the budget, and strictly below it while
    an answer is awaited. *)
Definition protocol_invariant (s : InterviewState) : Prop :=
  within_budget s /\ (mode s = MAwaitAnswer -> turn_index s < max_turns s).

(** The turn record the feedback branch appends. *)
Definition turn_of (s : InterviewState) (fb : string) : TurnRecord :=
  mkTurn (opt_default "Expert" (current_agent s))
         (opt_default "" (last_question s))
         (opt_default "" (user_answer s)) fb.

(** The state the feedback branch leaves for the feedback text [fb]. *)
Definition fed_back (s : InterviewState) (fb : string) : InterviewState :=
  set_mode MRoute
    (set_history (history s ++ [turn_of s fb]) (set_last_feedback fb s)).

(** The state [route] leaves when it selects the entry [p]. *)
Definition routed (panel : list PanelEntry) (s : InterviewState)
  (p : PanelEntry) : InterviewState :=
  set_mode MAsk
    (set_current_agent (name_or_expert (route_index panel s) p) s).

(** What the ask branch of the node built from [p] does, by the reply of
    the service. *)
Definition ask_outcome (llm : LLM) (p : PanelEntry) (s : InterviewState)
  (w : World) : Outcome unit * Store :=
  let c := mkCall false false (prompt_of p) (ask_prompt s) in
  match plain llm (List.length (calls w)) false (prompt_of p) (ask_prompt s) with
  | PlainContent r =>
      (Ok tt,
       mkStore (set_mode MAwaitAnswer
                  (set_last_question (Py.strip (Py.or_else r "")) s))
               (logged w c))
  | PlainRaise => (Raised LLMError, mkStore s (logged w c))
  end.

(** What the feedback branch of the node built from [p] does. *)
Definition feedback_outcome (llm : LLM) (p : PanelEntry) (s : InterviewState)
  (w : World) : Outcome unit * Store :=
  let c := mkCall false false (prompt_of p) (feedback_prompt s) in
  match plain llm (List.length (calls w)) false (prompt_of p) (feedback_prompt s) with
  | PlainContent r =>
      let fb := Py.strip (Py.or_else r "") in
      (Ok tt, mkStore (fed_back s fb) (logged w c))
  | PlainRaise => (Raised LLMError, mkStore s (logged w c))
  end.

(* ================================================================= *)
(** ** Sample sessions *)

Definition empty_world : World := mkWorld [] [].

Definition sample_panel : list PanelEntry :=
  [ mkEntry (Some "Domain Expert") (Some "You are a domain expert interviewer.");
    mkEntry (Some "Systems Expert") (Some "You are a systems design interviewer.");
    mkEntry (Some "Behavioral Expert") (Some "You are a behavioral interviewer.") ].

(** A service whose [n]-th answer is the text ["text n"], padded with
    blanks, and whose streams deliver three chunks with content among
    chunks without. *)
Definition numbered_llm : LLM :=
  mkLLM (fun n _ _ _ =>
           PlainContent (Some (" text " ++ Py.str_of_Z (Z.of_nat n) ++ " ")))
        (fun _ _ _ =>
           StreamChunks [Some " Tell me "; None; Some ""; Some "about "; Some "queues. "]
                        false).

(** A service that returns no content at all. *)
Definition silent_llm : LLM :=
  mkLLM (fun _ _ _ _ => PlainContent None)
        (fun _ _ _ => StreamChunks [] false).

(** A service whose second call (index 1) fails. *)
Definition flaky_llm : LLM :=
  mkLLM (fun n j sys user =>
           if (n =? 1)%nat then PlainRaise else plain numbered_llm n j sys user)
        (stream numbered_llm).

(** The store [init_graph] installs for the sample panel. *)
Definition sample_start (budget : Z) : Store :=
  mkStore (mkState sample_panel "" [] 0 budget None MRoute None None None false)
          empty_world.

(** After the first question of a session of eight turns. *)
Definition sample_awaiting : Store :=
  exec numbered_llm sample_panel OpNextQuestion (sample_start 8).

(** A session whose second question could not be generated: the operation
    raised and left the state in mode [route]. *)
Definition sample_interrupted : Store :=
  exec flaky_llm sample_panel OpNextQuestion
    (exec flaky_llm sample_panel OpNextQuestion (sample_start 8)).

(** A session with a budget of one turn, after its only turn. *)
Definition sample_finished : Store :=
  exec numbered_llm sample_panel (OpAnswer "an answer")
    (exec numbered_llm sample_panel OpNextQuestion (sample_start 1)).

(** A service that is down: every call raises. *)
Definition failing_llm : LLM :=
  mkLLM (fun _ _ _ _ => PlainRaise) (fun _ _ _ => StreamRaise).

(** The sample session right after [route] selected its first agent. *)
Definition sample_asking : Store :=
  snd (route sample_panel (sample_start 8)).

(** The sample session with an answer submitted and mode [feedback]. *)
Definition sample_answered : Store :=
  mkStore (set_mode MFeedback (set_user_answer "an answer" (dict sample_awaiting)))
          empty_world.

(** A service whose third call (index 2) fails. *)
Definition late_failing_llm : LLM :=
  mkLLM (fun n j sys user =>
           if (n =? 2)%nat then PlainRaise else plain numbered_llm n j sys user)
        (stream numbered_llm).

(** The sample session after its first answer was submitted to the service
    above: the feedback call (index 1) is answered, the call that follows
    it (index 2) raises. *)
Definition sample_half_answered : Store :=
  snd (process_user_answer late_failing_llm sample_panel "an answer"
         sample_awaiting).

(** The same answer submitted again. *)
Definition sample_answered_twice : Store :=
  snd (process_user_answer late_failing_llm sample_panel "an answer"
         sample_half_answered).

(** The next generation call fails, whatever is asked. *)
Definition next_call_raises (llm : LLM) (w : World) : Prop :=
  forall j sys user, plain llm (List.length (calls w)) j sys user = PlainRaise.

(** The finished sample session after one more answer was submitted. *)
Definition sample_overrun : Store :=
  exec numbered_llm sample_panel (OpAnswer "late") sample_finished.

(** The end-to-end scenario on the sample panel, budget of two turns. *)
Definition scenario_q1 := next_question numbered_llm sample_panel (sample_start 2).
Definition scenario_a1 :=
  process_user_answer numbered_llm sample_panel "answer A" (snd scenario_q1).
Definition scenario_q2 := next_question numbered_llm sample_panel (snd scenario_a1).
Definition scenario_a2 :=
  process_user_answer numbered_llm sample_panel "answer B" (snd scenario_q2).

(** Replies for the panel builder, with integers as JSON numbers: a panel
    of two entries, and a panel of three entries of which the second has an
    empty name and the third no keys. *)
Definition two_entry_reply : Json Z :=
  JDict [("panel",
          JList [JDict [("name", JStr "A"); ("system_prompt", JStr "a")];
                 JDict [("name", JStr "B"); ("system_prompt", JStr "b")]])].

Definition three_entry_reply : Json Z :=
  JDict [("panel",
          JList [JDict [("name", JStr "A"); ("system_prompt", JStr "a")];
                 JDict [("name", JStr ""); ("system_prompt", JNum 7)];
                 JDict []])].

(** A stand-in for [json.loads] that parses every text to [v]. *)
Definition loads_as (v : Json Z) : string -> option (Json Z) :=
  fun _ => Some v.

Definition nonzero (z : Z) : bool := negb (z =? 0).

(* ================================================================= *)
(** ** Vocabulary of the further properties *)

(** The turn record [process_user_answer] can append in state [s] for the
    answer [a] and the feedback text [fb]. *)
Definition answered_turn (s : InterviewState) (a fb : string) : TurnRecord :=
  mkTurn (opt_default "Expert" (current_agent s))
         (opt_default "" (last_question s)) a fb.

(** Along a run started by [process_user_answer]: either the feedback
    branch has not run yet (mode [feedback], the fields it reads as they
    were), or it cannot run any more and the history holds at most one
    more record. *)
Definition feedback_pending_or_recorded
  (s : InterviewState) (a : string) (st : Store) : Prop :=
  (mode (dict st) = MFeedback
   /\ history (dict st) = history s
   /\ current_agent (dict st) = current_agent s
   /\ last_question (dict st) = last_question s
   /\ user_answer (dict st) = Some a)
  \/ (mode (dict st) <> MFeedback
      /\ (history (dict st) = history s
          \/ exists fb, history (dict st)
                        = (history s ++ [answered_turn s a fb])%list)).

(** Outside mode [feedback] nothing is recorded. *)
Definition nothing_recorded (s : InterviewState) (st : Store) : Prop :=
  mode (dict st) <> MFeedback /\ history (dict st) = history s.

(** A sequence of operations applied in order. *)
Fixpoint exec_all (llm : LLM) (panel : list PanelEntry) (ops : list Op)
  (st : Store) : Store :=
  match ops with
  | [] => st
  | op :: r => exec_all llm panel r (exec llm panel op st)
  end.

(** The entry [normalize] builds at position [k] (counted from 1) out of
    the JSON object with the items [items]. *)
Definition normalized_entry (Num : Type) (num_truthy : Num -> bool)
  (k : string) (items : list (string * Json Num)) : PanelDict Num :=
  mkPanelDict (get_or num_truthy "name" items (JStr ("Expert " ++ k)))
              (get_or num_truthy "system_prompt" items
                 (JStr "You are a helpful expert interviewer.")).

(* ================================================================= *)
(** ** [src/app.py]: the panel read back from the edit form *)

(** [request.form.get(key, default)]; the form is given by its lookup. *)
Definition form_get (form : string -> option string) (key default : string)
  : string :=
  opt_default default (form key).

(** The loop of [save_panel]: for [i] in [range(3)], the entry
    [{"name": form.get(f"name_{i}", f"Expert {i+1}"),
      "system_prompt": form.get(f"prompt_{i}", "").strip()}]. *)
Definition save_panel_entry (form : string -> option string) (i : nat)
  : PanelEntry :=
  mkEntry
    (Some (form_get form ("name_" ++ Py.str_of_Z (Z.of_nat i))
             ("Expert " ++ Py.str_of_Z (Z.of_nat i + 1))))
    (Some (Py.strip (form_get form ("prompt_" ++ Py.str_of_Z (Z.of_nat i)) ""))).

Definition save_panel (form : string -> option string) : list PanelEntry :=
  map (save_panel_entry form) (seq 0 3).

(** A form in which nothing was filled in. *)
Definition empty_form : string -> option string := fun _ => None.

(* ################################################################# *)
(** * Properties *)

(** Unfolding of the monad's plumbing. *)
Ltac monad_unfold :=
  unfold bind, ret, raise, get_state, update, emit, log_call in *.

Ltac monad_simpl := monad_unfold; cbn [fst snd dict world] in *.

(** The setters compute on the fields. *)
Lemma mode_set_mode m s : mode (set_mode m s) = m.
Proof. reflexivity. Qed.

Lemma set_mode_idem m m' s : set_mode m (set_mode m' s) = set_mode m s.
Proof. reflexivity. Qed.

Lemma set_mode_same s : set_mode (mode s) s = s.
Proof. destruct s; reflexivity. Qed.

Lemma stopping_set_mode m s : stopping (set_mode m s) = stopping s.
Proof. reflexivity. Qed.


Lemma mode_eqb_eq a b : mode_eqb a b = true <-> a = b.
Proof. destruct a, b; simpl; split; congruence. Qed.

Lemma mode_eqb_refl a : mode_eqb a a = true.
Proof. destruct a; reflexivity. Qed.

(* ----------------------------------------------------------------- *)
(** *** The route transition *)

Section RouteFacts.

Variable panel : list PanelEntry.

Lemma route_stopping s w :
  stopping s = true ->
  route panel (mkStore s w) = (Ok tt, mkStore (set_mode MDone s) w).
Proof.
  intros H. unfold route. monad_simpl. rewrite H. reflexivity.
Qed.

Lemma route_other_mode s w :
  stopping s = false -> mode s <> MRoute ->
  route panel (mkStore s w) = (Ok tt, mkStore s w).
Proof.
  intros H Hm. unfold route. monad_simpl. rewrite H.
  destruct (mode s); try reflexivity. congruence.
Qed.

(** The index computed by [route] is inside the panel. *)
Lemma route_index_in_range s :
  panel <> [] -> (route_index panel s < List.length panel)%nat.
Proof.
  intros Hne. unfold route_index.
  assert (0 < Z.of_nat (List.length panel)).
  { destruct panel; [congruence | simpl List.length; lia]. }
  pose proof (Z.mod_pos_bound (turn_index s) _ H). lia.
Qed.

Lemma route_selected s w p :
  stopping s = false -> mode s = MRoute ->
  nth_error panel (route_index panel s) = Some p ->
  route panel (mkStore s w) = (Ok tt, mkStore (routed panel s p) w).
Proof.
  intros H Hm E. unfold route. monad_simpl. rewrite H, Hm.
  destruct panel; [destruct (route_index [] s); discriminate|].
  rewrite E. reflexivity.
Qed.

Lemma route_selects s w :
  stopping s = false -> mode s = MRoute -> panel <> [] ->
  exists p,
    nth_error panel (route_index panel s) = Some p
    /\ route panel (mkStore s w) = (Ok tt, mkStore (routed panel s p) w).
Proof.
  intros H Hm Hne.
  pose proof (route_index_in_range s Hne) as Hlt.
  apply nth_error_Some in Hlt.
  destruct (nth_error panel _) as [p|] eqn:E; [|congruence].
  exists p. split; [reflexivity|]. now apply route_selected.
Qed.

End RouteFacts.

(* ----------------------------------------------------------------- *)
(** *** Relations kept by every step of a computation *)


Section Keeps.

Variable R : Store -> Store -> Prop.
Hypothesis R_refl : forall st, R st st.
Hypothesis R_trans : forall a b c, R a b -> R b c -> R a c.

Lemma keeps_ret A (a : A) : keeps R (ret a).
Proof. intros st. apply R_refl. Qed.

Lemma keeps_raise A e : keeps R (@raise A e).
Proof. intros st. apply R_refl. Qed.

Lemma keeps_get_state : keeps R get_state.
Proof. intros st. apply R_refl. Qed.

Lemma keeps_bind A B (m : M A) (k : A -> M B) :
  keeps R m -> (forall a, keeps R (k a)) -> keeps R (bind m k).
Proof.
  intros Hm Hk st. unfold bind.
  specialize (Hm st). destruct (m st) as [[a|e] st1]; simpl in *.
  - eapply R_trans; [exact Hm | apply Hk].
  - exact Hm.
Qed.

Lemma keeps_for_each A (l : list A) (body : A -> M unit) :
  (forall x, keeps R (body x)) -> keeps R (for_each l body).
Proof.
  intros Hb. induction l as [|x r IH]; simpl.
  - apply keeps_ret.
  - apply keeps_bind; auto.
Qed.

End Keeps.


Lemma same_budget_refl st : same_budget st st.
Proof. repeat split. Qed.

Lemma same_budget_trans a b c :
  same_budget a b -> same_budget b c -> same_budget a c.
Proof. unfold same_budget. intuition congruence. Qed.

Lemma same_budget_stopping a b :
  same_budget a b -> stopping (dict b) = stopping (dict a).
Proof. unfold same_budget, stopping. intros (-> & -> & ->). reflexivity. Qed.


Lemma graph_step_refl st : graph_step st st.
Proof. split; [apply same_budget_refl | intros H; auto]. Qed.

Lemma graph_step_trans a b c :
  graph_step a b -> graph_step b c -> graph_step a c.
Proof.
  intros [B1 D1] [B2 D2]. split.
  - eapply same_budget_trans; eauto.
  - intros H. destruct (D2 H) as [H'|H'].
    + apply D1, H'.
    + right. rewrite <- (same_budget_stopping B1). exact H'.
Qed.


Section GraphFacts.

Variable llm : LLM.
Variable panel : list PanelEntry.

Lemma invoke_llm_keeps_dict j sys user st :
  dict (snd (invoke_llm llm j sys user st)) = dict st.
Proof.
  unfold invoke_llm. monad_simpl.
  destruct (plain llm _ j sys user); reflexivity.
Qed.

Lemma node_graph_step sys : keeps graph_step (node llm sys).
Proof.
  intros st. unfold node, invoke_llm. monad_simpl.
  destruct (mode (dict st)) eqn:Hm; try apply graph_step_refl;
    destruct (plain llm _ false sys _); simpl;
    (split; [repeat split | intros H; simpl in H; try discriminate; auto]).
Qed.

Lemma route_graph_step : keeps graph_step (route panel).
Proof.
  intros st. destruct st as [s w].
  destruct (stopping s) eqn:Hs.
  - rewrite route_stopping by assumption. simpl.
    split; [repeat split | intros _; right; exact Hs].
  - unfold route. monad_simpl. rewrite Hs.
    destruct (mode s) eqn:Hm; simpl; try apply graph_step_refl.
    destruct panel as [|p0 r]; simpl; [apply graph_step_refl|].
    destruct (nth_error _ _); simpl.
    + split; [repeat split | intros H; simpl in H; discriminate].
    + apply graph_step_refl.
Qed.

Lemma sme_graph_step i : keeps graph_step (sme llm panel i).
Proof.
  unfold sme. destruct (nth_error panel i).
  - apply node_graph_step.
  - apply keeps_raise, graph_step_refl.
Qed.

(** [from_route_cond] only reads the state, and it leads to [done] only
    when the mode is [done]. *)
Lemma from_route_cond_reads st :
  snd (from_route_cond panel st) = st
  /\ (fst (from_route_cond panel st) = Ok (Goto NDone) ->
      mode (dict st) = MDone).
Proof.
  unfold from_route_cond. monad_simpl.
  destruct (mode_eqb (mode (dict st)) MDone) eqn:Hm; simpl.
  - split; [reflexivity|]. intros _. now apply mode_eqb_eq.
  - destruct (current_agent (dict st)) as [cur|]; simpl.
    + destruct (Py.truthy cur); simpl.
      * destruct (index_of_agent panel cur <? 3)%nat; simpl;
          (split; [reflexivity | discriminate]).
      * split; [reflexivity | discriminate].
    + split; [reflexivity | discriminate].
Qed.

Lemma from_sme_cond_reads st :
  snd (from_sme_cond st) = st
  /\ fst (from_sme_cond st) <> Ok (Goto NDone).
Proof.
  unfold from_sme_cond. monad_simpl.
  destruct (mode_eqb (mode (dict st)) MRoute); simpl;
    (split; [reflexivity | discriminate]).
Qed.

(** A run of the graph keeps the budget fields and enters [done] only
    under a stopping condition, provided the [done] node is entered the
    way the edges enter it. *)
Lemma run_graph_step fuel : forall n st,
  (n = NDone -> mode (dict st) = MDone) ->
  graph_step st (snd (run llm panel fuel n st)).
Proof.
  induction fuel as [|fuel IH]; intros n st Hn; simpl.
  - apply graph_step_refl.
  - destruct n as [|i|].
    + unfold bind.
      pose proof (route_graph_step st) as Hr.
      destruct (route panel st) as [[[]|e] st1]; simpl in *; [|exact Hr].
      destruct (from_route_cond_reads st1) as [Hsame Hdone].
      destruct (from_route_cond panel st1) as [[t|e] st2]; simpl in *; subst st2;
        [|exact Hr].
      destruct t as [n'|]; [|exact Hr].
      eapply graph_step_trans; [exact Hr|]. apply IH.
      intros ->. now apply Hdone.
    + unfold bind.
      pose proof (sme_graph_step i st) as Hr.
      destruct (sme llm panel i st) as [[[]|e] st1]; simpl in *; [|exact Hr].
      destruct (from_sme_cond_reads st1) as [Hsame Hdone].
      destruct (from_sme_cond st1) as [[t|e] st2]; simpl in *; subst st2;
        [|exact Hr].
      destruct t as [n'|]; [|exact Hr].
      eapply graph_step_trans; [exact Hr|]. apply IH.
      intros ->. congruence.
    + unfold done_node. monad_simpl. simpl.
      split; [repeat split | intros _; left; now apply Hn].
Qed.

Lemma app_invoke_graph_step : keeps graph_step (app_invoke llm panel).
Proof.
  intros st. unfold app_invoke.
  pose proof (@run_graph_step recursion_limit NRoute st) as H.
  destruct (run llm panel recursion_limit NRoute st) as [[[]|e] st1];
    simpl in *.
  - apply H. discriminate.
  - split; [repeat split | intros Hm; left; exact Hm].
Qed.

(** Under a stopping condition a run of the graph only sets [done]: no
    generation call, no event, nothing else written. *)
Lemma run_stopping k s w :
  stopping s = true ->
  run llm panel (S (S k)) NRoute (mkStore s w)
  = (Ok tt, mkStore (set_mode MDone s) w).
Proof.
  intros H. simpl. unfold bind. rewrite route_stopping by assumption.
  unfold from_route_cond, done_node. monad_simpl. reflexivity.
Qed.

Lemma app_invoke_stopping s w :
  stopping s = true ->
  app_invoke llm panel (mkStore s w) = (Ok tt, mkStore (set_mode MDone s) w).
Proof.
  intros H. unfold app_invoke, recursion_limit. now rewrite run_stopping.
Qed.

End GraphFacts.

(* ----------------------------------------------------------------- *)
(** *** What the operations leave behind *)

Section OperationFacts.

Variable llm : LLM.
Variable panel : list PanelEntry.

(** The store after [next_question]: two runs of the graph from mode
    [route], or one if the first raised. *)
Lemma next_question_store st :
  snd (next_question llm panel st)
  = match app_invoke llm panel (mkStore (set_mode MRoute (dict st)) (world st)) with
    | (Ok _, st1) => snd (app_invoke llm panel st1)
    | (Raised _, st1) => st1
    end.
Proof.
  unfold next_question. monad_simpl.
  destruct (app_invoke llm panel _) as [[[]|e] st1]; [|reflexivity].
  destruct (app_invoke llm panel st1) as [[[]|e] st2]; reflexivity.
Qed.

(** The store after [process_user_answer]. *)
Lemma process_user_answer_store a st :
  snd (process_user_answer llm panel a st)
  = match app_invoke llm panel
            (mkStore (set_mode MFeedback (set_user_answer a (dict st))) (world st)) with
    | (Ok _, st1) =>
        snd (app_invoke llm panel
               (mkStore (set_turn_index (turn_index (dict st1) + 1) (dict st1))
                        (world st1)))
    | (Raised _, st1) => st1
    end.
Proof.
  unfold process_user_answer. monad_simpl.
  destruct (app_invoke llm panel _) as [[[]|e] st1]; [|reflexivity].
  cbn [dict world].
  destruct (app_invoke llm panel _) as [[[]|e] st2]; reflexivity.
Qed.

(** The streaming part of [stream_next_question] writes the state at one
    point only, after the last fragment. *)
Lemma stream_next_question_dict room st :
  match app_invoke llm panel (mkStore (set_mode MRoute (dict st)) (world st)) with
  | (Ok _, st1) =>
      dict (snd (stream_next_question llm panel room st)) = dict st1
      \/ (mode (dict st1) <> MDone
          /\ exists q, dict (snd (stream_next_question llm panel room st))
                       = set_mode MAwaitAnswer (set_last_question q (dict st1)))
  | (Raised _, st1) =>
      dict (snd (stream_next_question llm panel room st)) = dict st1
  end.
Proof.
  unfold stream_next_question. monad_simpl.
  destruct (app_invoke llm panel _) as [[[]|e] st1]; [|reflexivity].
  destruct (mode_eqb (mode (dict st1)) MDone) eqn:Hd; [left; reflexivity|].
  assert (Hnd : mode (dict st1) <> MDone).
  { intros H. apply mode_eqb_eq in H. congruence. }
  cbn [dict world].
  destruct (nth_error panel _) as [p|]; [|left; reflexivity].
  unfold invoke_llm_stream. monad_simpl.
  destruct (stream llm _ _ _) as [|deltas aborts]; [left; reflexivity|].
  match goal with
  | |- context [for_each (gen deltas) ?body ?st2] =>
      assert (Hk : keeps (fun a b => dict b = dict a)
                         (for_each (gen deltas) body))
        by (apply keeps_for_each;
            [reflexivity | intros; congruence | intros x st'; reflexivity]);
      specialize (Hk st2);
      destruct (for_each (gen deltas) body st2) as [[[]|e] st3]
  end; cbn [snd dict] in Hk.
  - destruct aborts; cbn [fst snd dict world].
    + left. exact Hk.
    + right. split; [exact Hnd|]. eexists. rewrite Hk. reflexivity.
  - left. exact Hk.
Qed.

Lemma app_invoke_budget st :
  same_budget st (snd (app_invoke llm panel st)).
Proof. apply (app_invoke_graph_step llm panel st). Qed.

Lemma app_invoke_done st :
  done_justified st (snd (app_invoke llm panel st)).
Proof. apply (app_invoke_graph_step llm panel st). Qed.

End OperationFacts.

(* ----------------------------------------------------------------- *)
(** *** Invariants of a session *)

Section SessionInvariants.

Variable llm : LLM.
Variable panel : list PanelEntry.

Lemma summary_keeps_dict st : dict (snd (summary llm st)) = dict st.
Proof.
  unfold summary. monad_simpl.
  destruct (history (dict st)); [reflexivity|].
  unfold invoke_llm. monad_simpl.
  destruct (plain llm _ _ _ _); reflexivity.
Qed.

Lemma done_means_stopping_step a b :
  done_means_stopping (dict a) -> graph_step a b -> done_means_stopping (dict b).
Proof.
  intros Ha [B D] Hm. rewrite (same_budget_stopping B).
  destruct (D Hm) as [H|H]; auto.
Qed.

Lemma stopping_after_turn s :
  stopping s = true -> stopping (set_turn_index (turn_index s + 1) s) = true.
Proof.
  unfold stopping. simpl. intros H.
  apply orb_true_iff in H. apply orb_true_iff.
  destruct H as [H|H]; [left; exact H | right].
  apply Z.leb_le in H. apply Z.leb_le. lia.
Qed.

Lemma exec_done_means_stopping op st :
  done_means_stopping (dict st) ->
  done_means_stopping (dict (exec llm panel op st)).
Proof.
  intros J. destruct op as [|a|room| |]; simpl.
  - rewrite next_question_store.
    set (st0 := mkStore (set_mode MRoute (dict st)) (world st)).
    assert (J0 : done_means_stopping (dict st0)) by (intros H; discriminate).
    pose proof (app_invoke_graph_step llm panel st0) as G1.
    destruct (app_invoke llm panel st0) as [[[]|e] st1]; simpl in G1.
    + eapply done_means_stopping_step; [|apply app_invoke_graph_step].
      eapply done_means_stopping_step; eauto.
    + eapply done_means_stopping_step; eauto.
  - rewrite process_user_answer_store.
    set (st0 := mkStore (set_mode MFeedback (set_user_answer a (dict st))) (world st)).
    assert (J0 : done_means_stopping (dict st0)) by (intros H; discriminate).
    pose proof (app_invoke_graph_step llm panel st0) as G1.
    destruct (app_invoke llm panel st0) as [[[]|e] st1]; simpl in G1.
    + eapply done_means_stopping_step; [|apply app_invoke_graph_step].
      assert (J1 : done_means_stopping (dict st1))
        by (eapply done_means_stopping_step; eauto).
      intros Hm. simpl in *. apply stopping_after_turn, J1, Hm.
    + eapply done_means_stopping_step; eauto.
  - pose proof (stream_next_question_dict llm panel room st) as Hs.
    set (st0 := mkStore (set_mode MRoute (dict st)) (world st)) in *.
    assert (J0 : done_means_stopping (dict st0)) by (intros H; discriminate).
    pose proof (app_invoke_graph_step llm panel st0) as G1.
    destruct (app_invoke llm panel st0) as [[[]|e] st1]; simpl in G1.
    + destruct Hs as [-> | [_ [q ->]]].
      * eapply done_means_stopping_step; eauto.
      * intros H; discriminate.
    + rewrite Hs. eapply done_means_stopping_step; eauto.
  - intros _. reflexivity.
  - rewrite summary_keeps_dict. exact J.
Qed.

Lemma init_graph_state notes mt s :
  init_graph panel notes mt = Ok s ->
  s = mkState panel notes [] 0 mt None MRoute None None None false.
Proof.
  unfold init_graph. destruct (_ <? _)%nat; congruence.
Qed.

(** In every reachable state, [done] goes with a stopping condition. *)
Lemma reachable_done_means_stopping st :
  reachable llm panel st -> done_means_stopping (dict st).
Proof.
  induction 1 as [notes mt s w Hi | op st Hr IH].
  - apply init_graph_state in Hi. subst s. intros H; discriminate.
  - now apply exec_done_means_stopping.
Qed.

(** A run of the graph from a state within its budget re-establishes the
    protocol invariant, whether it returns or raises. *)
Lemma app_invoke_protocol st :
  within_budget (dict st) ->
  protocol_invariant (dict (snd (app_invoke llm panel st))).
Proof.
  intros W. destruct st as [s w].
  pose proof (app_invoke_budget llm panel (mkStore s w)) as (Ht & Hm & Hf).
  split.
  - unfold within_budget in *. rewrite Ht, Hm. exact W.
  - destruct (stopping s) eqn:Hs.
    + rewrite app_invoke_stopping by assumption. simpl. discriminate.
    + intros _. rewrite Ht, Hm. simpl.
      unfold stopping in Hs. apply orb_false_iff in Hs. destruct Hs as [_ Hs].
      apply Z.leb_gt in Hs. exact Hs.
Qed.

Lemma exec_protocol op st :
  protocol_invariant (dict st) ->
  (forall a, op = OpAnswer a -> mode (dict st) = MAwaitAnswer) ->
  protocol_invariant (dict (exec llm panel op st)).
Proof.
  intros [W A] Hguard. destruct op as [|a|room| |]; simpl.
  - rewrite next_question_store.
    set (st0 := mkStore (set_mode MRoute (dict st)) (world st)).
    pose proof (@app_invoke_protocol st0 W) as K1.
    destruct (app_invoke llm panel st0) as [[[]|e] st1]; simpl in K1.
    + apply app_invoke_protocol, K1.
    + exact K1.
  - specialize (A (Hguard a eq_refl)).
    rewrite process_user_answer_store.
    set (st0 := mkStore (set_mode MFeedback (set_user_answer a (dict st))) (world st)).
    pose proof (@app_invoke_protocol st0 W) as K1.
    pose proof (app_invoke_budget llm panel st0) as (Ht & Hm & _).
    destruct (app_invoke llm panel st0) as [[[]|e] st1]; simpl in K1, Ht, Hm.
    + apply app_invoke_protocol. unfold within_budget in *. simpl. lia.
    + exact K1.
  - pose proof (stream_next_question_dict llm panel room st) as Hs.
    set (st0 := mkStore (set_mode MRoute (dict st)) (world st)) in *.
    pose proof (@app_invoke_protocol st0 W) as K1.
    pose proof (app_invoke_budget llm panel st0) as (Ht & Hm & _).
    destruct (stopping (dict st0)) eqn:Hstop.
    + unfold st0 in *. rewrite app_invoke_stopping in * by assumption.
      simpl in *. destruct Hs as [-> | [Hnd _]]; [exact K1 | congruence].
    + destruct (app_invoke llm panel st0) as [[[]|e] st1]; simpl in K1, Ht, Hm.
      * destruct Hs as [-> | [_ [q ->]]]; [exact K1|].
        destruct K1 as [W1 _]. split; [exact W1|]. intros _. simpl.
        rewrite Ht, Hm. simpl.
        unfold stopping in Hstop. apply orb_false_iff in Hstop.
        destruct Hstop as [_ Hstop]. apply Z.leb_gt in Hstop. exact Hstop.
      * rewrite Hs. exact K1.
  - split; [exact W | exact A].
  - rewrite summary_keeps_dict. split; [exact W | exact A].
Qed.

Lemma reachable_in_protocol_invariant st :
  reachable_in_protocol llm panel st -> protocol_invariant (dict st).
Proof.
  induction 1 as [notes mt s w Hmt Hi | op st Hr IH Hguard].
  - apply init_graph_state in Hi. subst s. split.
    + unfold within_budget. simpl. lia.
    + intros H; discriminate.
  - now apply exec_protocol.
Qed.

End SessionInvariants.

(* ----------------------------------------------------------------- *)
(** *** Runs of the graph on a three-entry panel *)

Lemma find_index_lt A (f : A -> bool) (l : list A) i :
  Py.find_index f l = Some i -> (i < List.length l)%nat.
Proof.
  revert i. induction l as [|x r IH]; simpl; intros i H; [discriminate|].
  destruct (f x).
  - injection H as <-. lia.
  - destruct (Py.find_index f r) as [j|]; [|discriminate].
    injection H as <-. specialize (IH j eq_refl). lia.
Qed.

Section ThreeEntryPanel.

Variable llm : LLM.
Variable panel : list PanelEntry.
Hypothesis panel_three : List.length panel = 3%nat.

Lemma panel_nonempty : panel <> [].
Proof. intros ->. discriminate. Qed.

Lemma index_of_agent_lt cur : (index_of_agent panel cur < 3)%nat.
Proof.
  unfold index_of_agent.
  destruct (Py.find_index _ panel) as [i|] eqn:E; [|lia].
  apply find_index_lt in E. lia.
Qed.

Lemma index_of_agent_entry cur :
  exists p, nth_error panel (index_of_agent panel cur) = Some p.
Proof.
  pose proof (index_of_agent_lt cur) as H.
  destruct (nth_error panel (index_of_agent panel cur)) as [p|] eqn:E;
    [eauto|].
  apply nth_error_None in E. lia.
Qed.

(** The edge out of [route] for a state that is not [done]. *)
Lemma from_route_cond_not_done s w :
  mode s <> MDone ->
  from_route_cond panel (mkStore s w)
  = (Ok (if Py.truthy_opt (current_agent s)
         then Goto (NSme (index_of_agent panel
                            (opt_default "" (current_agent s))))
         else END),
     mkStore s w).
Proof.
  intros Hm. unfold from_route_cond. monad_simpl.
  destruct (mode_eqb (mode s) MDone) eqn:E.
  { apply mode_eqb_eq in E. congruence. }
  destruct (current_agent s) as [cur|]; simpl; [|reflexivity].
  destruct (Py.truthy cur); simpl; [|reflexivity].
  pose proof (index_of_agent_lt cur) as H. apply Nat.ltb_lt in H.
  rewrite H. reflexivity.
Qed.

(** The ask branch of an SME node. *)
Lemma sme_ask i p s w :
  nth_error panel i = Some p -> mode s = MAsk ->
  sme llm panel i (mkStore s w) = ask_outcome llm p s w.
Proof.
  intros Hp Hm. unfold sme, ask_outcome. rewrite Hp.
  unfold node, invoke_llm. monad_simpl.
  rewrite Hm. destruct (plain llm _ _ _ _); reflexivity.
Qed.

(** The feedback branch of an SME node. *)
Lemma sme_feedback i p s w :
  nth_error panel i = Some p -> mode s = MFeedback ->
  sme llm panel i (mkStore s w) = feedback_outcome llm p s w.
Proof.
  intros Hp Hm. unfold sme, feedback_outcome. rewrite Hp.
  unfold node, invoke_llm. monad_simpl.
  rewrite Hm. destruct (plain llm _ _ _ _); reflexivity.
Qed.

(** In the other modes an SME node does nothing. *)
Lemma sme_idle i p s w :
  nth_error panel i = Some p -> mode s <> MAsk -> mode s <> MFeedback ->
  sme llm panel i (mkStore s w) = (Ok tt, mkStore s w).
Proof.
  intros Hp H1 H2. unfold sme. rewrite Hp. unfold node. monad_simpl.
  destruct (mode s); try reflexivity; congruence.
Qed.

(** From mode [route], not stopping: [route] selects the entry at the round
    robin index, and the node of the entry bearing that name asks (when the
    name is falsy the edge leads to the end at once). *)
Lemma run_ask k s w p :
  stopping s = false -> mode s = MRoute ->
  nth_error panel (route_index panel s) = Some p ->
  run llm panel (S (S k)) NRoute (mkStore s w)
  = if Py.truthy (name_or_expert (route_index panel s) p)
    then match nth_error panel
                 (index_of_agent panel (name_or_expert (route_index panel s) p)) with
         | Some pa => ask_outcome llm pa (routed panel s p) w
         | None => (Raised KeyError, mkStore (routed panel s p) w)
         end
    else (Ok tt, mkStore (routed panel s p) w).
Proof.
  intros Hs Hm Hp. cbn [run]. unfold bind at 1.
  rewrite (@route_selected panel s w p Hs Hm Hp).
  unfold bind at 1. rewrite from_route_cond_not_done by (simpl; discriminate).
  cbn [routed set_mode set_current_agent current_agent Py.truthy_opt opt_default].
  destruct (Py.truthy (name_or_expert (route_index panel s) p)) eqn:Ht;
    [|reflexivity].
  destruct (index_of_agent_entry (name_or_expert (route_index panel s) p))
    as [pa Hpa].
  rewrite Hpa. cbn [run]. unfold bind at 1.
  fold (set_current_agent (name_or_expert (route_index panel s) p) s).
  fold (set_mode MAsk (set_current_agent (name_or_expert (route_index panel s) p) s)).
  rewrite (@sme_ask _ pa _ w Hpa) by reflexivity.
  unfold ask_outcome.
  destruct (plain llm _ _ _ _); [reflexivity|].
  unfold bind, from_sme_cond. monad_simpl. reflexivity.
Qed.

(** While an answer is awaited and routing does not stop, a run of the
    graph changes nothing. *)
Lemma run_awaiting k s w :
  stopping s = false -> mode s = MAwaitAnswer ->
  run llm panel (S (S k)) NRoute (mkStore s w) = (Ok tt, mkStore s w).
Proof.
  intros Hs Hm. cbn [run]. unfold bind at 1.
  rewrite route_other_mode by (auto; congruence).
  unfold bind at 1. rewrite from_route_cond_not_done by congruence.
  destruct (Py.truthy_opt (current_agent s)); [|reflexivity].
  destruct (index_of_agent_entry (opt_default "" (current_agent s))) as [pa Hpa].
  unfold bind at 1. rewrite (@sme_idle _ pa s w Hpa) by congruence.
  unfold bind, from_sme_cond. monad_simpl. rewrite Hm. reflexivity.
Qed.

(** From mode [feedback], not stopping, with an agent set: the node of the
    entry bearing the agent's name gives feedback, and the run goes on from
    [route]. *)
Lemma run_feedback k s w pf :
  stopping s = false -> mode s = MFeedback ->
  Py.truthy_opt (current_agent s) = true ->
  nth_error panel (index_of_agent panel (opt_default "" (current_agent s))) = Some pf ->
  run llm panel (S (S (S k))) NRoute (mkStore s w)
  = match feedback_outcome llm pf s w with
    | (Ok _, st1) => run llm panel (S k) NRoute st1
    | (Raised e, st1) => (Raised e, st1)
    end.
Proof.
  intros Hs Hm Ht Hp. cbn [run]. unfold bind at 1.
  rewrite route_other_mode by (auto; congruence).
  unfold bind at 1. rewrite from_route_cond_not_done by congruence.
  rewrite Ht. unfold bind at 1.
  rewrite (@sme_feedback _ pf s w Hp Hm).
  unfold feedback_outcome.
  destruct (plain llm _ _ _ _); [reflexivity|].
  unfold bind at 1. unfold from_sme_cond. monad_simpl. reflexivity.
Qed.

(** Without an agent the edge out of [route] ends the run at once. *)
Lemma run_no_agent k s w :
  stopping s = false -> mode s <> MRoute -> mode s <> MDone ->
  Py.truthy_opt (current_agent s) = false ->
  run llm panel (S k) NRoute (mkStore s w) = (Ok tt, mkStore s w).
Proof.
  intros Hs Hm Hd Ht. cbn [run]. unfold bind at 1.
  rewrite route_other_mode by auto.
  unfold bind at 1. rewrite from_route_cond_not_done by congruence.
  rewrite Ht. reflexivity.
Qed.

(** From mode [ask] with an agent set, the agent's node asks. *)
Lemma run_asking k s w pa :
  stopping s = false -> mode s = MAsk ->
  Py.truthy_opt (current_agent s) = true ->
  nth_error panel (index_of_agent panel (opt_default "" (current_agent s))) = Some pa ->
  run llm panel (S (S k)) NRoute (mkStore s w) = ask_outcome llm pa s w.
Proof.
  intros Hs Hm Ht Hp. cbn [run]. unfold bind at 1.
  rewrite route_other_mode by (auto; congruence).
  unfold bind at 1. rewrite from_route_cond_not_done by congruence.
  rewrite Ht. unfold bind at 1.
  rewrite (@sme_ask _ pa s w Hp Hm).
  unfold ask_outcome.
  destruct (plain llm _ _ _ _); [reflexivity|].
  unfold bind, from_sme_cond. monad_simpl. reflexivity.
Qed.

(** From mode [done] the run goes through the [done] node. *)
Lemma run_done_mode k s w :
  stopping s = false -> mode s = MDone ->
  run llm panel (S (S k)) NRoute (mkStore s w) = (Ok tt, mkStore s w).
Proof.
  intros Hs Hm. cbn [run]. unfold bind at 1.
  rewrite route_other_mode by (auto; congruence).
  unfold from_route_cond, done_node. monad_simpl. rewrite Hm.
  cbn [mode_eqb]. rewrite <- Hm, set_mode_same. reflexivity.
Qed.

Hypothesis llm_ok : plain_never_raises llm.

Lemma ask_outcome_ok pa s w :
  exists q,
    ask_outcome llm pa s w
    = (Ok tt,
       mkStore (set_mode MAwaitAnswer (set_last_question q s))
               (logged w (mkCall false false (prompt_of pa) (ask_prompt s)))).
Proof.
  unfold ask_outcome.
  destruct (plain llm _ _ _ _) as [|c] eqn:E; [now apply llm_ok in E|].
  eexists. reflexivity.
Qed.

Lemma feedback_outcome_ok pf s w :
  exists fb,
    feedback_outcome llm pf s w
    = (Ok tt,
       mkStore (fed_back s fb)
               (logged w (mkCall false false (prompt_of pf) (feedback_prompt s)))).
Proof.
  unfold feedback_outcome.
  destruct (plain llm _ _ _ _) as [|c] eqn:E; [now apply llm_ok in E|].
  eexists. reflexivity.
Qed.

Lemma route_index_entry s :
  exists p, nth_error panel (route_index panel s) = Some p.
Proof.
  pose proof (route_index_in_range s panel_nonempty) as H.
  destruct (nth_error panel (route_index panel s)) as [p|] eqn:E; [eauto|].
  apply nth_error_None in E. lia.
Qed.

(** From mode [route], not stopping, with a service that answers: the run
    returns, with the round-robin entry's name as agent; the mode is
    [await_answer] after a question was generated (one call), or [ask]
    with no call when the selected name is falsy. *)
Lemma run_ask_ok k s w :
  stopping s = false -> mode s = MRoute ->
  exists p,
    nth_error panel (route_index panel s) = Some p
    /\ ((exists q pa,
           Py.truthy (name_or_expert (route_index panel s) p) = true
           /\ run llm panel (S (S k)) NRoute (mkStore s w)
              = (Ok tt,
                 mkStore (set_mode MAwaitAnswer
                            (set_last_question q (routed panel s p)))
                         (logged w (mkCall false false (prompt_of pa)
                                      (ask_prompt s)))))
        \/ (Py.truthy (name_or_expert (route_index panel s) p) = false
            /\ run llm panel (S (S k)) NRoute (mkStore s w)
               = (Ok tt, mkStore (routed panel s p) w))).
Proof.
  intros Hs Hm. destruct (route_index_entry s) as [p Hp].
  exists p. split; [exact Hp|].
  rewrite (@run_ask k s w p Hs Hm Hp).
  destruct (Py.truthy _) eqn:Ht; [left | right; auto].
  destruct (index_of_agent_entry (name_or_expert (route_index panel s) p))
    as [pa Hpa].
  rewrite Hpa. destruct (ask_outcome_ok pa (routed panel s p) w) as [q Hq].
  exists q, pa. split; [reflexivity|]. exact Hq.
Qed.


(** The same facts for [app_invoke]. *)
Lemma app_invoke_route s w :
  stopping s = false -> mode s = MRoute ->
  exists p,
    nth_error panel (route_index panel s) = Some p
    /\ ((exists q pa,
           Py.truthy (name_or_expert (route_index panel s) p) = true
           /\ app_invoke llm panel (mkStore s w)
              = (Ok tt,
                 mkStore (set_mode MAwaitAnswer
                            (set_last_question q (routed panel s p)))
                         (logged w (mkCall false false (prompt_of pa)
                                      (ask_prompt s)))))
        \/ (Py.truthy (name_or_expert (route_index panel s) p) = false
            /\ app_invoke llm panel (mkStore s w)
               = (Ok tt, mkStore (routed panel s p) w))).
Proof.
  intros Hs Hm. unfold app_invoke, recursion_limit.
  destruct (@run_ask_ok 23 s w Hs Hm) as [p [Hp [[q [pa [Ht E]]] | [Ht E]]]];
    exists p; (split; [exact Hp|]); rewrite E; [left | right; auto].
  exists q, pa. auto.
Qed.

Lemma app_invoke_settled s w :
  stopping s = false ->
  mode s = MAwaitAnswer
  \/ (mode s = MAsk /\ Py.truthy_opt (current_agent s) = false) ->
  app_invoke llm panel (mkStore s w) = (Ok tt, mkStore s w).
Proof.
  intros Hs [Hm | [Hm Ht]]; unfold app_invoke, recursion_limit.
  - rewrite run_awaiting by assumption. reflexivity.
  - rewrite run_no_agent by (auto; congruence). reflexivity.
Qed.

(** The state the feedback branch leaves. *)
Lemma app_invoke_feedback s w :
  stopping s = false -> mode s = MFeedback ->
  Py.truthy_opt (current_agent s) = true ->
  exists fb pf p,
    nth_error panel (route_index panel s) = Some p
    /\ ((exists q pa,
           Py.truthy (name_or_expert (route_index panel s) p) = true
           /\ app_invoke llm panel (mkStore s w)
              = (Ok tt,
                 mkStore (set_mode MAwaitAnswer
                            (set_last_question q
                               (routed panel (fed_back s fb) p)))
                         (logged
                            (logged w (mkCall false false (prompt_of pf)
                                         (feedback_prompt s)))
                            (mkCall false false (prompt_of pa)
                               (ask_prompt (fed_back s fb))))))
        \/ (Py.truthy (name_or_expert (route_index panel s) p) = false
            /\ app_invoke llm panel (mkStore s w)
               = (Ok tt,
                  mkStore (routed panel (fed_back s fb) p)
                          (logged w (mkCall false false (prompt_of pf)
                                       (feedback_prompt s)))))).
Proof.
  intros Hs Hm Ht. unfold app_invoke, recursion_limit.
  destruct (index_of_agent_entry (opt_default "" (current_agent s)))
    as [pf Hpf].
  rewrite (@run_feedback 22 s w pf Hs Hm Ht Hpf).
  destruct (feedback_outcome_ok pf s w) as [fb ->].
  destruct (@run_ask_ok 21 (fed_back s fb)
              (logged w (mkCall false false (prompt_of pf) (feedback_prompt s)))
              Hs eq_refl)
    as [p [Hp [[q [pa [Htn E]]] | [Htn E]]]];
    exists fb, pf, p; (split; [exact Hp|]); rewrite E; [left | right; auto].
  exists q, pa. auto.
Qed.

End ThreeEntryPanel.

(* ----------------------------------------------------------------- *)
(** *** The operations, in terms of runs of the graph *)

Section Unfoldings.

Variable llm : LLM.
Variable panel : list PanelEntry.

Lemma next_question_eq s w :
  next_question llm panel (mkStore s w)
  = match app_invoke llm panel (mkStore (set_mode MRoute s) w) with
    | (Ok _, st1) =>
        match app_invoke llm panel st1 with
        | (Ok _, st2) =>
            (Ok (opt_default "" (last_question (dict st2)),
                 opt_default "Expert" (current_agent (dict st2)),
                 mode_eqb (mode (dict st2)) MDone), st2)
        | (Raised e, st2) => (Raised e, st2)
        end
    | (Raised e, st1) => (Raised e, st1)
    end.
Proof.
  unfold next_question. monad_simpl.
  destruct (app_invoke llm panel _) as [[[]|e] st1]; [|reflexivity].
  destruct (app_invoke llm panel st1) as [[[]|e] st2]; reflexivity.
Qed.

Lemma process_user_answer_eq a s w :
  process_user_answer llm panel a (mkStore s w)
  = match app_invoke llm panel
            (mkStore (set_mode MFeedback (set_user_answer a s)) w) with
    | (Ok _, st1) =>
        match app_invoke llm panel
                (mkStore (set_turn_index (turn_index (dict st1) + 1) (dict st1))
                         (world st1)) with
        | (Ok _, st2) => (Ok (mode_eqb (mode (dict st2)) MDone), st2)
        | (Raised e, st2) => (Raised e, st2)
        end
    | (Raised e, st1) => (Raised e, st1)
    end.
Proof.
  unfold process_user_answer. monad_simpl.
  destruct (app_invoke llm panel _) as [[[]|e] st1]; [|reflexivity].
  cbn [dict world].
  destruct (app_invoke llm panel _) as [[[]|e] st2]; reflexivity.
Qed.


Lemma process_user_answer_mode_blind a m s w :
  process_user_answer llm panel a (mkStore (set_mode m s) w)
  = process_user_answer llm panel a (mkStore s w).
Proof. rewrite !process_user_answer_eq. reflexivity. Qed.

End Unfoldings.

(* ----------------------------------------------------------------- *)
(** *** One question, one answer *)

Section Turns.

Variable llm : LLM.
Variable panel : list PanelEntry.
Hypothesis panel_three : List.length panel = 3%nat.
Hypothesis llm_ok : plain_never_raises llm.

(** [next_question] in a state that is not stopping, when the entry at the
    round-robin index has a truthy name: a question is generated by one
    call, the entry's name is the agent, and an answer is awaited. *)
Lemma next_question_asks s w p nm :
  stopping s = false ->
  nth_error panel (route_index panel s) = Some p ->
  name p = Some nm -> Py.truthy nm = true ->
  exists q pa,
    next_question llm panel (mkStore s w)
    = (Ok (q, nm, false),
       mkStore (set_mode MAwaitAnswer
                  (set_last_question q (set_current_agent nm s)))
               (logged w (mkCall false false (prompt_of pa) (ask_prompt s)))).
Proof.
  intros Hs Hp Hn Ht. rewrite next_question_eq.
  destruct (@app_invoke_route llm panel panel_three llm_ok
              (set_mode MRoute s) w Hs eq_refl)
    as [p' [Hp' [[q [pa [Htn E]]] | [Htn E]]]];
    change (route_index panel (set_mode MRoute s)) with (route_index panel s) in *;
    rewrite Hp in Hp'; injection Hp' as <-;
    unfold name_or_expert in Htn; rewrite Hn in Htn; cbn [opt_default] in Htn;
    [|congruence].
  rewrite E.
  rewrite (@app_invoke_settled llm panel panel_three)
    by (auto; left; reflexivity).
  exists q, pa. unfold routed, name_or_expert. rewrite Hn. reflexivity.
Qed.

(** [process_user_answer] in a state that is not stopping and has an
    agent: feedback is generated and the turn recorded; the graph then
    routes and asks again at the same turn_index, before the counter is
    incremented; the last run of the graph only decides whether the
    session is over. *)
Lemma process_user_answer_turn a s w p nm :
  stopping s = false ->
  Py.truthy_opt (current_agent s) = true ->
  nth_error panel (route_index panel s) = Some p ->
  name p = Some nm -> Py.truthy nm = true ->
  exists fb q w',
    process_user_answer llm panel a (mkStore s w)
    = (Ok (max_turns s <=? turn_index s + 1),
       mkStore
         ((if max_turns s <=? turn_index s + 1 then set_mode MDone else fun x => x)
            (set_turn_index (turn_index s + 1)
               (set_mode MAwaitAnswer
                  (set_last_question q
                     (set_current_agent nm
                        (fed_back (set_user_answer a s) fb))))))
         w').
Proof.
  intros Hs Ha Hp Hn Ht. rewrite process_user_answer_eq.
  assert (Hf : force_stop s = false).
  { unfold stopping in Hs. now apply orb_false_iff in Hs. }
  destruct (@app_invoke_feedback llm panel panel_three llm_ok
              (set_mode MFeedback (set_user_answer a s)) w Hs eq_refl Ha)
    as [fb [pf [p' [Hp' [[q [pa [Htn E]]] | [Htn E]]]]]];
    change (route_index panel (set_mode MFeedback (set_user_answer a s)))
      with (route_index panel s) in *;
    rewrite Hp in Hp'; injection Hp' as <-;
    unfold name_or_expert in Htn; rewrite Hn in Htn; cbn [opt_default] in Htn;
    [|congruence].
  rewrite E. cbn [dict world].
  exists fb, q. eexists.
  match goal with
  | |- context [app_invoke llm panel (mkStore ?s1 ?w1)] =>
      assert (Hs1 : stopping s1 = (max_turns s <=? turn_index s + 1))
        by (unfold stopping; cbn; rewrite Hf; reflexivity);
      destruct (max_turns s <=? turn_index s + 1) eqn:Hb;
      [ rewrite (@app_invoke_stopping llm panel s1 w1 Hs1)
      | rewrite (@app_invoke_settled llm panel panel_three s1 w1 Hs1)
          by (left; reflexivity) ]
  end.
  - unfold routed, name_or_expert. rewrite Hn. reflexivity.
  - unfold routed, name_or_expert. rewrite Hn. reflexivity.
Qed.

End Turns.

Section FirstCallRaises.

Variable llm : LLM.
Variable panel : list PanelEntry.
Hypothesis panel_three : List.length panel = 3%nat.
Variable s : InterviewState.
Variable w : World.
Hypothesis Hr : next_call_raises llm w.

Lemma ask_outcome_raises pa s' :
  ask_outcome llm pa s' w
  = (Raised LLMError,
     mkStore s' (logged w (mkCall false false (prompt_of pa) (ask_prompt s')))).
Proof. unfold ask_outcome. rewrite Hr. reflexivity. Qed.

Lemma feedback_outcome_raises pf s' :
  feedback_outcome llm pf s' w
  = (Raised LLMError,
     mkStore s' (logged w (mkCall false false (prompt_of pf) (feedback_prompt s')))).
Proof. unfold feedback_outcome. rewrite Hr. reflexivity. Qed.

(** A run from mode [route] whose first call raises: either the call is
    made and the run raises in the routed state, or no call is made. *)
Lemma app_invoke_route_raises :
  stopping s = false -> mode s = MRoute ->
  exists p,
    (exists w', app_invoke llm panel (mkStore s w) = (Raised LLMError, mkStore s w'))
    \/ (Py.truthy (name_or_expert (route_index panel s) p) = false
        /\ app_invoke llm panel (mkStore s w) = (Ok tt, mkStore (routed panel s p) w)).
Proof.
  intros Hs Hm. destruct (@route_index_entry panel panel_three s) as [p Hp].
  exists p. unfold app_invoke, recursion_limit.
  rewrite (@run_ask llm panel panel_three 23 s w p Hs Hm Hp).
  destruct (Py.truthy _) eqn:Ht; [left | right; auto].
  destruct (@index_of_agent_entry panel panel_three
              (name_or_expert (route_index panel s) p)) as [pa Hpa].
  rewrite Hpa, ask_outcome_raises. eexists.
  unfold routed. cbn [dict world history set_mode set_current_agent].
  rewrite <- (set_mode_same s) at 3. rewrite Hm.
  destruct s; reflexivity.
Qed.

Lemma app_invoke_feedback_raises :
  stopping s = false -> mode s = MFeedback ->
  (exists w', app_invoke llm panel (mkStore s w) = (Raised LLMError, mkStore s w'))
  \/ (Py.truthy_opt (current_agent s) = false
      /\ app_invoke llm panel (mkStore s w) = (Ok tt, mkStore s w)).
Proof.
  intros Hs Hm. unfold app_invoke, recursion_limit.
  destruct (Py.truthy_opt (current_agent s)) eqn:Ht.
  - left.
    destruct (@index_of_agent_entry panel panel_three
                (opt_default "" (current_agent s))) as [pf Hpf].
    rewrite (@run_feedback llm panel panel_three 22 s w pf Hs Hm Ht Hpf).
    rewrite feedback_outcome_raises. eexists.
    cbn [dict world]. destruct s; reflexivity.
  - right. split; [reflexivity|].
    rewrite (@run_no_agent llm panel panel_three 24 s w Hs) by congruence.
    reflexivity.
Qed.

(** When the selected entry has a truthy name the call is made, so the
    run raises. *)
Lemma app_invoke_route_raises_named p :
  stopping s = false -> mode s = MRoute ->
  nth_error panel (route_index panel s) = Some p ->
  Py.truthy (name_or_expert (route_index panel s) p) = true ->
  exists c,
    app_invoke llm panel (mkStore s w) = (Raised LLMError, mkStore s (logged w c)).
Proof.
  intros Hs Hm Hp Ht. unfold app_invoke, recursion_limit.
  rewrite (@run_ask llm panel panel_three 23 s w p Hs Hm Hp). rewrite Ht.
  destruct (@index_of_agent_entry panel panel_three
              (name_or_expert (route_index panel s) p)) as [pa Hpa].
  rewrite Hpa, ask_outcome_raises. eexists.
  cbn [dict world]. destruct s; reflexivity.
Qed.

(** With an agent set the feedback call is made, so the run raises. *)
Lemma app_invoke_feedback_raises_agent :
  stopping s = false -> mode s = MFeedback ->
  Py.truthy_opt (current_agent s) = true ->
  exists c,
    app_invoke llm panel (mkStore s w) = (Raised LLMError, mkStore s (logged w c)).
Proof.
  intros Hs Hm Ht. unfold app_invoke, recursion_limit.
  destruct (@index_of_agent_entry panel panel_three
              (opt_default "" (current_agent s))) as [pf Hpf].
  rewrite (@run_feedback llm panel panel_three 22 s w pf Hs Hm Ht Hpf).
  rewrite feedback_outcome_raises. eexists.
  cbn [dict world]. destruct s; reflexivity.
Qed.

End FirstCallRaises.

(** [next_question] raises when its generation call does, and leaves the
    history, the counter and the stored question alone. *)
Lemma next_question_raises llm panel s w p :
  List.length panel = 3%nat -> next_call_raises llm w ->
  stopping s = false ->
  nth_error panel (route_index panel s) = Some p ->
  Py.truthy (name_or_expert (route_index panel s) p) = true ->
  fst (next_question llm panel (mkStore s w)) = Raised LLMError
  /\ history (dict (snd (next_question llm panel (mkStore s w)))) = history s
  /\ turn_index (dict (snd (next_question llm panel (mkStore s w)))) = turn_index s
  /\ last_question (dict (snd (next_question llm panel (mkStore s w))))
     = last_question s.
Proof.
  intros H3 Hr Hs Hp Ht. rewrite next_question_eq.
  destruct (@app_invoke_route_raises_named llm panel H3 (set_mode MRoute s) w Hr p
              Hs eq_refl Hp Ht) as [c E].
  rewrite E. repeat split.
Qed.

(** [process_user_answer] raises when the feedback call does, and leaves
    the history and the counter alone. *)
Lemma process_user_answer_raises llm panel a s w :
  List.length panel = 3%nat -> next_call_raises llm w ->
  stopping s = false -> Py.truthy_opt (current_agent s) = true ->
  fst (process_user_answer llm panel a (mkStore s w)) = Raised LLMError
  /\ history (dict (snd (process_user_answer llm panel a (mkStore s w)))) = history s
  /\ turn_index (dict (snd (process_user_answer llm panel a (mkStore s w))))
     = turn_index s.
Proof.
  intros H3 Hr Hs Ht. rewrite process_user_answer_eq.
  destruct (@app_invoke_feedback_raises_agent llm panel H3
              (set_mode MFeedback (set_user_answer a s)) w Hr Hs eq_refl Ht)
    as [c E].
  rewrite E. repeat split.
Qed.

Lemma next_question_raises_keeps llm panel s w e :
  List.length panel = 3%nat -> next_call_raises llm w ->
  fst (next_question llm panel (mkStore s w)) = Raised e ->
  history (dict (snd (next_question llm panel (mkStore s w)))) = history s
  /\ turn_index (dict (snd (next_question llm panel (mkStore s w)))) = turn_index s
  /\ last_question (dict (snd (next_question llm panel (mkStore s w))))
     = last_question s.
Proof.
  intros H3 Hr. rewrite next_question_eq.
  destruct (stopping s) eqn:Hs.
  { rewrite !app_invoke_stopping by assumption. discriminate. }
  destruct (@app_invoke_route_raises llm panel H3 (set_mode MRoute s) w Hr
              Hs eq_refl) as [p [[w' E] | [Ht E]]]; rewrite E.
  - intros _. repeat split.
  - rewrite (@app_invoke_settled llm panel H3) by (auto; right; auto).
    discriminate.
Qed.

Lemma process_user_answer_raises_keeps llm panel a s w e :
  List.length panel = 3%nat -> next_call_raises llm w ->
  fst (process_user_answer llm panel a (mkStore s w)) = Raised e ->
  history (dict (snd (process_user_answer llm panel a (mkStore s w)))) = history s
  /\ turn_index (dict (snd (process_user_answer llm panel a (mkStore s w))))
     = turn_index s.
Proof.
  intros H3 Hr. rewrite process_user_answer_eq.
  destruct (stopping s) eqn:Hs.
  { rewrite app_invoke_stopping by assumption. cbn [dict world].
    rewrite app_invoke_stopping by (apply stopping_after_turn; exact Hs).
    discriminate. }
  destruct (@app_invoke_feedback_raises llm panel H3
              (set_mode MFeedback (set_user_answer a s)) w Hr Hs eq_refl)
    as [[w' E] | [Ht E]]; rewrite E.
  - intros _. repeat split.
  - cbn [dict world].
    match goal with
    | |- context [app_invoke llm panel (mkStore ?s1 ?w1)] =>
        destruct (stopping s1) eqn:Hs1;
        [ rewrite (@app_invoke_stopping llm panel s1 w1 Hs1)
        | unfold app_invoke, recursion_limit;
          rewrite (@run_no_agent llm panel H3 24 s1 w1 Hs1)
            by (auto; simpl; discriminate) ]
    end; discriminate.
Qed.

(* ----------------------------------------------------------------- *)
(** *** Streaming a question *)

Lemma for_each_emit_chunks room pieces s w :
  for_each pieces (fun piece => emit (question_chunk piece room)) (mkStore s w)
  = (Ok tt,
     mkStore s (mkWorld (calls w)
                        (emitted w ++ map (fun t => question_chunk t room) pieces))).
Proof.
  revert w. induction pieces as [|x r IH]; intros w; cbn [for_each map].
  - unfold ret. rewrite app_nil_r. destruct w; reflexivity.
  - unfold bind at 1. unfold emit at 1. cbn [dict world].
    rewrite IH. cbn [calls emitted]. rewrite <- app_assoc. reflexivity.
Qed.

(** [stream_next_question] once routing has selected an agent: the events
    and the stored question, for the chunk sequence of the service. *)
Lemma stream_next_question_streams llm panel room s w s1 w1 nm pa deltas :
  app_invoke llm panel (mkStore (set_mode MRoute s) w) = (Ok tt, mkStore s1 w1) ->
  mode s1 <> MDone ->
  current_agent s1 = Some nm ->
  nth_error panel (index_of_agent panel nm) = Some pa ->
  stream llm (List.length (calls w1)) (prompt_of pa)
         (compose_context s1 ++ Py.nl ++ Py.nl ++ ask_instr)
  = StreamChunks deltas false ->
  stream_next_question llm panel room (mkStore s w)
  = (Ok (Py.strip (Py.join "" (gen deltas)), nm, false),
     mkStore (set_mode MAwaitAnswer
                (set_last_question (Py.strip (Py.join "" (gen deltas))) s1))
             (mkWorld
                (calls w1 ++ [mkCall true false (prompt_of pa)
                                (compose_context s1 ++ Py.nl ++ Py.nl ++ ask_instr)])
                (emitted w1
                 ++ [question_start nm room]
                 ++ map (fun t => question_chunk t room) (gen deltas)
                 ++ [question_end nm room]))).
Proof.
  intros E Hm Hc Hp Hst.
  unfold stream_next_question. unfold bind at 1. unfold update at 1.
  cbn [dict world]. unfold bind at 1. rewrite E.
  unfold bind at 1. unfold get_state at 1. cbn [dict world].
  destruct (mode_eqb (mode s1) MDone) eqn:Hd.
  { apply mode_eqb_eq in Hd. congruence. }
  rewrite Hc. cbn [opt_default]. rewrite Hp.
  unfold bind at 1. unfold emit at 1. cbn [dict world].
  unfold bind at 1. unfold invoke_llm_stream.
  unfold bind at 1. unfold log_call at 1. cbn [dict world logged calls emitted].
  rewrite Hst. unfold ret at 1.
  unfold bind at 1. rewrite for_each_emit_chunks.
  monad_simpl. unfold logged. cbn [calls emitted].
  rewrite <- !app_assoc. reflexivity.
Qed.

(* ----------------------------------------------------------------- *)
(** *** A fresh question at every call *)


Lemma next_question_stopping llm panel s w :
  stopping s = true ->
  next_question llm panel (mkStore s w)
  = (Ok (opt_default "" (last_question s),
         opt_default "Expert" (current_agent s), true),
     mkStore (set_mode MDone s) w).
Proof.
  intros Hs. rewrite next_question_eq.
  rewrite app_invoke_stopping by exact Hs.
  rewrite app_invoke_stopping by exact Hs. reflexivity.
Qed.

(* ----------------------------------------------------------------- *)
(** *** The sample services *)

Lemma numbered_llm_answers : plain_never_raises numbered_llm.
Proof. intros n j sys user. discriminate. Qed.

Lemma numbered_llm_streams : stream_completes numbered_llm.
Proof. intros n sys user. eexists. reflexivity. Qed.

(* ################################################################# *)
(** * The claims of the specification *)

(* ----------------------------------------------------------------- *)
(** *** C1: the route transition *)

(** C1, as stated, fails: in a state that is not stopping and whose mode is
    [await_answer] (the state of the sample session after its first
    question), [route] neither selects an agent anew nor sets mode [ask];
    it leaves the state as it is. *)
Lemma route_leaves_awaiting_state :
  stopping (dict sample_awaiting) = false
  /\ mode (dict sample_awaiting) = MAwaitAnswer
  /\ route sample_panel sample_awaiting = (Ok tt, sample_awaiting)
  /\ mode (dict (snd (route sample_panel sample_awaiting))) <> MAsk.
Proof.
  repeat split; try reflexivity. vm_compute. discriminate.
Qed.

(** C1 (amended): [route] makes no call and emits nothing, and its result
    is determined by turn_index, max_turns, force_stop, mode and the panel:
    when force_stop is set or turn_index >= max_turns it sets mode [done];
    otherwise, in mode [route], it sets current_agent to the name of
    panel[turn_index mod len(panel)] (["Expert i+1"] when the entry has no
    name) and mode [ask]; otherwise, in any other mode, it leaves the state
    unchanged.  For a panel of three entries the selected index at
    turn_index = 3k + j (0 <= j < 3) is j: the round robin 0,1,2,0,... *)
Theorem route_round_robin (panel : list PanelEntry) (s : InterviewState) (w : World) :
  panel <> [] ->
  exists p,
    nth_error panel (route_index panel s) = Some p
    /\ route panel (mkStore s w)
       = (Ok tt,
          mkStore (if stopping s then set_mode MDone s
                   else match mode s with
                        | MRoute =>
                            set_mode MAsk
                              (set_current_agent
                                 (name_or_expert (route_index panel s) p) s)
                        | _ => s
                        end)
                  w)
    /\ (List.length panel = 3%nat ->
        forall k j, 0 <= j < 3 -> turn_index s = 3 * k + j ->
                    route_index panel s = Z.to_nat j).
Proof.
  intros Hne.
  pose proof (route_index_in_range s Hne) as Hlt.
  apply nth_error_Some in Hlt.
  destruct (nth_error panel (route_index panel s)) as [p|] eqn:E; [|congruence].
  exists p. split; [reflexivity|]. split.
  - destruct (stopping s) eqn:Hs.
    + now apply route_stopping.
    + destruct (mode s) eqn:Hm;
        try (apply route_other_mode; [assumption | congruence]).
      now apply route_selected.
  - intros H3 k j Hj Ht. unfold route_index. rewrite H3, Ht.
    f_equal. change (Z.of_nat 3) with 3.
    rewrite Z.add_comm, Z.mul_comm, Z.mod_add by lia.
    now apply Z.mod_small.
Qed.

Lemma route_round_robin_witness :
  exists p,
    nth_error sample_panel (route_index sample_panel (dict sample_awaiting)) = Some p
    /\ route sample_panel (mkStore (dict sample_awaiting) empty_world)
       = (Ok tt,
          mkStore (if stopping (dict sample_awaiting)
                   then set_mode MDone (dict sample_awaiting)
                   else match mode (dict sample_awaiting) with
                        | MRoute =>
                            set_mode MAsk
                              (set_current_agent
                                 (name_or_expert
                                    (route_index sample_panel (dict sample_awaiting)) p)
                                 (dict sample_awaiting))
                        | _ => dict sample_awaiting
                        end)
                  empty_world)
    /\ (List.length sample_panel = 3%nat ->
        forall k j, 0 <= j < 3 -> turn_index (dict sample_awaiting) = 3 * k + j ->
                    route_index sample_panel (dict sample_awaiting) = Z.to_nat j).
Proof.
  apply (@route_round_robin sample_panel (dict sample_awaiting) empty_world).
  unfold sample_panel. discriminate.
Defined.

(* ----------------------------------------------------------------- *)
(** *** C2: submitting an answer outside [await_answer] *)

(** C2, as stated, fails.  In the session interrupted by a failed
    generation call the mode is [route]; [process_user_answer] then returns
    normally and the answer ends up in a turn record.  In the finished
    session the mode is [done]; [process_user_answer] returns normally and
    the state is not what it was (the answer is stored and turn_index has
    grown). *)
Lemma answer_accepted_in_any_mode :
  mode (dict sample_interrupted) = MRoute
  /\ fst (process_user_answer flaky_llm sample_panel "late" sample_interrupted)
     = Ok false
  /\ map turn_answer
       (history (dict (snd (process_user_answer flaky_llm sample_panel "late"
                              sample_interrupted))))
     = ["late"]
  /\ mode (dict sample_finished) = MDone
  /\ fst (process_user_answer numbered_llm sample_panel "late" sample_finished)
     = Ok true
  /\ turn_index (dict sample_finished) = 1
  /\ turn_index (dict (snd (process_user_answer numbered_llm sample_panel "late"
                              sample_finished))) = 2
  /\ user_answer (dict (snd (process_user_answer numbered_llm sample_panel "late"
                               sample_finished))) = Some "late".
Proof. vm_compute. repeat split. Qed.

(** C2 (amended): [process_user_answer] checks no mode and has no
    invalid-state error: whatever the mode of the state, it behaves as in
    any other mode (it overwrites mode with [feedback] before running the
    graph).  In particular, with three panel entries, a service that
    answers, no stopping condition and a current agent, it returns normally
    and appends to history a turn record that carries the supplied answer,
    also when the mode was not [await_answer]. *)
Theorem process_user_answer_ignores_mode
  (llm : LLM) (panel : list PanelEntry) (a : string) (s : InterviewState) (w : World) :
  (forall m,
      process_user_answer llm panel a (mkStore (set_mode m s) w)
      = process_user_answer llm panel a (mkStore s w))
  /\ (List.length panel = 3%nat -> plain_never_raises llm ->
      stopping s = false -> Py.truthy_opt (current_agent s) = true ->
      exists fb finished,
        fst (process_user_answer llm panel a (mkStore s w)) = Ok finished
        /\ history (dict (snd (process_user_answer llm panel a (mkStore s w))))
           = (history s
              ++ [mkTurn (opt_default "Expert" (current_agent s))
                         (opt_default "" (last_question s)) a fb])%list).
Proof.
  split; [intros m; apply process_user_answer_mode_blind|].
  intros H3 Hllm Hs Ht.
  rewrite process_user_answer_eq.
  destruct (@app_invoke_feedback llm panel H3 Hllm
              (set_mode MFeedback (set_user_answer a s)) w Hs eq_refl Ht)
    as [fb [pf [p [Hp [[q [pa [Htn E]]] | [Htn E]]]]]];
    rewrite E; cbn [dict world]; exists fb.
  - match goal with
    | |- context [app_invoke llm panel (mkStore ?s1 ?w1)] =>
        destruct (stopping s1) eqn:Hs1;
        [ rewrite (@app_invoke_stopping llm panel s1 w1 Hs1)
        | rewrite (@app_invoke_settled llm panel H3 s1 w1 Hs1)
            by (left; reflexivity) ]
    end; eexists; split; reflexivity.
  - match goal with
    | |- context [app_invoke llm panel (mkStore ?s1 ?w1)] =>
        destruct (stopping s1) eqn:Hs1;
        [ rewrite (@app_invoke_stopping llm panel s1 w1 Hs1)
        | rewrite (@app_invoke_settled llm panel H3 s1 w1 Hs1)
            by (right; split; [reflexivity | exact Htn]) ]
    end; eexists; split; reflexivity.
Qed.

Lemma process_user_answer_ignores_mode_witness :
  exists fb finished,
    fst (process_user_answer numbered_llm sample_panel "late"
           (mkStore (dict sample_interrupted) empty_world))
    = Ok finished
    /\ history (dict (snd (process_user_answer numbered_llm sample_panel "late"
                             (mkStore (dict sample_interrupted) empty_world))))
       = (history (dict sample_interrupted)
          ++ [mkTurn (opt_default "Expert" (current_agent (dict sample_interrupted)))
                     (opt_default "" (last_question (dict sample_interrupted)))
                     "late" fb])%list.
Proof.
  apply (proj2 (@process_user_answer_ignores_mode numbered_llm sample_panel "late"
                  (dict sample_interrupted) empty_world)).
  - reflexivity.
  - exact numbered_llm_answers.
  - vm_compute. reflexivity.
  - vm_compute. reflexivity.
Defined.

(* ----------------------------------------------------------------- *)
(** *** C3: failure of a generation call *)

(** C3, as stated, fails, twice over.
    (1) A generation call that returns nothing is not a failure: with the
    silent service the ask node returns normally, stores the empty string
    as last_question and sets mode [await_answer]; the feedback node
    returns normally and appends a turn record.
    (2) A raising call can leave a half-applied transition: in the sample
    session, when the feedback call is answered and the call after it
    raises, [process_user_answer] raises with the turn already appended
    to the history and turn_index still 0, and submitting the same answer
    again records it a second time. *)
Lemma generation_failure_not_as_claimed :
  (* (1) nothing returned *)
  mode (dict sample_asking) = MAsk
  /\ last_question (dict sample_asking) = None
  /\ fst (node silent_llm "You are a domain expert interviewer." sample_asking)
     = Ok tt
  /\ last_question
       (dict (snd (node silent_llm "You are a domain expert interviewer."
                     sample_asking))) = Some ""
  /\ mode (dict (snd (node silent_llm "You are a domain expert interviewer."
                        sample_asking))) = MAwaitAnswer
  /\ history (dict sample_answered) = []
  /\ fst (node silent_llm "You are a domain expert interviewer." sample_answered)
     = Ok tt
  /\ map feedback
       (history (dict (snd (node silent_llm "You are a domain expert interviewer."
                              sample_answered)))) = [""]
  (* (2) the call after the feedback call raises *)
  /\ history (dict sample_awaiting) = []
  /\ turn_index (dict sample_awaiting) = 0
  /\ fst (process_user_answer late_failing_llm sample_panel "an answer"
            sample_awaiting) = Raised LLMError
  /\ map turn_answer (history (dict sample_half_answered)) = ["an answer"]
  /\ turn_index (dict sample_half_answered) = 0
  /\ fst (process_user_answer late_failing_llm sample_panel "an answer"
            sample_half_answered) = Ok false
  /\ map turn_answer (history (dict sample_answered_twice))
     = ["an answer"; "an answer"]
  /\ turn_index (dict sample_answered_twice) = 1.
Proof. vm_compute. repeat split. Qed.

(** C3 (amended): when the generation call of the ask or feedback node
    raises, the error propagates out of the node and the node has written
    nothing (no question stored, history not appended, turn_index and mode
    as before the call).  When the first generation call of
    [next_question] or [process_user_answer] raises (three panel entries,
    routing not stopping, and the call is due: the selected entry has a
    non-empty name, respectively an agent is set), the operation raises
    with history and turn_index as they were, so a retry after such a
    failure does not count the turn twice.  A result without content is
    not a failure: the ask node stores the empty string as last_question
    and sets mode [await_answer]; the feedback node appends a turn record
    with empty feedback and sets mode [route]. *)
Theorem generation_failure_writes_nothing
  (llm : LLM) (panel : list PanelEntry) (sys : string)
  (s : InterviewState) (w : World) :
  (* the node, when the call raises *)
  (mode s = MAsk ->
   plain llm (List.length (calls w)) false sys (ask_prompt s) = PlainRaise ->
   node llm sys (mkStore s w)
   = (Raised LLMError,
      mkStore s (logged w (mkCall false false sys (ask_prompt s)))))
  /\ (mode s = MFeedback ->
      plain llm (List.length (calls w)) false sys (feedback_prompt s) = PlainRaise ->
      node llm sys (mkStore s w)
      = (Raised LLMError,
         mkStore s (logged w (mkCall false false sys (feedback_prompt s)))))
  (* the node, whenever it raises *)
  /\ (forall e, fst (node llm sys (mkStore s w)) = Raised e ->
                dict (snd (node llm sys (mkStore s w))) = s)
  (* the operations, when their first call raises *)
  /\ (List.length panel = 3%nat -> next_call_raises llm w ->
      stopping s = false ->
      forall p, nth_error panel (route_index panel s) = Some p ->
                Py.truthy (name_or_expert (route_index panel s) p) = true ->
      fst (next_question llm panel (mkStore s w)) = Raised LLMError
      /\ history (dict (snd (next_question llm panel (mkStore s w)))) = history s
      /\ turn_index (dict (snd (next_question llm panel (mkStore s w))))
         = turn_index s
      /\ last_question (dict (snd (next_question llm panel (mkStore s w))))
         = last_question s)
  /\ (List.length panel = 3%nat -> next_call_raises llm w ->
      stopping s = false -> Py.truthy_opt (current_agent s) = true ->
      forall a,
        fst (process_user_answer llm panel a (mkStore s w)) = Raised LLMError
        /\ history (dict (snd (process_user_answer llm panel a (mkStore s w))))
           = history s
        /\ turn_index (dict (snd (process_user_answer llm panel a (mkStore s w))))
           = turn_index s)
  (* the node, when the call returns nothing *)
  /\ (forall c, Py.truthy_opt c = false -> mode s = MAsk ->
      plain llm (List.length (calls w)) false sys (ask_prompt s) = PlainContent c ->
      node llm sys (mkStore s w)
      = (Ok tt,
         mkStore (set_mode MAwaitAnswer (set_last_question "" s))
                 (logged w (mkCall false false sys (ask_prompt s)))))
  /\ (forall c, Py.truthy_opt c = false -> mode s = MFeedback ->
      plain llm (List.length (calls w)) false sys (feedback_prompt s) = PlainContent c ->
      node llm sys (mkStore s w)
      = (Ok tt,
         mkStore (fed_back s "")
                 (logged w (mkCall false false sys (feedback_prompt s))))).
Proof.
  assert (Hempty : forall c, Py.truthy_opt c = false ->
                             Py.strip (Py.or_else c "") = "").
  { intros [[|ch r]|] Hc; try reflexivity. discriminate. }
  repeat apply conj.
  - intros Hm Hr. unfold node, invoke_llm. monad_simpl. rewrite Hm.
    cbn [dict world]. rewrite Hr. reflexivity.
  - intros Hm Hr. unfold node, invoke_llm. monad_simpl. rewrite Hm.
    cbn [dict world]. rewrite Hr. reflexivity.
  - intros e. unfold node, invoke_llm. monad_simpl.
    destruct (mode s); try discriminate;
      destruct (plain llm _ _ _ _); simpl; try discriminate; reflexivity.
  - intros H3 Hr Hs p Hp Ht. now apply (@next_question_raises llm panel s w p).
  - intros H3 Hr Hs Ht a. now apply process_user_answer_raises.
  - intros c Hc Hm Hr. unfold node, invoke_llm. monad_simpl.
    rewrite Hm. cbn [dict world]. rewrite Hr. cbn [dict world].
    rewrite (Hempty c Hc). reflexivity.
  - intros c Hc Hm Hr. unfold node, invoke_llm. monad_simpl.
    rewrite Hm. cbn [dict world]. rewrite Hr. cbn [dict world].
    rewrite (Hempty c Hc). reflexivity.
Qed.

(** The failing service on the sample session: the first question cannot
    be generated and the first answer cannot be given feedback; each
    operation raises and nothing is recorded. *)
Lemma generation_failure_writes_nothing_witness :
  (fst (next_question failing_llm sample_panel (sample_start 8)) = Raised LLMError
   /\ history (dict (snd (next_question failing_llm sample_panel (sample_start 8))))
      = []
   /\ turn_index (dict (snd (next_question failing_llm sample_panel (sample_start 8))))
      = 0
   /\ last_question
        (dict (snd (next_question failing_llm sample_panel (sample_start 8))))
      = None)
  /\ (fst (process_user_answer failing_llm sample_panel "an answer"
             (mkStore (dict sample_awaiting) empty_world)) = Raised LLMError
      /\ history (dict (snd (process_user_answer failing_llm sample_panel
                               "an answer"
                               (mkStore (dict sample_awaiting) empty_world))))
         = history (dict sample_awaiting)
      /\ turn_index (dict (snd (process_user_answer failing_llm sample_panel
                                  "an answer"
                                  (mkStore (dict sample_awaiting) empty_world))))
         = turn_index (dict sample_awaiting)).
Proof.
  split.
  - apply (proj1 (proj2 (proj2 (proj2
             (@generation_failure_writes_nothing failing_llm sample_panel
                "You are a domain expert interviewer."
                (dict (sample_start 8)) empty_world)))))
      with (p := mkEntry (Some "Domain Expert")
                         (Some "You are a domain expert interviewer.")).
    + reflexivity.
    + intros j sys user. reflexivity.
    + vm_compute. reflexivity.
    + vm_compute. reflexivity.
    + vm_compute. reflexivity.
  - apply (proj1 (proj2 (proj2 (proj2 (proj2
             (@generation_failure_writes_nothing failing_llm sample_panel
                "You are a domain expert interviewer."
                (dict sample_awaiting) empty_world)))))).
    + reflexivity.
    + intros j sys user. reflexivity.
    + vm_compute. reflexivity.
    + vm_compute. reflexivity.
Defined.

(* ----------------------------------------------------------------- *)
(** *** C4: [done] is terminal *)

(** C4: in every state a session can reach, once the mode is [done] every
    operation ([next_question], [process_user_answer],
    [stream_next_question], [stop], [summary]) leaves the mode [done], the
    current agent as it was and the history as it was. *)
Theorem done_is_terminal
  (llm : LLM) (panel : list PanelEntry) (st : Store) (op : Op) :
  reachable llm panel st ->
  mode (dict st) = MDone ->
  mode (dict (exec llm panel op st)) = MDone
  /\ current_agent (dict (exec llm panel op st)) = current_agent (dict st)
  /\ history (dict (exec llm panel op st)) = history (dict st).
Proof.
  intros Hr Hm.
  pose proof (reachable_done_means_stopping Hr Hm) as Hs.
  destruct st as [s w]. cbn [dict] in *.
  destruct op as [|a|room| |]; cbn [exec].
  - rewrite next_question_eq.
    rewrite app_invoke_stopping by exact Hs.
    rewrite app_invoke_stopping by exact Hs.
    cbn. auto.
  - rewrite process_user_answer_eq.
    rewrite app_invoke_stopping by exact Hs. cbn [dict world].
    rewrite app_invoke_stopping by (apply stopping_after_turn; exact Hs).
    cbn. auto.
  - unfold stream_next_question. monad_simpl.
    rewrite app_invoke_stopping by exact Hs. cbn. auto.
  - cbn. rewrite Hm. auto.
  - rewrite summary_keeps_dict. cbn. auto.
Qed.

Lemma sample_finished_reachable :
  reachable numbered_llm sample_panel sample_finished.
Proof.
  unfold sample_finished. do 2 apply reach_step.
  apply reach_init with (notes := "") (mt := 1). reflexivity.
Qed.

Lemma done_is_terminal_witness :
  mode (dict (exec numbered_llm sample_panel (OpAnswer "late") sample_finished))
  = MDone
  /\ current_agent
       (dict (exec numbered_llm sample_panel (OpAnswer "late") sample_finished))
     = current_agent (dict sample_finished)
  /\ history (dict (exec numbered_llm sample_panel (OpAnswer "late") sample_finished))
     = history (dict sample_finished).
Proof.
  apply (@done_is_terminal numbered_llm sample_panel sample_finished
           (OpAnswer "late")).
  - exact sample_finished_reachable.
  - vm_compute. reflexivity.
Defined.

(* ----------------------------------------------------------------- *)
(** *** C5: the turn counter and the budget *)

(** C5, as stated, fails: [process_user_answer] increments turn_index
    whatever the state.  Submitting one more answer to the finished sample
    session (budget 1) is a sequence of exposed operations, and it leaves
    turn_index = 2. *)
Lemma turn_index_can_pass_budget :
  reachable numbered_llm sample_panel sample_overrun
  /\ max_turns (dict sample_overrun) = 1
  /\ turn_index (dict sample_overrun) = 2.
Proof.
  split.
  - unfold sample_overrun. apply reach_step. exact sample_finished_reachable.
  - vm_compute. auto.
Qed.

(** C5 (amended): in every state reachable from [init_graph] with a
    non-negative budget by operations among which [process_user_answer] is
    applied only in mode [await_answer], 0 <= turn_index <= max_turns; and
    [route], evaluated in any state with turn_index = max_turns, sets mode
    [done]. *)
Theorem turn_index_within_budget
  (llm : LLM) (panel : list PanelEntry) (st : Store) :
  reachable_in_protocol llm panel st ->
  0 <= turn_index (dict st) <= max_turns (dict st)
  /\ (forall s w, turn_index s = max_turns s ->
                  route panel (mkStore s w) = (Ok tt, mkStore (set_mode MDone s) w)).
Proof.
  intros Hr. split.
  - apply (reachable_in_protocol_invariant Hr).
  - intros s w Ht. apply route_stopping. unfold stopping.
    rewrite Ht, Z.leb_refl. apply orb_true_r.
Qed.

Lemma sample_finished_in_protocol :
  reachable_in_protocol numbered_llm sample_panel sample_finished.
Proof.
  unfold sample_finished. apply proto_step.
  - apply proto_step.
    + apply proto_init with (notes := "") (mt := 1); [lia | reflexivity].
    + intros a H. discriminate.
  - intros a _. vm_compute. reflexivity.
Qed.

Lemma turn_index_within_budget_witness :
  0 <= turn_index (dict sample_finished) <= max_turns (dict sample_finished)
  /\ (forall s w, turn_index s = max_turns s ->
                  route sample_panel (mkStore s w)
                  = (Ok tt, mkStore (set_mode MDone s) w)).
Proof.
  apply (@turn_index_within_budget numbered_llm sample_panel sample_finished).
  exact sample_finished_in_protocol.
Defined.

(* ----------------------------------------------------------------- *)
(** *** C6: the end-to-end scenario *)

(** C6, as stated, fails in one place: after the first answer the current
    agent is still panel entry 0.  The graph routes again before
    turn_index is incremented, and the run that follows the increment
    finds mode [await_answer] and selects nothing.  The rest of the
    scenario is as the claim says. *)
Lemma first_answer_keeps_first_agent :
  fst scenario_q1 = Ok ("text 0", "Domain Expert", false)
  /\ fst scenario_a1 = Ok false
  /\ turn_index (dict (snd scenario_a1)) = 1
  /\ List.length (history (dict (snd scenario_a1))) = 1%nat
  /\ current_agent (dict (snd scenario_a1)) = Some "Domain Expert"
  /\ option_map name (nth_error sample_panel 1) = Some (Some "Systems Expert")
  /\ fst scenario_q2 = Ok ("text 3", "Systems Expert", false)
  /\ fst scenario_a2 = Ok true.
Proof. vm_compute. repeat split. Qed.

(** C6 (amended): for a session initialised with a three-entry panel whose
    first two entries have non-empty names, a budget of two turns and a
    service that answers: the first [next_question] returns entry 0 as
    agent and leaves mode [await_answer]; the first [process_user_answer]
    returns done = false with one turn in history, turn_index 1 and the
    current agent still entry 0's name; the second [next_question] returns
    entry 1 as agent; the second [process_user_answer] returns done = true
    with two turns in history. *)
Theorem two_turn_scenario
  (llm : LLM) (p0 p1 p2 : PanelEntry) (n0 n1 notes a b : string)
  (s0 : InterviewState) (w : World) :
  plain_never_raises llm ->
  name p0 = Some n0 -> Py.truthy n0 = true ->
  name p1 = Some n1 -> Py.truthy n1 = true ->
  init_graph [p0; p1; p2] notes 2 = Ok s0 ->
  exists q1 st1 st2 q2 st3 st4,
    next_question llm [p0; p1; p2] (mkStore s0 w) = (Ok (q1, n0, false), st1)
    /\ mode (dict st1) = MAwaitAnswer
    /\ process_user_answer llm [p0; p1; p2] a st1 = (Ok false, st2)
    /\ List.length (history (dict st2)) = 1%nat
    /\ turn_index (dict st2) = 1
    /\ current_agent (dict st2) = Some n0
    /\ next_question llm [p0; p1; p2] st2 = (Ok (q2, n1, false), st3)
    /\ process_user_answer llm [p0; p1; p2] b st3 = (Ok true, st4)
    /\ List.length (history (dict st4)) = 2%nat.
Proof.
  intros Hllm Hn0 Ht0 Hn1 Ht1 Hi.
  apply init_graph_state in Hi. subst s0.
  set (panel := [p0; p1; p2]).
  assert (H3 : List.length panel = 3%nat) by reflexivity.
  (* first question *)
  destruct (@next_question_asks llm panel H3 Hllm
              (mkState panel notes [] 0 2 None MRoute None None None false)
              w p0 n0 eq_refl eq_refl Hn0 Ht0) as [q1 [pa1 E1]].
  (* first answer *)
  match type of E1 with
  | _ = (_, mkStore ?s1 ?w1) =>
      destruct (@process_user_answer_turn llm panel H3 Hllm a s1 w1 p0 n0
                  eq_refl Ht0 eq_refl Hn0 Ht0) as [fb1 [q1' [w2 E2]]]
  end.
  cbn [set_turn_index set_mode set_last_question set_current_agent
       turn_index max_turns] in E2.
  change (2 <=? 0 + 1) with false in E2. cbv beta iota in E2.
  (* second question *)
  match type of E2 with
  | _ = (_, mkStore ?s2 ?w2') =>
      destruct (@next_question_asks llm panel H3 Hllm s2 w2' p1 n1
                  eq_refl eq_refl Hn1 Ht1) as [q2 [pa2 E3]]
  end.
  (* second answer *)
  match type of E3 with
  | _ = (_, mkStore ?s3 ?w3) =>
      destruct (@process_user_answer_turn llm panel H3 Hllm b s3 w3 p1 n1
                  eq_refl Ht1 eq_refl Hn1 Ht1) as [fb2 [q2' [w4 E4]]]
  end.
  cbn [set_turn_index set_mode set_last_question set_current_agent
       turn_index max_turns] in E4.
  change (2 <=? 0 + 1 + 1) with true in E4. cbv beta iota in E4.
  do 6 eexists.
  split; [exact E1|]. split; [reflexivity|].
  split; [exact E2|]. split; [reflexivity|].
  split; [reflexivity|]. split; [reflexivity|].
  split; [exact E3|]. split; [exact E4|]. reflexivity.
Qed.

Lemma two_turn_scenario_witness :
  exists q1 st1 st2 q2 st3 st4,
    next_question numbered_llm sample_panel (sample_start 2)
    = (Ok (q1, "Domain Expert", false), st1)
    /\ mode (dict st1) = MAwaitAnswer
    /\ process_user_answer numbered_llm sample_panel "answer A" st1 = (Ok false, st2)
    /\ List.length (history (dict st2)) = 1%nat
    /\ turn_index (dict st2) = 1
    /\ current_agent (dict st2) = Some "Domain Expert"
    /\ next_question numbered_llm sample_panel st2
       = (Ok (q2, "Systems Expert", false), st3)
    /\ process_user_answer numbered_llm sample_panel "answer B" st3 = (Ok true, st4)
    /\ List.length (history (dict st4)) = 2%nat.
Proof.
  exact (@two_turn_scenario numbered_llm
           (mkEntry (Some "Domain Expert") (Some "You are a domain expert interviewer."))
           (mkEntry (Some "Systems Expert") (Some "You are a systems design interviewer."))
           (mkEntry (Some "Behavioral Expert") (Some "You are a behavioral interviewer."))
           "Domain Expert" "Systems Expert" "" "answer A" "answer B"
           (dict (sample_start 2)) empty_world
           numbered_llm_answers eq_refl eq_refl eq_refl eq_refl eq_refl).
Defined.

(* ----------------------------------------------------------------- *)
(** *** C7: streaming the next question *)

(** C7: when routing ends the session (force_stop set or turn_index >=
    max_turns), [stream_next_question] makes no generation call, emits
    nothing and returns done = true.  Otherwise (three panel entries, a
    service that answers and whose stream completes) it emits one start
    event carrying the agent selected by routing, then one chunk event per
    fragment in arrival order, then one end event, and it stores the
    stripped concatenation of the fragments as last_question with mode
    [await_answer]; the fragments are those of the streaming call, the
    last call logged. *)
Theorem stream_next_question_events
  (llm : LLM) (panel : list PanelEntry) (room : string)
  (s : InterviewState) (w : World) :
  (stopping s = true ->
   stream_next_question llm panel room (mkStore s w)
   = (Ok ("", "", true), mkStore (set_mode MDone s) w))
  /\ (List.length panel = 3%nat -> plain_never_raises llm -> stream_completes llm ->
      stopping s = false ->
      exists p deltas sys user earlier st',
        nth_error panel (route_index panel s) = Some p
        /\ stream_next_question llm panel room (mkStore s w)
           = (Ok (Py.strip (Py.join "" (gen deltas)),
                  name_or_expert (route_index panel s) p, false), st')
        /\ calls (world st') = (earlier ++ [mkCall true false sys user])%list
        /\ stream llm (List.length earlier) sys user = StreamChunks deltas false
        /\ emitted (world st')
           = (emitted w
              ++ [question_start (name_or_expert (route_index panel s) p) room]
              ++ map (fun t => question_chunk t room) (gen deltas)
              ++ [question_end (name_or_expert (route_index panel s) p) room])%list
        /\ last_question (dict st') = Some (Py.strip (Py.join "" (gen deltas)))
        /\ mode (dict st') = MAwaitAnswer).
Proof.
  split.
  - intros Hs. unfold stream_next_question. monad_simpl.
    rewrite app_invoke_stopping by exact Hs. reflexivity.
  - intros H3 Hllm Hstream Hs.
    destruct (@app_invoke_route llm panel H3 Hllm (set_mode MRoute s) w Hs eq_refl)
      as [p [Hp [[q [pa [Ht E]]] | [Ht E]]]];
      change (route_index panel (set_mode MRoute s)) with (route_index panel s) in *;
      destruct (@index_of_agent_entry panel H3
                  (name_or_expert (route_index panel s) p)) as [pb Hpb];
      match type of E with
      | _ = (_, mkStore ?s1 ?w1) =>
          destruct (Hstream (List.length (calls w1)) (prompt_of pb)
                      (compose_context s1 ++ Py.nl ++ Py.nl ++ ask_instr))
            as [deltas Hd];
          pose proof (@stream_next_question_streams llm panel room s w s1 w1
                        (name_or_expert (route_index panel s) p) pb deltas
                        E ltac:(cbn; discriminate) eq_refl Hpb Hd) as Hfull
      end;
      exists p, deltas; do 3 eexists; eexists;
      (split; [exact Hp|]); (split; [exact Hfull|]);
      cbn [dict world calls emitted logged mode last_question set_mode
           set_last_question];
      repeat split; exact Hd.
Qed.

Lemma stream_next_question_events_witness :
  exists p deltas sys user earlier st',
    nth_error sample_panel (route_index sample_panel (dict (sample_start 8)))
    = Some p
    /\ stream_next_question numbered_llm sample_panel "room-1"
         (mkStore (dict (sample_start 8)) empty_world)
       = (Ok (Py.strip (Py.join "" (gen deltas)),
              name_or_expert (route_index sample_panel (dict (sample_start 8))) p,
              false), st')
    /\ calls (world st') = (earlier ++ [mkCall true false sys user])%list
    /\ stream numbered_llm (List.length earlier) sys user = StreamChunks deltas false
    /\ emitted (world st')
       = (emitted empty_world
          ++ [question_start
                (name_or_expert (route_index sample_panel (dict (sample_start 8))) p)
                "room-1"]
          ++ map (fun t => question_chunk t "room-1") (gen deltas)
          ++ [question_end
                (name_or_expert (route_index sample_panel (dict (sample_start 8))) p)
                "room-1"])%list
    /\ last_question (dict st') = Some (Py.strip (Py.join "" (gen deltas)))
    /\ mode (dict st') = MAwaitAnswer.
Proof.
  exact (proj2 (@stream_next_question_events numbered_llm sample_panel "room-1"
                  (dict (sample_start 8)) empty_world)
               eq_refl numbered_llm_answers numbered_llm_streams eq_refl).
Defined.

(** The streamed sample question, as a check of the model: the fragments
    with content, in order, and the stripped text. *)
Example stream_sample :
  fst (stream_next_question numbered_llm sample_panel "room-1" (sample_start 8))
  = Ok ("Tell me about queues.", "Domain Expert", false)
  /\ emitted (world (snd (stream_next_question numbered_llm sample_panel "room-1"
                            (sample_start 8))))
     = [ question_start "Domain Expert" "room-1";
         question_chunk " Tell me " "room-1";
         question_chunk "about " "room-1";
         question_chunk "queues. " "room-1";
         question_end "Domain Expert" "room-1" ].
Proof. vm_compute. split; reflexivity. Qed.

(* ----------------------------------------------------------------- *)
(** *** C8: panel resolution *)

Section PanelFacts.

Variable Num : Type.
Variable num_truthy : Num -> bool.
Variable json_loads : string -> option (Json Num).

Lemma normalize_length panel : forall i out,
  normalize num_truthy i panel = Some out ->
  List.length out = List.length panel
  /\ Forall (fun v => exists items, v = JDict items) panel.
Proof.
  induction panel as [|v r IH]; intros i out H; cbn [normalize] in H.
  - injection H as <-. split; [reflexivity | constructor].
  - destruct v; try discriminate.
    destruct (normalize num_truthy (S i) r) as [out'|] eqn:E; [|discriminate].
    injection H as <-. destruct (IH _ _ E) as [Hl Hf].
    split; [simpl; congruence|]. constructor; eauto.
Qed.

(** When the [try] block returns, the reply had the expected shape and
    the panel has three entries. *)
Lemma try_parse_some content out :
  try_parse num_truthy json_loads content = Some out ->
  List.length out = 3%nat /\ parses_as_three_objects json_loads content.
Proof.
  unfold try_parse. intros H.
  destruct content as [text|]; [|discriminate].
  destruct (json_loads text) as [[| | | | |items]|] eqn:El; try discriminate.
  destruct (dict_get "panel" items) as [[| | | |panel|]|] eqn:Eg; try discriminate.
  destruct (List.length panel =? 3)%nat eqn:E3; [|discriminate].
  apply Nat.eqb_eq in E3.
  destruct (normalize_length _ _ H) as [Hl Hf]. split; [congruence|].
  destruct panel as [|x [|y [|z [|]]]]; simpl in E3; try lia.
  inversion Hf as [|? ? [a Ha] Hf1]. inversion Hf1 as [|? ? [b Hb] Hf2].
  inversion Hf2 as [|? ? [c Hc] _]. subst.
  exists text, items, a, b, c. auto.
Qed.

End PanelFacts.

(** C8: for every result of the generation call, the panel returned has
    exactly three entries; and unless the result parses as an object whose
    'panel' is a list of exactly three objects, it is the fixed fallback
    panel.  [propose_panel_from_jd] returns that panel whenever the
    generation call returns. *)
Theorem panel_has_three_entries
  (Num : Type) (num_truthy : Num -> bool)
  (json_loads : string -> option (Json Num)) (content : option string) :
  List.length (panel_of_content num_truthy json_loads content) = 3%nat
  /\ (~ parses_as_three_objects json_loads content ->
      panel_of_content num_truthy json_loads content = fallback_panel Num)
  /\ (forall llm jd w,
        plain llm (List.length (calls w)) true JD_PANEL_PROMPT (panel_user_prompt jd)
        = PlainContent content ->
        fst (propose_panel_from_jd num_truthy json_loads llm jd w)
        = Ok (panel_of_content num_truthy json_loads content)).
Proof.
  unfold panel_of_content. repeat split.
  - destruct (try_parse num_truthy json_loads content) as [out|] eqn:E.
    + apply (try_parse_some _ _ _ E).
    + reflexivity.
  - intros Hn.
    destruct (try_parse num_truthy json_loads content) as [out|] eqn:E.
    + destruct Hn. apply (try_parse_some _ _ _ E).
    + reflexivity.
  - intros llm jd w Hr. unfold propose_panel_from_jd. rewrite Hr. reflexivity.
Qed.

(** The two sample replies: two entries give the fallback panel; three
    entries are normalised, a falsy name or prompt replaced by its
    default. *)
Example panel_of_sample_replies :
  panel_of_content nonzero (loads_as two_entry_reply) (Some "{...}")
  = fallback_panel Z
  /\ panel_of_content nonzero (loads_as three_entry_reply) (Some "{...}")
     = [ mkPanelDict (JStr "A") (JStr "a");
         mkPanelDict (JStr "Expert 2") (JNum 7);
         mkPanelDict (JStr "Expert 3")
                     (JStr "You are a helpful expert interviewer.") ]
  /\ panel_of_content nonzero (loads_as three_entry_reply) None
     = fallback_panel Z.
Proof. vm_compute. repeat split. Qed.

(* ----------------------------------------------------------------- *)
(** *** C9: summary of an empty history *)

(** C9: with an empty history [summary] returns the fixed sentence and
    leaves the world as it was: no generation call is made. *)
Theorem summary_of_empty_history (llm : LLM) (s : InterviewState) (w : World) :
  history s = [] ->
  summary llm (mkStore s w) = (Ok "No interview conducted.", mkStore s w).
Proof.
  intros H. unfold summary. monad_simpl. rewrite H. reflexivity.
Qed.

Lemma summary_of_empty_history_witness :
  summary failing_llm (mkStore (dict (sample_start 8)) empty_world)
  = (Ok "No interview conducted.", mkStore (dict (sample_start 8)) empty_world).
Proof.
  apply (@summary_of_empty_history failing_llm (dict (sample_start 8)) empty_world).
  reflexivity.
Defined.

(* ----------------------------------------------------------------- *)
(** *** C10: [next_question] validates no mode *)



(** The sample session, asked again while an answer is awaited: the
    pending question is replaced by the text of a new call, and the turn
    counter stays where it was. *)
Example next_question_again :
  last_question (dict sample_awaiting) = Some "text 0"
  /\ fst (next_question numbered_llm sample_panel sample_awaiting)
     = Ok ("text 1", "Domain Expert", false)
  /\ turn_index (dict (snd (next_question numbered_llm sample_panel sample_awaiting)))
     = turn_index (dict sample_awaiting)
  /\ last_question (dict sample_finished) = Some "text 2"
  /\ fst (next_question numbered_llm sample_panel sample_finished)
     = Ok ("text 2", "Domain Expert", true).
Proof. vm_compute. repeat split. Qed.

(* ################################################################# *)
(** * Further properties of the code *)

(* ----------------------------------------------------------------- *)
(** *** Invariants of a run of the graph *)

Section RunInvariants.

Variable llm : LLM.
Variable panel : list PanelEntry.

(** A property of the store kept by every node is kept by a run. *)
Lemma run_invariant (P : Store -> Prop) :
  (forall st, P st -> P (snd (route panel st))) ->
  (forall i st, P st -> P (snd (sme llm panel i st))) ->
  (forall st, P st -> P (snd (done_node st))) ->
  forall fuel n st, P st -> P (snd (run llm panel fuel n st)).
Proof.
  intros Hroute Hsme Hdone.
  induction fuel as [|fuel IH]; intros n st HP; cbn [run].
  - exact HP.
  - destruct n as [|i|].
    + unfold bind. specialize (Hroute st HP).
      destruct (route panel st) as [[[]|e] st1]; cbn [snd] in *; [|exact Hroute].
      destruct (from_route_cond_reads panel st1) as [Hsame _].
      destruct (from_route_cond panel st1) as [[t|e] st2]; cbn [snd] in *;
        subst st2; [|exact Hroute].
      destruct t as [n'|]; [|exact Hroute]. now apply IH.
    + unfold bind. specialize (Hsme i st HP).
      destruct (sme llm panel i st) as [[[]|e] st1]; cbn [snd] in *; [|exact Hsme].
      destruct (from_sme_cond_reads st1) as [Hsame _].
      destruct (from_sme_cond st1) as [[t|e] st2]; cbn [snd] in *;
        subst st2; [|exact Hsme].
      destruct t as [n'|]; [|exact Hsme]. now apply IH.
    + now apply Hdone.
Qed.

(** What [route] can do to a store, whatever the panel. *)
Lemma route_cases st :
  snd (route panel st) = st
  \/ snd (route panel st) = mkStore (set_mode MDone (dict st)) (world st)
  \/ (mode (dict st) = MRoute
      /\ exists nm, snd (route panel st)
                    = mkStore (set_mode MAsk (set_current_agent nm (dict st)))
                              (world st)).
Proof.
  unfold route. monad_simpl.
  destruct (stopping (dict st)); [right; left; reflexivity|].
  destruct (mode (dict st)) eqn:Hm; try (left; reflexivity).
  destruct panel as [|p0 r]; [left; reflexivity|].
  destruct (nth_error (p0 :: r) _); [|left; reflexivity].
  right. right. split; [reflexivity|]. eexists. reflexivity.
Qed.

(** What an SME node can do to the state. *)
Lemma sme_cases i st :
  dict (snd (sme llm panel i st)) = dict st
  \/ (mode (dict st) = MAsk
      /\ exists q, dict (snd (sme llm panel i st))
                   = set_mode MAwaitAnswer (set_last_question q (dict st)))
  \/ (mode (dict st) = MFeedback
      /\ exists fb, dict (snd (sme llm panel i st)) = fed_back (dict st) fb).
Proof.
  unfold sme. destruct (nth_error panel i) as [p|]; [|left; reflexivity].
  unfold node, invoke_llm. monad_simpl.
  destruct (mode (dict st)) eqn:Hm; try (left; reflexivity);
    destruct (plain llm _ _ _ _); cbn [fst snd dict world];
    try (left; reflexivity).
  - right. left. split; [reflexivity|]. eexists. reflexivity.
  - right. right. split; [reflexivity|]. eexists. reflexivity.
Qed.

(** Started outside mode [feedback], a run records nothing. *)
Lemma run_nothing_recorded s fuel n st :
  nothing_recorded s st -> nothing_recorded s (snd (run llm panel fuel n st)).
Proof.
  apply run_invariant; clear st.
  - intros st [Hm Hh].
    destruct (route_cases st) as [-> | [-> | [_ [nm ->]]]];
      [split; assumption | split; [discriminate | exact Hh]
       | split; [discriminate | exact Hh]].
  - intros i st [Hm Hh]. unfold nothing_recorded.
    destruct (sme_cases i st) as [-> | [[_ [q ->]] | [Hf _]]];
      [split; assumption | split; [discriminate | exact Hh] | congruence].
  - intros st [Hm Hh]. split; [discriminate | exact Hh].
Qed.

Lemma app_invoke_nothing_recorded s st :
  nothing_recorded s st -> nothing_recorded s (snd (app_invoke llm panel st)).
Proof.
  intros H. unfold app_invoke.
  pose proof (@run_nothing_recorded s recursion_limit NRoute st H) as [Hm Hh].
  destruct (run llm panel recursion_limit NRoute st) as [[[]|e] st1];
    cbn [snd] in *.
  - split; assumption.
  - destruct H as [Hm0 Hh0]. split; [exact Hm0 | exact Hh].
Qed.

(** Started by [process_user_answer], a run records at most the one turn
    of the answer. *)
Lemma run_feedback_once s a fuel n st :
  feedback_pending_or_recorded s a st ->
  feedback_pending_or_recorded s a (snd (run llm panel fuel n st)).
Proof.
  apply run_invariant; clear st.
  - intros st H.
    destruct (route_cases st) as [-> | [-> | [Hr [nm ->]]]]; [exact H | |].
    + right. split; [discriminate|].
      destruct H as [(_ & Hh & _) | [_ Hh]]; [left; exact Hh | exact Hh].
    + right. split; [discriminate|].
      destruct H as [(Hm & _) | [_ Hh]]; [congruence | exact Hh].
  - intros i st H.
    destruct (sme_cases i st) as [E | [[Ha [q E]] | [Hf [fb E]]]].
    + unfold feedback_pending_or_recorded. rewrite E. exact H.
    + right. rewrite E. split; [discriminate|].
      destruct H as [(Hm & _) | [_ Hh]]; [congruence | exact Hh].
    + right. rewrite E. split; [discriminate|].
      destruct H as [(_ & Hh & Hc & Hq & Hu) | [Hm _]]; [|congruence].
      right. exists fb. cbn. unfold turn_of, answered_turn.
      rewrite Hh, Hc, Hq, Hu. reflexivity.
  - intros st H. right. split; [discriminate|].
    destruct H as [(_ & Hh & _) | [_ Hh]]; [left; exact Hh | exact Hh].
Qed.

End RunInvariants.

(* ----------------------------------------------------------------- *)
(** *** What the operations record, for any panel and any service *)

Section Recording.

Variable llm : LLM.
Variable panel : list PanelEntry.

Lemma app_invoke_feedback_once s a st :
  feedback_pending_or_recorded s a st ->
  (fst (app_invoke llm panel st) = Ok tt ->
   feedback_pending_or_recorded s a (snd (app_invoke llm panel st)))
  /\ (history (dict (snd (app_invoke llm panel st))) = history s
      \/ exists fb, history (dict (snd (app_invoke llm panel st)))
                    = (history s ++ [answered_turn s a fb])%list).
Proof.
  intros H. unfold app_invoke.
  pose proof (@run_feedback_once llm panel s a recursion_limit NRoute st H) as H1.
  destruct (run llm panel recursion_limit NRoute st) as [[[]|e] st1];
    cbn [fst snd dict] in *.
  - split; [intros _; exact H1|].
    destruct H1 as [(_ & Hh & _) | [_ Hh]]; [left; exact Hh | exact Hh].
  - split; [discriminate|].
    destruct H1 as [(_ & Hh & _) | [_ Hh]]; [left; exact Hh | exact Hh].
Qed.

End Recording.

(** X1: [next_question], [stream_next_question], [stop] and [summary]
    never touch the history, the turn counter or the budget, whatever the
    panel and whatever the service does (answer, return nothing, raise). *)
Theorem only_answers_are_recorded
  (llm : LLM) (panel : list PanelEntry) (op : Op) (st : Store) :
  (forall a, op <> OpAnswer a) ->
  history (dict (exec llm panel op st)) = history (dict st)
  /\ turn_index (dict (exec llm panel op st)) = turn_index (dict st)
  /\ max_turns (dict (exec llm panel op st)) = max_turns (dict st).
Proof.
  intros Hop. destruct op as [|a|room| |]; cbn [exec].
  - rewrite next_question_store.
    set (st0 := mkStore (set_mode MRoute (dict st)) (world st)).
    assert (N0 : nothing_recorded (dict st) st0) by (split; [discriminate | reflexivity]).
    pose proof (app_invoke_nothing_recorded llm panel N0) as N1.
    pose proof (app_invoke_budget llm panel st0) as (B1 & B2 & _).
    change (turn_index (dict st0)) with (turn_index (dict st)) in B1.
    change (max_turns (dict st0)) with (max_turns (dict st)) in B2.
    destruct (app_invoke llm panel st0) as [[[]|e] st1]; cbn [snd] in *.
    + pose proof (app_invoke_nothing_recorded llm panel N1) as [_ N2].
      pose proof (app_invoke_budget llm panel st1) as (C1 & C2 & _).
      repeat split; [exact N2 | congruence | congruence].
    + destruct N1 as [_ N1]. repeat split; assumption.
  - destruct (Hop a eq_refl).
  - pose proof (stream_next_question_dict llm panel room st) as Hs.
    set (st0 := mkStore (set_mode MRoute (dict st)) (world st)) in *.
    assert (N0 : nothing_recorded (dict st) st0) by (split; [discriminate | reflexivity]).
    pose proof (app_invoke_nothing_recorded llm panel N0) as [_ N1].
    pose proof (app_invoke_budget llm panel st0) as (B1 & B2 & _).
    change (turn_index (dict st0)) with (turn_index (dict st)) in B1.
    change (max_turns (dict st0)) with (max_turns (dict st)) in B2.
    destruct (app_invoke llm panel st0) as [[[]|e] st1]; cbn [snd] in *.
    + destruct Hs as [-> | [_ [q ->]]]; repeat split; assumption.
    + rewrite Hs. repeat split; assumption.
  - repeat split.
  - rewrite summary_keeps_dict. repeat split.
Qed.

Lemma only_answers_are_recorded_witness :
  history (dict (exec flaky_llm sample_panel OpNextQuestion sample_awaiting))
  = history (dict sample_awaiting)
  /\ turn_index (dict (exec flaky_llm sample_panel OpNextQuestion sample_awaiting))
     = turn_index (dict sample_awaiting)
  /\ max_turns (dict (exec flaky_llm sample_panel OpNextQuestion sample_awaiting))
     = max_turns (dict sample_awaiting).
Proof.
  apply (@only_answers_are_recorded flaky_llm sample_panel OpNextQuestion
           sample_awaiting).
  intros a H. discriminate H.
Defined.

(** X2: [process_user_answer] appends at most one record to the history,
    and a record it appends carries the current agent, the stored
    last_question and exactly the submitted answer; this holds whatever
    the panel, whatever the mode and whether the operation returns or
    raises. *)
Theorem process_user_answer_records_at_most_once
  (llm : LLM) (panel : list PanelEntry) (a : string)
  (s : InterviewState) (w : World) :
  history (dict (snd (process_user_answer llm panel a (mkStore s w)))) = history s
  \/ exists fb,
       history (dict (snd (process_user_answer llm panel a (mkStore s w))))
       = (history s
          ++ [mkTurn (opt_default "Expert" (current_agent s))
                     (opt_default "" (last_question s)) a fb])%list.
Proof.
  rewrite process_user_answer_store. cbn [dict world].
  set (st0 := mkStore (set_mode MFeedback (set_user_answer a s)) w).
  assert (P0 : feedback_pending_or_recorded s a st0).
  { left. repeat split. }
  destruct (app_invoke_feedback_once llm panel P0) as [Hok Hh].
  destruct (app_invoke llm panel st0) as [[[]|e] st1]; cbn [fst snd] in *;
    [|exact Hh].
  specialize (Hok eq_refl).
  assert (P1 : feedback_pending_or_recorded s a
                 (mkStore (set_turn_index (turn_index (dict st1) + 1) (dict st1))
                          (world st1))) by exact Hok.
  exact (proj2 (app_invoke_feedback_once llm panel P1)).
Qed.

(** X3: when [process_user_answer] returns, turn_index has grown by exactly
    one, also in a session that was already over, and the flag it returns
    is true exactly when force_stop is set or the new turn_index has
    reached max_turns. *)
Theorem process_user_answer_counts_and_reports
  (llm : LLM) (panel : list PanelEntry) (a : string)
  (s : InterviewState) (w : World) (finished : bool) :
  fst (process_user_answer llm panel a (mkStore s w)) = Ok finished ->
  turn_index (dict (snd (process_user_answer llm panel a (mkStore s w))))
  = turn_index s + 1
  /\ finished = (force_stop s || (max_turns s <=? turn_index s + 1)).
Proof.
  rewrite process_user_answer_eq.
  set (st0 := mkStore (set_mode MFeedback (set_user_answer a s)) w).
  pose proof (app_invoke_budget llm panel st0) as (B1 & B2 & B3).
  change (turn_index (dict st0)) with (turn_index s) in B1.
  change (max_turns (dict st0)) with (max_turns s) in B2.
  change (force_stop (dict st0)) with (force_stop s) in B3.
  pose proof (app_invoke_done llm panel st0) as D0.
  destruct (app_invoke llm panel st0) as [[[]|e] [s1 w1]];
    cbn [fst snd dict world] in *; [|discriminate].
  set (s1' := set_turn_index (turn_index s1 + 1) s1).
  assert (Hstop : stopping s1' = (force_stop s || (max_turns s <=? turn_index s + 1))).
  { unfold stopping, s1'. cbn. rewrite B1, B2, B3. reflexivity. }
  destruct (stopping s1') eqn:Hs1.
  - rewrite app_invoke_stopping by exact Hs1. cbn.
    intros H. injection H as <-. split; [rewrite B1; reflexivity | exact Hstop].
  - pose proof (app_invoke_budget llm panel (mkStore s1' w1)) as (C1 & _ & _).
    pose proof (app_invoke_done llm panel (mkStore s1' w1)) as D1.
    destruct (app_invoke llm panel (mkStore s1' w1)) as [[[]|e] st2];
      cbn [fst snd dict] in *; [|discriminate].
    intros H. injection H as <-.
    split; [rewrite C1; unfold s1'; cbn; rewrite B1; reflexivity|].
    rewrite <- Hstop.
    destruct (mode_eqb (mode (dict st2)) MDone) eqn:Hd; [|reflexivity].
    apply mode_eqb_eq in Hd. exfalso.
    destruct (D1 Hd) as [Hm | Hm]; [|cbn [dict] in Hm; congruence].
    unfold s1' in Hm. cbn in Hm.
    destruct (D0 Hm) as [Hm0 | Hs0]; [discriminate|].
    cbn in Hs0.
    assert (Hs' : stopping s1' = true).
    { unfold stopping, s1' in *. cbn. rewrite B1, B2, B3.
      apply orb_true_iff in Hs0. apply orb_true_iff.
      destruct Hs0 as [Hf|Hl]; [left; exact Hf | right].
      apply Z.leb_le in Hl. apply Z.leb_le. cbn in Hl. lia. }
    congruence.
Qed.

Lemma process_user_answer_counts_and_reports_witness :
  turn_index (dict (snd (process_user_answer numbered_llm sample_panel "late"
                           (mkStore (dict sample_finished) empty_world))))
  = turn_index (dict sample_finished) + 1
  /\ true = (force_stop (dict sample_finished)
             || (max_turns (dict sample_finished)
                 <=? turn_index (dict sample_finished) + 1)).
Proof.
  apply (@process_user_answer_counts_and_reports numbered_llm sample_panel "late"
           (dict sample_finished) empty_world true).
  vm_compute. reflexivity.
Defined.

(** X4: the flag [next_question] returns is true exactly when force_stop is
    set or turn_index has reached max_turns; in that case it has made no
    generation call, emitted nothing and only set mode [done]. *)
Theorem next_question_reports_stopping
  (llm : LLM) (panel : list PanelEntry) (s : InterviewState) (w : World)
  (q ag : string) (finished : bool) :
  fst (next_question llm panel (mkStore s w)) = Ok (q, ag, finished) ->
  finished = stopping s
  /\ (finished = true ->
      snd (next_question llm panel (mkStore s w)) = mkStore (set_mode MDone s) w).
Proof.
  destruct (stopping s) eqn:Hs.
  - rewrite next_question_stopping by exact Hs. cbn.
    intros H. injection H as _ _ <-. auto.
  - rewrite next_question_eq.
    set (st0 := mkStore (set_mode MRoute s) w).
    pose proof (app_invoke_graph_step llm panel st0) as G0.
    destruct (app_invoke llm panel st0) as [[[]|e] st1];
      cbn [fst snd] in *; [|discriminate].
    pose proof (app_invoke_graph_step llm panel st1) as G1.
    destruct (app_invoke llm panel st1) as [[[]|e] st2];
      cbn [fst snd] in *; [|discriminate].
    intros H. injection H as _ _ <-.
    assert (Hnd : mode_eqb (mode (dict st2)) MDone = false).
    { destruct (mode_eqb (mode (dict st2)) MDone) eqn:Hd; [|reflexivity].
      apply mode_eqb_eq in Hd. exfalso.
      pose proof (graph_step_trans G0 G1) as [B D].
      destruct (D Hd) as [Hm | Hm];
        [discriminate | change (stopping s = true) in Hm; congruence]. }
    rewrite Hnd. split; [reflexivity | discriminate].
Qed.

Lemma next_question_reports_stopping_witness :
  true = stopping (dict sample_finished)
  /\ (true = true ->
      snd (next_question numbered_llm sample_panel
             (mkStore (dict sample_finished) empty_world))
      = mkStore (set_mode MDone (dict sample_finished)) empty_world).
Proof.
  apply (@next_question_reports_stopping numbered_llm sample_panel
           (dict sample_finished) empty_world "text 2" "Domain Expert" true).
  vm_compute. reflexivity.
Defined.

(* ----------------------------------------------------------------- *)
(** *** [stream_next_question], step by step *)

Lemma stream_next_question_eq llm panel room s w :
  stream_next_question llm panel room (mkStore s w)
  = match app_invoke llm panel (mkStore (set_mode MRoute s) w) with
    | (Raised e, st1) => (Raised e, st1)
    | (Ok _, st1) =>
        if mode_eqb (mode (dict st1)) MDone then (Ok ("", "", true), st1)
        else
          let agent := opt_default "Expert" (current_agent (dict st1)) in
          let w2 := mkWorld (calls (world st1))
                            (emitted (world st1) ++ [question_start agent room]) in
          match nth_error panel (index_of_agent panel agent) with
          | None => (Raised IndexError, mkStore (dict st1) w2)
          | Some p =>
              let up := compose_context (dict st1) ++ Py.nl ++ Py.nl ++ ask_instr in
              let w3 := logged w2 (mkCall true false (prompt_of p) up) in
              match stream llm (List.length (calls (world st1))) (prompt_of p) up with
              | StreamRaise => (Raised LLMError, mkStore (dict st1) w3)
              | StreamChunks deltas aborts =>
                  let w4 := mkWorld (calls w3)
                                    (emitted w3
                                     ++ map (fun t => question_chunk t room)
                                          (gen deltas)) in
                  if aborts then (Raised LLMError, mkStore (dict st1) w4)
                  else
                    (Ok (Py.strip (Py.join "" (gen deltas)), agent, false),
                     mkStore (set_mode MAwaitAnswer
                                (set_last_question
                                   (Py.strip (Py.join "" (gen deltas))) (dict st1)))
                             (mkWorld (calls w4)
                                      (emitted w4 ++ [question_end agent room])))
              end
          end
    end.
Proof.
  unfold stream_next_question. unfold bind at 1. unfold update at 1.
  cbn [dict world]. unfold bind at 1.
  destruct (app_invoke llm panel (mkStore (set_mode MRoute s) w))
    as [[[]|e] [s1 w1]]; [|reflexivity].
  unfold bind at 1. unfold get_state at 1. cbn [dict world].
  destruct (mode_eqb (mode s1) MDone) eqn:Hd; [reflexivity|].
  unfold bind at 1. unfold emit at 1. cbn [dict world].
  destruct (nth_error panel _) as [p|]; [|reflexivity].
  unfold bind at 1. unfold invoke_llm_stream.
  unfold bind at 1. unfold log_call at 1. cbn [dict world logged calls emitted].
  destruct (stream llm _ _ _) as [|deltas aborts]; [reflexivity|].
  unfold ret at 1.
  unfold bind at 1. rewrite for_each_emit_chunks.
  destruct aborts; monad_simpl; reflexivity.
Qed.

(* ----------------------------------------------------------------- *)
(** *** Routing twice, raising, stopping *)

(** X5: [route] is idempotent: running it twice in a row leaves the same
    store and the same outcome as running it once (on an empty panel both
    raise at the first modulo). *)
Theorem route_idempotent (panel : list PanelEntry) (st : Store) :
  bind (route panel) (fun _ => route panel) st = route panel st.
Proof.
  destruct st as [s w]. unfold bind.
  destruct (stopping s) eqn:Hs.
  - rewrite route_stopping by exact Hs.
    rewrite route_stopping by exact Hs. reflexivity.
  - destruct (mode s) eqn:Hm;
      try (rewrite route_other_mode by (auto; congruence);
           rewrite route_other_mode by (auto; congruence); reflexivity).
    destruct panel as [|p0 r] eqn:Hp.
    + unfold route. monad_simpl. rewrite Hs, Hm. reflexivity.
    + rewrite <- Hp.
      destruct (@route_selects panel s w Hs Hm) as [p [_ E]];
        [rewrite Hp; discriminate|].
      rewrite E. apply route_other_mode; [exact Hs | cbn; discriminate].
Qed.

Section OnlyServiceErrors.

Variable llm : LLM.
Variable panel : list PanelEntry.
Hypothesis panel_three : List.length panel = 3%nat.

Lemma ask_outcome_exn pa s w e :
  fst (ask_outcome llm pa s w) = Raised e -> e = LLMError.
Proof.
  unfold ask_outcome. destruct (plain llm _ _ _ _); cbn; congruence.
Qed.

Lemma run_ask_exn k s w e :
  stopping s = false -> mode s = MRoute ->
  fst (run llm panel (S (S k)) NRoute (mkStore s w)) = Raised e -> e = LLMError.
Proof.
  intros Hs Hm. destruct (@route_index_entry panel panel_three s) as [p Hp].
  rewrite (@run_ask llm panel panel_three k s w p Hs Hm Hp).
  destruct (Py.truthy _); [|discriminate].
  destruct (@index_of_agent_entry panel panel_three
              (name_or_expert (route_index panel s) p)) as [pa ->].
  apply ask_outcome_exn.
Qed.

Lemma app_invoke_exn st e :
  fst (app_invoke llm panel st) = Raised e -> e = LLMError.
Proof.
  destruct st as [s w].
  assert (Hrun : fst (run llm panel recursion_limit NRoute (mkStore s w)) = Raised e
                 -> e = LLMError).
  { unfold recursion_limit.
    destruct (stopping s) eqn:Hs.
    { rewrite run_stopping by assumption. discriminate. }
    destruct (mode s) eqn:Hm.
    - now apply run_ask_exn.
    - destruct (Py.truthy_opt (current_agent s)) eqn:Ht.
      + destruct (@index_of_agent_entry panel panel_three
                    (opt_default "" (current_agent s))) as [pa Hpa].
        rewrite (@run_asking llm panel panel_three 23 s w pa Hs Hm Ht Hpa).
        apply ask_outcome_exn.
      + rewrite (@run_no_agent llm panel panel_three) by (auto; congruence).
        discriminate.
    - rewrite (@run_awaiting llm panel panel_three) by assumption. discriminate.
    - destruct (Py.truthy_opt (current_agent s)) eqn:Ht.
      + destruct (@index_of_agent_entry panel panel_three
                    (opt_default "" (current_agent s))) as [pf Hpf].
        rewrite (@run_feedback llm panel panel_three 22 s w pf Hs Hm Ht Hpf).
        unfold feedback_outcome.
        destruct (plain llm _ _ _ _); [cbn; congruence|].
        apply run_ask_exn; [exact Hs | reflexivity].
      + rewrite (@run_no_agent llm panel panel_three) by (auto; congruence).
        discriminate.
    - rewrite (@run_done_mode llm panel) by assumption. discriminate. }
  unfold app_invoke.
  destruct (run llm panel recursion_limit NRoute (mkStore s w)) as [[[]|e'] st'];
    cbn [fst] in *; [discriminate|].
  intros H. injection H as <-. now apply Hrun.
Qed.

End OnlyServiceErrors.

(** X6: with three panel entries the graph is wired soundly: a run never
    reaches the recursion limit, never misses a key of the path map and
    never divides by zero, so the only exception that [next_question],
    [process_user_answer] and [stream_next_question] can raise is the one
    of the text-generation service. *)
Theorem operations_raise_only_service_errors
  (llm : LLM) (panel : list PanelEntry) (st : Store) (e : Exn) :
  List.length panel = 3%nat ->
  (fst (next_question llm panel st) = Raised e -> e = LLMError)
  /\ (forall a, fst (process_user_answer llm panel a st) = Raised e -> e = LLMError)
  /\ (forall room, fst (stream_next_question llm panel room st) = Raised e ->
                   e = LLMError).
Proof.
  intros H3. destruct st as [s w]. repeat apply conj.
  - rewrite next_question_eq.
    pose proof (@app_invoke_exn llm panel H3 (mkStore (set_mode MRoute s) w)) as X1.
    destruct (app_invoke llm panel (mkStore (set_mode MRoute s) w))
      as [[[]|e1] st1]; cbn [fst] in *.
    + pose proof (@app_invoke_exn llm panel H3 st1) as X2.
      destruct (app_invoke llm panel st1) as [[[]|e2] st2]; cbn [fst] in *;
        [discriminate|].
      intros H. injection H as <-. exact (X2 _ eq_refl).
    + intros H. injection H as <-. exact (X1 _ eq_refl).
  - intros a. rewrite process_user_answer_eq.
    pose proof (@app_invoke_exn llm panel H3
                  (mkStore (set_mode MFeedback (set_user_answer a s)) w)) as X1.
    destruct (app_invoke llm panel _) as [[[]|e1] st1]; cbn [fst] in *.
    + match goal with
      | |- context [app_invoke llm panel ?st1'] =>
          pose proof (@app_invoke_exn llm panel H3 st1') as X2;
          destruct (app_invoke llm panel st1') as [[[]|e2] st2]
      end; cbn [fst] in *; [discriminate|].
      intros H. injection H as <-. exact (X2 _ eq_refl).
    + intros H. injection H as <-. exact (X1 _ eq_refl).
  - intros room. rewrite stream_next_question_eq.
    pose proof (@app_invoke_exn llm panel H3 (mkStore (set_mode MRoute s) w)) as X1.
    destruct (app_invoke llm panel (mkStore (set_mode MRoute s) w))
      as [[[]|e1] st1]; cbn [fst] in *.
    + destruct (mode_eqb (mode (dict st1)) MDone); [discriminate|].
      destruct (@index_of_agent_entry panel H3
                  (opt_default "Expert" (current_agent (dict st1)))) as [pa Hpa].
      cbv zeta. rewrite Hpa.
      destruct (stream llm _ _ _) as [|deltas aborts]; [cbn; congruence|].
      destruct aborts; cbn; [congruence | discriminate].
    + intros H. injection H as <-. exact (X1 _ eq_refl).
Qed.

Lemma operations_raise_only_service_errors_witness :
  (fst (next_question failing_llm sample_panel (sample_start 8)) = Raised LLMError ->
   LLMError = LLMError)
  /\ (forall a, fst (process_user_answer failing_llm sample_panel a (sample_start 8))
                = Raised LLMError -> LLMError = LLMError)
  /\ (forall room, fst (stream_next_question failing_llm sample_panel room
                          (sample_start 8)) = Raised LLMError ->
                   LLMError = LLMError).
Proof.
  apply (@operations_raise_only_service_errors failing_llm sample_panel
           (sample_start 8) LLMError).
  reflexivity.
Defined.

(* ----------------------------------------------------------------- *)
(** *** After [stop] *)

Section AfterStop.

Variable llm : LLM.
Variable panel : list PanelEntry.

Lemma exec_keeps_force_stop op st :
  force_stop (dict st) = true ->
  force_stop (dict (exec llm panel op st)) = true
  /\ history (dict (exec llm panel op st)) = history (dict st).
Proof.
  intros Hf.
  assert (Hs : stopping (dict st) = true) by (unfold stopping; now rewrite Hf).
  destruct st as [s w]. cbn [dict] in *.
  destruct op as [|a|room| |]; cbn [exec].
  - rewrite next_question_stopping by exact Hs. auto.
  - rewrite process_user_answer_eq.
    rewrite app_invoke_stopping by exact Hs. cbn [dict world].
    rewrite app_invoke_stopping by (apply stopping_after_turn; exact Hs).
    cbn. auto.
  - rewrite stream_next_question_eq.
    rewrite app_invoke_stopping by exact Hs. cbn. auto.
  - cbn. auto.
  - rewrite summary_keeps_dict. auto.
Qed.

Lemma exec_all_keeps_force_stop ops : forall st,
  force_stop (dict st) = true ->
  force_stop (dict (exec_all llm panel ops st)) = true
  /\ history (dict (exec_all llm panel ops st)) = history (dict st).
Proof.
  induction ops as [|op r IH]; intros st Hf; cbn [exec_all].
  - auto.
  - destruct (exec_keeps_force_stop op st Hf) as [Hf' Hh'].
    destruct (IH _ Hf') as [Hf'' Hh'']. split; congruence.
Qed.

End AfterStop.

(** X7: [stop] cannot be undone and ends the interview for good: after
    [stop], whatever operations follow and in whatever order, force_stop
    stays set, no turn is added to the history, and [next_question]
    answers done = true. *)
Theorem stop_is_final
  (llm : LLM) (panel : list PanelEntry) (ops : list Op) (st : Store) :
  force_stop (dict (exec_all llm panel ops (exec llm panel OpStop st))) = true
  /\ history (dict (exec_all llm panel ops (exec llm panel OpStop st)))
     = history (dict st)
  /\ exists q ag,
       fst (next_question llm panel
              (exec_all llm panel ops (exec llm panel OpStop st)))
       = Ok (q, ag, true).
Proof.
  assert (Hf : force_stop (dict (exec llm panel OpStop st)) = true) by reflexivity.
  destruct (exec_all_keeps_force_stop llm panel ops _ Hf) as [Hf' Hh'].
  split; [exact Hf'|]. split; [exact Hh'|].
  destruct (exec_all llm panel ops (exec llm panel OpStop st)) as [s' w'].
  cbn [dict] in Hf'.
  rewrite next_question_stopping by (unfold stopping; now rewrite Hf').
  do 2 eexists. reflexivity.
Qed.

(* ----------------------------------------------------------------- *)
(** *** The generation calls an operation makes *)

(** The user prompt of the streaming call is the one of the ask branch. *)
Lemma compose_context_ask_prompt s :
  compose_context s ++ Py.nl ++ Py.nl ++ ask_instr = ask_prompt s.
Proof. reflexivity. Qed.

(** A run from mode [route] that selects a named entry, by the reply of
    the service. *)
Lemma app_invoke_route_named llm panel s w p nm pa c :
  List.length panel = 3%nat ->
  stopping s = false -> mode s = MRoute ->
  nth_error panel (route_index panel s) = Some p ->
  name p = Some nm -> Py.truthy nm = true ->
  nth_error panel (index_of_agent panel nm) = Some pa ->
  plain llm (List.length (calls w)) false (prompt_of pa) (ask_prompt s)
  = PlainContent c ->
  app_invoke llm panel (mkStore s w)
  = (Ok tt,
     mkStore (set_mode MAwaitAnswer
                (set_last_question (Py.strip (Py.or_else c ""))
                   (set_current_agent nm s)))
             (logged w (mkCall false false (prompt_of pa) (ask_prompt s)))).
Proof.
  intros H3 Hs Hm Hp Hn Ht Hpa Hc.
  unfold app_invoke, recursion_limit.
  rewrite (@run_ask llm panel H3 23 s w p Hs Hm Hp).
  unfold name_or_expert. rewrite Hn. cbn [opt_default]. rewrite Ht, Hpa.
  unfold ask_outcome.
  change (ask_prompt (routed panel s p)) with (ask_prompt s).
  rewrite Hc. unfold routed, name_or_expert. rewrite Hn. reflexivity.
Qed.

(** X8: a streamed question costs two generation calls with the same
    system and user prompt: the graph run inside [stream_next_question]
    already lets the selected persona ask (non-streamed), and the text of
    that call is then overwritten by the streamed one. *)
Theorem stream_next_question_calls_twice
  (llm : LLM) (panel : list PanelEntry) (room : string)
  (s : InterviewState) (w : World) (p : PanelEntry) (nm : string) :
  List.length panel = 3%nat ->
  plain_never_raises llm -> stream_completes llm ->
  stopping s = false ->
  nth_error panel (route_index panel s) = Some p ->
  name p = Some nm -> Py.truthy nm = true ->
  exists pa deltas,
    nth_error panel (index_of_agent panel nm) = Some pa
    /\ calls (world (snd (stream_next_question llm panel room (mkStore s w))))
       = (calls w
          ++ [mkCall false false (prompt_of pa) (ask_prompt s);
              mkCall true false (prompt_of pa) (ask_prompt s)])%list
    /\ stream llm (S (List.length (calls w))) (prompt_of pa) (ask_prompt s)
       = StreamChunks deltas false
    /\ last_question (dict (snd (stream_next_question llm panel room (mkStore s w))))
       = Some (Py.strip (Py.join "" (gen deltas))).
Proof.
  intros H3 Hllm Hst Hs Hp Hn Ht.
  destruct (@index_of_agent_entry panel H3 nm) as [pa Hpa].
  destruct (plain llm (List.length (calls w)) false (prompt_of pa) (ask_prompt s))
    as [|c] eqn:Hc; [now apply Hllm in Hc|].
  destruct (Hst (S (List.length (calls w))) (prompt_of pa) (ask_prompt s))
    as [deltas Hd].
  exists pa, deltas. split; [exact Hpa|].
  rewrite stream_next_question_eq.
  rewrite (@app_invoke_route_named llm panel (set_mode MRoute s) w p nm pa c
             H3 Hs eq_refl Hp Hn Ht Hpa Hc).
  cbn [dict world mode set_mode set_last_question set_current_agent mode_eqb
       current_agent opt_default].
  cbv zeta. rewrite Hpa.
  change (compose_context
            (set_mode MAwaitAnswer
               (set_last_question (Py.strip (Py.or_else c ""))
                  (set_current_agent nm (set_mode MRoute s))))
          ++ Py.nl ++ Py.nl ++ ask_instr) with (ask_prompt s).
  unfold logged. cbn [calls emitted].
  rewrite !length_app. cbn [List.length]. rewrite !Nat.add_1_r.
  rewrite Hd. cbn [snd dict world calls emitted last_question set_mode
                   set_last_question].
  split; [|split; [reflexivity | reflexivity]].
  rewrite <- app_assoc. reflexivity.
Qed.

Lemma stream_next_question_calls_twice_witness :
  exists pa deltas,
    nth_error sample_panel (index_of_agent sample_panel "Domain Expert") = Some pa
    /\ calls (world (snd (stream_next_question numbered_llm sample_panel "room-1"
                            (mkStore (dict (sample_start 8)) empty_world))))
       = (calls empty_world
          ++ [mkCall false false (prompt_of pa) (ask_prompt (dict (sample_start 8)));
              mkCall true false (prompt_of pa) (ask_prompt (dict (sample_start 8)))])%list
    /\ stream numbered_llm (S (List.length (calls empty_world))) (prompt_of pa)
         (ask_prompt (dict (sample_start 8)))
       = StreamChunks deltas false
    /\ last_question
         (dict (snd (stream_next_question numbered_llm sample_panel "room-1"
                       (mkStore (dict (sample_start 8)) empty_world))))
       = Some (Py.strip (Py.join "" (gen deltas))).
Proof.
  apply (@stream_next_question_calls_twice numbered_llm sample_panel "room-1"
           (dict (sample_start 8)) empty_world
           (mkEntry (Some "Domain Expert") (Some "You are a domain expert interviewer."))
           "Domain Expert");
    try reflexivity.
  - exact numbered_llm_answers.
  - exact numbered_llm_streams.
Defined.

(** X9: when the streaming request fails, at once or after some
    fragments, [stream_next_question] raises after the start event (and
    the fragments received so far) went out and without an end event; the
    state is then already in mode [await_answer], holding the question of
    the non-streamed call made by the graph run. *)
Theorem stream_failure_leaves_unstreamed_question
  (llm : LLM) (panel : list PanelEntry) (room : string)
  (s : InterviewState) (w : World) (p pa : PanelEntry) (nm : string)
  (c : option string) :
  List.length panel = 3%nat ->
  stopping s = false ->
  nth_error panel (route_index panel s) = Some p ->
  name p = Some nm -> Py.truthy nm = true ->
  nth_error panel (index_of_agent panel nm) = Some pa ->
  plain llm (List.length (calls w)) false (prompt_of pa) (ask_prompt s)
  = PlainContent c ->
  (stream llm (S (List.length (calls w))) (prompt_of pa) (ask_prompt s) = StreamRaise
   \/ exists deltas,
        stream llm (S (List.length (calls w))) (prompt_of pa) (ask_prompt s)
        = StreamChunks deltas true) ->
  exists received,
    fst (stream_next_question llm panel room (mkStore s w)) = Raised LLMError
    /\ emitted (world (snd (stream_next_question llm panel room (mkStore s w))))
       = (emitted w ++ [question_start nm room]
          ++ map (fun t => question_chunk t room) received)%list
    /\ mode (dict (snd (stream_next_question llm panel room (mkStore s w))))
       = MAwaitAnswer
    /\ last_question (dict (snd (stream_next_question llm panel room (mkStore s w))))
       = Some (Py.strip (Py.or_else c "")).
Proof.
  intros H3 Hs Hp Hn Ht Hpa Hc Hfail.
  rewrite stream_next_question_eq.
  rewrite (@app_invoke_route_named llm panel (set_mode MRoute s) w p nm pa c
             H3 Hs eq_refl Hp Hn Ht Hpa Hc).
  cbn [dict world mode set_mode set_last_question set_current_agent mode_eqb
       current_agent opt_default].
  cbv zeta. rewrite Hpa.
  change (compose_context
            (set_mode MAwaitAnswer
               (set_last_question (Py.strip (Py.or_else c ""))
                  (set_current_agent nm (set_mode MRoute s))))
          ++ Py.nl ++ Py.nl ++ ask_instr) with (ask_prompt s).
  unfold logged. cbn [calls emitted].
  rewrite !length_app. cbn [List.length]. rewrite !Nat.add_1_r.
  destruct Hfail as [Hr | [deltas Hr]]; rewrite Hr.
  - exists []. cbn. auto.
  - exists (gen deltas). cbn. rewrite <- app_assoc. auto.
Qed.

Lemma stream_failure_leaves_unstreamed_question_witness :
  exists received,
    fst (stream_next_question
           (mkLLM (plain numbered_llm) (fun _ _ _ => StreamChunks [Some "Tell"] true))
           sample_panel "room-1" (mkStore (dict (sample_start 8)) empty_world))
    = Raised LLMError
    /\ emitted (world (snd (stream_next_question
           (mkLLM (plain numbered_llm) (fun _ _ _ => StreamChunks [Some "Tell"] true))
           sample_panel "room-1" (mkStore (dict (sample_start 8)) empty_world))))
       = (emitted empty_world ++ [question_start "Domain Expert" "room-1"]
          ++ map (fun t => question_chunk t "room-1") received)%list
    /\ mode (dict (snd (stream_next_question
           (mkLLM (plain numbered_llm) (fun _ _ _ => StreamChunks [Some "Tell"] true))
           sample_panel "room-1" (mkStore (dict (sample_start 8)) empty_world))))
       = MAwaitAnswer
    /\ last_question (dict (snd (stream_next_question
           (mkLLM (plain numbered_llm) (fun _ _ _ => StreamChunks [Some "Tell"] true))
           sample_panel "room-1" (mkStore (dict (sample_start 8)) empty_world))))
       = Some (Py.strip (Py.or_else (Some " text 0 ") "")).
Proof.
  apply (@stream_failure_leaves_unstreamed_question
           (mkLLM (plain numbered_llm) (fun _ _ _ => StreamChunks [Some "Tell"] true))
           sample_panel "room-1" (dict (sample_start 8)) empty_world
           (mkEntry (Some "Domain Expert") (Some "You are a domain expert interviewer."))
           (mkEntry (Some "Domain Expert") (Some "You are a domain expert interviewer."))
           "Domain Expert" (Some " text 0 "));
    try reflexivity.
  right. exists [Some "Tell"]. reflexivity.
Defined.

(** A run from mode [route] that selects a named entry, for any fuel
    above one. *)
Lemma run_route_named llm panel k s w p nm pa c :
  List.length panel = 3%nat ->
  stopping s = false -> mode s = MRoute ->
  nth_error panel (route_index panel s) = Some p ->
  name p = Some nm -> Py.truthy nm = true ->
  nth_error panel (index_of_agent panel nm) = Some pa ->
  plain llm (List.length (calls w)) false (prompt_of pa) (ask_prompt s)
  = PlainContent c ->
  run llm panel (S (S k)) NRoute (mkStore s w)
  = (Ok tt,
     mkStore (set_mode MAwaitAnswer
                (set_last_question (Py.strip (Py.or_else c ""))
                   (set_current_agent nm s)))
             (logged w (mkCall false false (prompt_of pa) (ask_prompt s)))).
Proof.
  intros H3 Hs Hm Hp Hn Ht Hpa Hc.
  rewrite (@run_ask llm panel H3 k s w p Hs Hm Hp).
  unfold name_or_expert. rewrite Hn. cbn [opt_default]. rewrite Ht, Hpa.
  unfold ask_outcome.
  change (ask_prompt (routed panel s p)) with (ask_prompt s).
  rewrite Hc. unfold routed, name_or_expert. rewrite Hn. reflexivity.
Qed.

(** A run from mode [feedback] with named entries, by the two replies of
    the service. *)
Lemma app_invoke_feedback_named llm panel s w pf p nm pa c1 c2 :
  List.length panel = 3%nat ->
  stopping s = false -> mode s = MFeedback ->
  Py.truthy_opt (current_agent s) = true ->
  nth_error panel (index_of_agent panel (opt_default "" (current_agent s))) = Some pf ->
  plain llm (List.length (calls w)) false (prompt_of pf) (feedback_prompt s)
  = PlainContent c1 ->
  nth_error panel (route_index panel s) = Some p ->
  name p = Some nm -> Py.truthy nm = true ->
  nth_error panel (index_of_agent panel nm) = Some pa ->
  plain llm (S (List.length (calls w))) false (prompt_of pa)
        (ask_prompt (fed_back s (Py.strip (Py.or_else c1 ""))))
  = PlainContent c2 ->
  app_invoke llm panel (mkStore s w)
  = (Ok tt,
     mkStore (set_mode MAwaitAnswer
                (set_last_question (Py.strip (Py.or_else c2 ""))
                   (set_current_agent nm
                      (fed_back s (Py.strip (Py.or_else c1 ""))))))
             (logged
                (logged w (mkCall false false (prompt_of pf) (feedback_prompt s)))
                (mkCall false false (prompt_of pa)
                   (ask_prompt (fed_back s (Py.strip (Py.or_else c1 ""))))))).
Proof.
  intros H3 Hs Hm Ht Hpf Hc1 Hp Hn Htn Hpa Hc2.
  unfold app_invoke, recursion_limit.
  rewrite (@run_feedback llm panel H3 22 s w pf Hs Hm Ht Hpf).
  unfold feedback_outcome. rewrite Hc1.
  rewrite (@run_route_named llm panel 21
             (fed_back s (Py.strip (Py.or_else c1 "")))
             (logged w (mkCall false false (prompt_of pf) (feedback_prompt s)))
             p nm pa c2 H3 Hs eq_refl Hp Hn Htn Hpa).
  - reflexivity.
  - unfold logged. cbn [calls]. rewrite length_app. cbn [List.length].
    rewrite Nat.add_1_r. exact Hc2.
Qed.

(** X10: every answer costs two generation calls.  After the feedback
    call the graph routes again, at the turn_index not yet incremented, and
    lets the same round-robin entry ask a new question; that question is
    stored as last_question, and the following [next_question] replaces it
    by the text of yet another call. *)
Theorem process_user_answer_asks_ahead
  (llm : LLM) (panel : list PanelEntry) (a : string)
  (s : InterviewState) (w : World) (pf p pa : PanelEntry) (nm : string) :
  List.length panel = 3%nat -> plain_never_raises llm ->
  stopping s = false ->
  Py.truthy_opt (current_agent s) = true ->
  nth_error panel (index_of_agent panel (opt_default "" (current_agent s))) = Some pf ->
  nth_error panel (route_index panel s) = Some p ->
  name p = Some nm -> Py.truthy nm = true ->
  nth_error panel (index_of_agent panel nm) = Some pa ->
  exists fb c,
    plain llm (S (List.length (calls w))) false (prompt_of pa)
          (ask_prompt (fed_back (set_user_answer a s) fb)) = PlainContent c
    /\ calls (world (snd (process_user_answer llm panel a (mkStore s w))))
       = (calls w
          ++ [mkCall false false (prompt_of pf) (feedback_prompt (set_user_answer a s));
              mkCall false false (prompt_of pa)
                     (ask_prompt (fed_back (set_user_answer a s) fb))])%list
    /\ last_question (dict (snd (process_user_answer llm panel a (mkStore s w))))
       = Some (Py.strip (Py.or_else c ""))
    /\ current_agent (dict (snd (process_user_answer llm panel a (mkStore s w))))
       = Some nm.
Proof.
  intros H3 Hllm Hs Ht Hpf Hp Hn Htn Hpa.
  set (s0 := set_mode MFeedback (set_user_answer a s)).
  destruct (plain llm (List.length (calls w)) false (prompt_of pf) (feedback_prompt s0))
    as [|c1] eqn:Hc1; [now apply Hllm in Hc1|].
  set (fb := Py.strip (Py.or_else c1 "")).
  destruct (plain llm (S (List.length (calls w))) false (prompt_of pa)
              (ask_prompt (fed_back s0 fb)))
    as [|c2] eqn:Hc2; [now apply Hllm in Hc2|].
  exists fb, c2. split; [exact Hc2|].
  rewrite process_user_answer_eq. fold s0.
  rewrite (@app_invoke_feedback_named llm panel s0 w pf p nm pa c1 c2
             H3 Hs eq_refl Ht Hpf Hc1 Hp Hn Htn Hpa Hc2).
  cbn [dict world]. fold fb.
  match goal with
  | |- context [app_invoke llm panel (mkStore ?s1 ?w1)] =>
      destruct (stopping s1) eqn:Hs1;
      [ rewrite (@app_invoke_stopping llm panel s1 w1 Hs1)
      | rewrite (@app_invoke_settled llm panel H3 s1 w1 Hs1)
          by (left; reflexivity) ]
  end; cbn [snd dict world logged calls emitted last_question current_agent
            set_mode set_turn_index set_last_question set_current_agent];
    rewrite <- app_assoc; repeat split.
Qed.

Lemma process_user_answer_asks_ahead_witness :
  exists fb c,
    plain numbered_llm (S (List.length (calls empty_world))) false
          (prompt_of (mkEntry (Some "Domain Expert")
                        (Some "You are a domain expert interviewer.")))
          (ask_prompt (fed_back (set_user_answer "an answer" (dict sample_awaiting)) fb))
    = PlainContent c
    /\ calls (world (snd (process_user_answer numbered_llm sample_panel "an answer"
                            (mkStore (dict sample_awaiting) empty_world))))
       = (calls empty_world
          ++ [mkCall false false
                (prompt_of (mkEntry (Some "Domain Expert")
                              (Some "You are a domain expert interviewer.")))
                (feedback_prompt (set_user_answer "an answer" (dict sample_awaiting)));
              mkCall false false
                (prompt_of (mkEntry (Some "Domain Expert")
                              (Some "You are a domain expert interviewer.")))
                (ask_prompt (fed_back (set_user_answer "an answer"
                                         (dict sample_awaiting)) fb))])%list
    /\ last_question (dict (snd (process_user_answer numbered_llm sample_panel
                                   "an answer"
                                   (mkStore (dict sample_awaiting) empty_world))))
       = Some (Py.strip (Py.or_else c ""))
    /\ current_agent (dict (snd (process_user_answer numbered_llm sample_panel
                                   "an answer"
                                   (mkStore (dict sample_awaiting) empty_world))))
       = Some "Domain Expert".
Proof.
  apply (@process_user_answer_asks_ahead numbered_llm sample_panel "an answer"
           (dict sample_awaiting) empty_world
           (mkEntry (Some "Domain Expert") (Some "You are a domain expert interviewer."))
           (mkEntry (Some "Domain Expert") (Some "You are a domain expert interviewer."))
           (mkEntry (Some "Domain Expert") (Some "You are a domain expert interviewer."))
           "Domain Expert");
    try (vm_compute; reflexivity).
  exact numbered_llm_answers.
Defined.

(* ----------------------------------------------------------------- *)
(** *** Names of panel entries: empty, repeated, missing *)

(** X11: a panel entry with an empty name stalls its turns: when routing
    selects it, [next_question] makes no generation call, returns the empty
    agent name with whatever question was stored before (the empty string
    if none) and done = false, and leaves the mode at [ask]. *)
Theorem empty_name_stalls_the_turn
  (llm : LLM) (panel : list PanelEntry) (s : InterviewState) (w : World)
  (p : PanelEntry) :
  List.length panel = 3%nat ->
  stopping s = false ->
  nth_error panel (route_index panel s) = Some p ->
  name p = Some "" ->
  next_question llm panel (mkStore s w)
  = (Ok (opt_default "" (last_question s), "", false),
     mkStore (set_mode MAsk (set_current_agent "" s)) w).
Proof.
  intros H3 Hs Hp Hn. rewrite next_question_eq.
  assert (E : app_invoke llm panel (mkStore (set_mode MRoute s) w)
              = (Ok tt, mkStore (set_mode MAsk (set_current_agent "" s)) w)).
  { unfold app_invoke, recursion_limit.
    rewrite (@run_ask llm panel H3 23 (set_mode MRoute s) w p Hs eq_refl Hp).
    unfold routed, name_or_expert. rewrite Hn. reflexivity. }
  rewrite E.
  rewrite (@app_invoke_settled llm panel H3) by (auto; right; auto).
  reflexivity.
Qed.

Lemma empty_name_stalls_the_turn_witness :
  next_question failing_llm
    [mkEntry (Some "") (Some "x"); mkEntry (Some "B") None; mkEntry (Some "C") None]
    (mkStore (dict (sample_start 8)) empty_world)
  = (Ok (opt_default "" (last_question (dict (sample_start 8))), "", false),
     mkStore (set_mode MAsk (set_current_agent "" (dict (sample_start 8))))
             empty_world).
Proof.
  apply (@empty_name_stalls_the_turn failing_llm
           [mkEntry (Some "") (Some "x"); mkEntry (Some "B") None;
            mkEntry (Some "C") None]
           (dict (sample_start 8)) empty_world (mkEntry (Some "") (Some "x")));
    reflexivity.
Defined.

Lemma find_index_first A (f : A -> bool) (l : list A) : forall i x,
  nth_error l i = Some x -> f x = true ->
  (forall j y, (j < i)%nat -> nth_error l j = Some y -> f y = false) ->
  Py.find_index f l = Some i.
Proof.
  induction l as [|h t IH]; intros i x Hi Hx Hbefore.
  - destruct i; discriminate.
  - destruct i as [|i]; cbn in *.
    + injection Hi as ->. now rewrite Hx.
    + rewrite (Hbefore O h) by (auto; lia).
      rewrite (IH i x Hi Hx); [reflexivity|].
      intros j y Hj Hy. apply (Hbefore (S j) y); [lia | exact Hy].
Qed.

Lemma find_index_none A (f : A -> bool) (l : list A) :
  (forall x, In x l -> f x = false) -> Py.find_index f l = None.
Proof.
  induction l as [|h t IH]; intros H; cbn; [reflexivity|].
  rewrite (H h) by (left; reflexivity).
  rewrite IH; [reflexivity|]. intros x Hx. apply H. now right.
Qed.

Lemma name_is_false cur q : name q <> Some cur -> name_is cur q = false.
Proof.
  unfold name_is. destruct (name q) as [n|]; [|reflexivity].
  intros H. apply String.eqb_neq. congruence.
Qed.

Lemma name_is_true cur q : name q = Some cur -> name_is cur q = true.
Proof. unfold name_is. intros ->. apply String.eqb_refl. Qed.

(** [next_question] when routing selects the entry [p] and the node of
    the entry [pa] asks. *)
Lemma next_question_selected llm panel s w p pa c :
  List.length panel = 3%nat ->
  stopping s = false ->
  nth_error panel (route_index panel s) = Some p ->
  Py.truthy (name_or_expert (route_index panel s) p) = true ->
  nth_error panel (index_of_agent panel (name_or_expert (route_index panel s) p))
  = Some pa ->
  plain llm (List.length (calls w)) false (prompt_of pa) (ask_prompt s)
  = PlainContent c ->
  next_question llm panel (mkStore s w)
  = (Ok (Py.strip (Py.or_else c ""), name_or_expert (route_index panel s) p, false),
     mkStore (set_mode MAwaitAnswer
                (set_last_question (Py.strip (Py.or_else c ""))
                   (set_current_agent (name_or_expert (route_index panel s) p) s)))
             (logged w (mkCall false false (prompt_of pa) (ask_prompt s)))).
Proof.
  intros H3 Hs Hp Ht Hpa Hc. rewrite next_question_eq.
  assert (E : app_invoke llm panel (mkStore (set_mode MRoute s) w)
              = (Ok tt,
                 mkStore (set_mode MAwaitAnswer
                            (set_last_question (Py.strip (Py.or_else c ""))
                               (set_current_agent
                                  (name_or_expert (route_index panel s) p) s)))
                         (logged w (mkCall false false (prompt_of pa)
                                      (ask_prompt s))))).
  { unfold app_invoke, recursion_limit.
    rewrite (@run_ask llm panel H3 23 (set_mode MRoute s) w p Hs eq_refl Hp).
    change (route_index panel (set_mode MRoute s)) with (route_index panel s).
    rewrite Ht, Hpa. unfold ask_outcome.
    change (ask_prompt (routed panel (set_mode MRoute s) p)) with (ask_prompt s).
    rewrite Hc. reflexivity. }
  rewrite E.
  rewrite (@app_invoke_settled llm panel H3) by (auto; left; reflexivity).
  reflexivity.
Qed.

(** X12: the question is generated with the system prompt of the first
    panel entry that bears the selected name: the selected entry's own
    prompt when no earlier entry has the same name, an earlier entry's
    prompt otherwise. *)
Theorem question_uses_first_entry_of_that_name
  (llm : LLM) (panel : list PanelEntry) (s : InterviewState) (w : World)
  (p pj : PanelEntry) (nm : string) (j : nat) (c : option string) :
  List.length panel = 3%nat ->
  stopping s = false ->
  nth_error panel (route_index panel s) = Some p ->
  name p = Some nm -> Py.truthy nm = true ->
  nth_error panel j = Some pj -> name pj = Some nm ->
  (forall i q, (i < j)%nat -> nth_error panel i = Some q -> name q <> Some nm) ->
  plain llm (List.length (calls w)) false (prompt_of pj) (ask_prompt s)
  = PlainContent c ->
  next_question llm panel (mkStore s w)
  = (Ok (Py.strip (Py.or_else c ""), nm, false),
     mkStore (set_mode MAwaitAnswer
                (set_last_question (Py.strip (Py.or_else c ""))
                   (set_current_agent nm s)))
             (logged w (mkCall false false (prompt_of pj) (ask_prompt s)))).
Proof.
  intros H3 Hs Hp Hn Ht Hj Hnj Hfirst Hc.
  assert (Hidx : index_of_agent panel nm = j).
  { unfold index_of_agent.
    rewrite (@find_index_first _ (name_is nm) panel j pj Hj (name_is_true _ Hnj));
      [reflexivity|].
    intros i q Hi Hq. apply name_is_false. eapply Hfirst; eauto. }
  assert (Hnm : name_or_expert (route_index panel s) p = nm).
  { unfold name_or_expert. now rewrite Hn. }
  rewrite (@next_question_selected llm panel s w p pj c H3 Hs Hp);
    rewrite ?Hnm, ?Hidx; auto.
Qed.

Lemma question_uses_first_entry_of_that_name_witness :
  next_question numbered_llm
    [mkEntry (Some "A") (Some "first"); mkEntry (Some "A") (Some "second");
     mkEntry (Some "C") None]
    (mkStore (set_turn_index 1 (dict (sample_start 8))) empty_world)
  = (Ok (Py.strip (Py.or_else (Some " text 0 ") ""), "A", false),
     mkStore (set_mode MAwaitAnswer
                (set_last_question (Py.strip (Py.or_else (Some " text 0 ") ""))
                   (set_current_agent "A"
                      (set_turn_index 1 (dict (sample_start 8))))))
             (logged empty_world
                (mkCall false false (prompt_of (mkEntry (Some "A") (Some "first")))
                   (ask_prompt (set_turn_index 1 (dict (sample_start 8))))))).
Proof.
  apply (@question_uses_first_entry_of_that_name numbered_llm
           [mkEntry (Some "A") (Some "first"); mkEntry (Some "A") (Some "second");
            mkEntry (Some "C") None]
           (set_turn_index 1 (dict (sample_start 8))) empty_world
           (mkEntry (Some "A") (Some "second")) (mkEntry (Some "A") (Some "first"))
           "A" O (Some " text 0 "));
    try reflexivity.
  intros i q Hi. lia.
Defined.

(** X13: a panel entry without the "name" key is announced under the
    default name "Expert i+1", but since no entry bears that name the
    question is generated with the system prompt of entry 0. *)
Theorem unnamed_entry_uses_first_prompt
  (llm : LLM) (panel : list PanelEntry) (s : InterviewState) (w : World)
  (p p0 : PanelEntry) (c : option string) :
  List.length panel = 3%nat ->
  stopping s = false ->
  nth_error panel (route_index panel s) = Some p ->
  name p = None ->
  (forall q, In q panel ->
             name q <> Some ("Expert "
                             ++ Py.str_of_Z (Z.of_nat (route_index panel s) + 1))) ->
  nth_error panel 0 = Some p0 ->
  plain llm (List.length (calls w)) false (prompt_of p0) (ask_prompt s)
  = PlainContent c ->
  next_question llm panel (mkStore s w)
  = (Ok (Py.strip (Py.or_else c ""),
         "Expert " ++ Py.str_of_Z (Z.of_nat (route_index panel s) + 1), false),
     mkStore (set_mode MAwaitAnswer
                (set_last_question (Py.strip (Py.or_else c ""))
                   (set_current_agent
                      ("Expert " ++ Py.str_of_Z (Z.of_nat (route_index panel s) + 1))
                      s)))
             (logged w (mkCall false false (prompt_of p0) (ask_prompt s)))).
Proof.
  intros H3 Hs Hp Hn Hnone H0 Hc.
  assert (Hnm : name_or_expert (route_index panel s) p
                = "Expert " ++ Py.str_of_Z (Z.of_nat (route_index panel s) + 1)).
  { unfold name_or_expert. now rewrite Hn. }
  assert (Hidx : index_of_agent panel
                   ("Expert " ++ Py.str_of_Z (Z.of_nat (route_index panel s) + 1))
                 = O).
  { unfold index_of_agent. rewrite find_index_none; [reflexivity|].
    intros q Hq. apply name_is_false. now apply Hnone. }
  rewrite (@next_question_selected llm panel s w p p0 c H3 Hs Hp);
    rewrite ?Hnm, ?Hidx; auto.
Qed.

Lemma unnamed_entry_uses_first_prompt_witness :
  next_question numbered_llm
    [mkEntry (Some "A") (Some "first"); mkEntry None (Some "second");
     mkEntry (Some "C") None]
    (mkStore (set_turn_index 1 (dict (sample_start 8))) empty_world)
  = (Ok (Py.strip (Py.or_else (Some " text 0 ") ""),
         "Expert "
         ++ Py.str_of_Z
              (Z.of_nat
                 (route_index
                    [mkEntry (Some "A") (Some "first"); mkEntry None (Some "second");
                     mkEntry (Some "C") None]
                    (set_turn_index 1 (dict (sample_start 8)))) + 1), false),
     mkStore (set_mode MAwaitAnswer
                (set_last_question (Py.strip (Py.or_else (Some " text 0 ") ""))
                   (set_current_agent
                      ("Expert "
                       ++ Py.str_of_Z
                            (Z.of_nat
                               (route_index
                                  [mkEntry (Some "A") (Some "first");
                                   mkEntry None (Some "second");
                                   mkEntry (Some "C") None]
                                  (set_turn_index 1 (dict (sample_start 8)))) + 1))
                      (set_turn_index 1 (dict (sample_start 8))))))
             (logged empty_world
                (mkCall false false (prompt_of (mkEntry (Some "A") (Some "first")))
                   (ask_prompt (set_turn_index 1 (dict (sample_start 8))))))).
Proof.
  apply (@unnamed_entry_uses_first_prompt numbered_llm
           [mkEntry (Some "A") (Some "first"); mkEntry None (Some "second");
            mkEntry (Some "C") None]
           (set_turn_index 1 (dict (sample_start 8))) empty_world
           (mkEntry None (Some "second")) (mkEntry (Some "A") (Some "first"))
           (Some " text 0 "));
    try reflexivity.
  intros q [<- | [<- | [<- | []]]]; vm_compute; discriminate.
Defined.

(* ----------------------------------------------------------------- *)
(** *** The context of a question *)

Lemma last_n_app A (n : nat) (old recent : list A) :
  (n <= List.length recent)%nat ->
  Py.last_n n (old ++ recent) = Py.last_n n recent.
Proof.
  intros H. unfold Py.last_n. rewrite length_app, skipn_app.
  replace (List.length old + List.length recent - n)%nat
    with (List.length old + (List.length recent - n))%nat by lia.
  rewrite skipn_all2 by lia. cbn [app]. f_equal. lia.
Qed.

Lemma last_n_length A (n : nat) (l : list A) :
  (List.length (Py.last_n n l) <= n)%nat.
Proof. unfold Py.last_n. rewrite length_skipn. lia. Qed.

(** X14: only the last five turns enter the prompt of a question: turns
    before them can be dropped from (or added to) the history without
    changing the prompt of the ask branch, which is also the prompt of the
    streaming call. *)
Theorem question_context_is_last_five_turns
  (s : InterviewState) (old recent : list TurnRecord) :
  (5 <= List.length recent)%nat ->
  history s = (old ++ recent)%list ->
  ask_prompt s = ask_prompt (set_history recent s)
  /\ compose_context s = compose_context (set_history recent s).
Proof.
  intros H5 Hh.
  assert (E : context_items s = context_items (set_history recent s)).
  { unfold context_items. cbn [resume_notes history set_history].
    rewrite Hh, last_n_app by exact H5. reflexivity. }
  unfold ask_prompt, compose_context. rewrite E. auto.
Qed.

Lemma question_context_is_last_five_turns_witness :
  ask_prompt
    (set_history
       ([mkTurn "A" "q0" "a0" "f0"]
        ++ [mkTurn "B" "q1" "a1" "f1"; mkTurn "C" "q2" "a2" "f2";
            mkTurn "A" "q3" "a3" "f3"; mkTurn "B" "q4" "a4" "f4";
            mkTurn "C" "q5" "a5" "f5"])
       (dict (sample_start 8)))
  = ask_prompt
      (set_history
         [mkTurn "B" "q1" "a1" "f1"; mkTurn "C" "q2" "a2" "f2";
          mkTurn "A" "q3" "a3" "f3"; mkTurn "B" "q4" "a4" "f4";
          mkTurn "C" "q5" "a5" "f5"]
         (set_history
            ([mkTurn "A" "q0" "a0" "f0"]
             ++ [mkTurn "B" "q1" "a1" "f1"; mkTurn "C" "q2" "a2" "f2";
                 mkTurn "A" "q3" "a3" "f3"; mkTurn "B" "q4" "a4" "f4";
                 mkTurn "C" "q5" "a5" "f5"])
            (dict (sample_start 8))))
  /\ compose_context
       (set_history
          ([mkTurn "A" "q0" "a0" "f0"]
           ++ [mkTurn "B" "q1" "a1" "f1"; mkTurn "C" "q2" "a2" "f2";
               mkTurn "A" "q3" "a3" "f3"; mkTurn "B" "q4" "a4" "f4";
               mkTurn "C" "q5" "a5" "f5"])
          (dict (sample_start 8)))
     = compose_context
         (set_history
            [mkTurn "B" "q1" "a1" "f1"; mkTurn "C" "q2" "a2" "f2";
             mkTurn "A" "q3" "a3" "f3"; mkTurn "B" "q4" "a4" "f4";
             mkTurn "C" "q5" "a5" "f5"]
            (set_history
               ([mkTurn "A" "q0" "a0" "f0"]
                ++ [mkTurn "B" "q1" "a1" "f1"; mkTurn "C" "q2" "a2" "f2";
                    mkTurn "A" "q3" "a3" "f3"; mkTurn "B" "q4" "a4" "f4";
                    mkTurn "C" "q5" "a5" "f5"])
               (dict (sample_start 8)))).
Proof.
  apply (@question_context_is_last_five_turns
           (set_history
              ([mkTurn "A" "q0" "a0" "f0"]
               ++ [mkTurn "B" "q1" "a1" "f1"; mkTurn "C" "q2" "a2" "f2";
                   mkTurn "A" "q3" "a3" "f3"; mkTurn "B" "q4" "a4" "f4";
                   mkTurn "C" "q5" "a5" "f5"])
              (dict (sample_start 8)))
           [mkTurn "A" "q0" "a0" "f0"]
           [mkTurn "B" "q1" "a1" "f1"; mkTurn "C" "q2" "a2" "f2";
            mkTurn "A" "q3" "a3" "f3"; mkTurn "B" "q4" "a4" "f4";
            mkTurn "C" "q5" "a5" "f5"]).
  - simpl. lia.
  - reflexivity.
Defined.

(* ----------------------------------------------------------------- *)
(** *** The chunk generator of [src/llm.py] *)

Lemma append_empty_r (x : string) : x ++ "" = x.
Proof. induction x as [|c r IH]; cbn; [reflexivity | now rewrite IH]. Qed.

Lemma join_empty_cons (x : string) (l : list string) :
  Py.join "" (x :: l) = x ++ Py.join "" l.
Proof.
  unfold Py.join. destruct l as [|y r]; cbn.
  - now rewrite append_empty_r.
  - reflexivity.
Qed.

(** X15: the generator yields no empty piece, and dropping the chunks
    without content loses nothing: the text assembled from the pieces is
    the concatenation of the contents of all chunks, in order. *)
Theorem gen_keeps_the_text (deltas : list (option string)) :
  Forall (fun piece => Py.truthy piece = true) (gen deltas)
  /\ Py.join "" (gen deltas) = Py.join "" (map (opt_default "") deltas).
Proof.
  induction deltas as [|d r [IHf IHj]]; [split; [constructor | reflexivity]|].
  unfold gen in *. cbn [flat_map map].
  destruct d as [piece|]; cbn [opt_default].
  - destruct (Py.truthy piece) eqn:Ht; cbn [app].
    + split; [constructor; assumption|].
      rewrite !join_empty_cons. now rewrite IHj.
    + split; [exact IHf|].
      rewrite join_empty_cons, IHj.
      destruct piece; [reflexivity | discriminate].
  - cbn [app]. split; [exact IHf|]. rewrite join_empty_cons, IHj. reflexivity.
Qed.

(* ----------------------------------------------------------------- *)
(** *** More on the panel builder *)

Section PanelBuilderFacts.

Variable Num : Type.
Variable num_truthy : Num -> bool.
Variable json_loads : string -> option (Json Num).

Lemma get_or_truthy k items d :
  json_truthy num_truthy d = true ->
  json_truthy num_truthy (get_or num_truthy k items d) = true.
Proof.
  intros Hd. unfold get_or.
  destruct (dict_get k items) as [v|]; [|exact Hd].
  destruct (json_truthy num_truthy v) eqn:Hv; [exact Hv | exact Hd].
Qed.

Lemma normalize_truthy panel : forall i out,
  normalize num_truthy i panel = Some out ->
  Forall (fun e => json_truthy num_truthy (pd_name e) = true
                   /\ json_truthy num_truthy (pd_system_prompt e) = true) out.
Proof.
  induction panel as [|v r IH]; intros i out H; cbn [normalize] in H.
  - injection H as <-. constructor.
  - destruct v; try discriminate.
    destruct (normalize num_truthy (S i) r) as [out'|] eqn:E; [|discriminate].
    injection H as <-. constructor; [|eapply IH; eassumption].
    cbn [pd_name pd_system_prompt]. split; apply get_or_truthy; reflexivity.
Qed.

End PanelBuilderFacts.

(** X16: no entry of a proposed panel has a missing, null or empty name or
    system prompt: whatever the service returned and however it parses,
    both fields of all entries are truthy. *)
Theorem proposed_entries_are_never_empty
  (Num : Type) (num_truthy : Num -> bool)
  (json_loads : string -> option (Json Num)) (content : option string) :
  Forall (fun e => json_truthy num_truthy (pd_name e) = true
                   /\ json_truthy num_truthy (pd_system_prompt e) = true)
         (panel_of_content num_truthy json_loads content).
Proof.
  unfold panel_of_content.
  destruct (try_parse num_truthy json_loads content) as [out|] eqn:E.
  - unfold try_parse in E.
    destruct content as [text|]; [|discriminate].
    destruct (json_loads text) as [[| | | | |items]|]; try discriminate.
    destruct (dict_get "panel" items) as [[| | | |panel|]|]; try discriminate.
    destruct (List.length panel =? 3)%nat; [|discriminate].
    eapply normalize_truthy; eassumption.
  - unfold fallback_panel. repeat constructor.
Qed.

(** X17: a reply that parses as an object whose 'panel' is a list of three
    objects is taken over, not replaced by the fallback: each entry keeps
    its name and system prompt where they are truthy and gets "Expert 1",
    "Expert 2", "Expert 3" (by position) or the default prompt where they
    are missing or falsy. *)
Theorem well_shaped_reply_is_normalised
  (Num : Type) (num_truthy : Num -> bool)
  (json_loads : string -> option (Json Num))
  (text : string) (items a b c : list (string * Json Num)) :
  json_loads text = Some (JDict items) ->
  dict_get "panel" items = Some (JList [JDict a; JDict b; JDict c]) ->
  panel_of_content num_truthy json_loads (Some text)
  = [ normalized_entry num_truthy "1" a;
      normalized_entry num_truthy "2" b;
      normalized_entry num_truthy "3" c ].
Proof.
  intros Hl Hg. unfold panel_of_content, try_parse. rewrite Hl, Hg.
  reflexivity.
Qed.

Lemma well_shaped_reply_is_normalised_witness :
  panel_of_content nonzero (loads_as three_entry_reply) (Some "{...}")
  = [ normalized_entry nonzero "1" [("name", JStr "A"); ("system_prompt", JStr "a")];
      normalized_entry nonzero "2" [("name", JStr ""); ("system_prompt", JNum 7)];
      normalized_entry nonzero "3" [] ].
Proof.
  apply (@well_shaped_reply_is_normalised Z nonzero (loads_as three_entry_reply)
           "{...}"
           [("panel",
             JList [JDict [("name", JStr "A"); ("system_prompt", JStr "a")];
                    JDict [("name", JStr ""); ("system_prompt", JNum 7)];
                    JDict []])]);
    reflexivity.
Defined.

Lemma substring_prefix (a b : string) :
  substring 0 (String.length a) (a ++ b) = a.
Proof.
  induction a as [|ch r IH]; cbn.
  - destruct b; reflexivity.
  - now rewrite IH.
Qed.

Lemma substring_prefix_of (a b : string) (n : nat) :
  String.length a = n -> substring 0 n (a ++ b) = a.
Proof. intros <-. apply substring_prefix. Qed.

Lemma substring_whole (a : string) (n : nat) :
  String.length a = n -> substring 0 n a = a.
Proof.
  intros H. pose proof (substring_prefix_of a "" H) as E.
  now rewrite append_empty_r in E.
Qed.

(** X18: [propose_panel_from_jd] makes exactly one call, in JSON mode,
    whose prompt contains only the first 4000 characters of the job
    description (what follows them has no influence); and when that call
    raises, the exception propagates: the fallback panel covers unusable
    replies, not a failing service. *)
Theorem propose_panel_calls_once
  (Num : Type) (num_truthy : Num -> bool)
  (json_loads : string -> option (Json Num)) (llm : LLM)
  (jd : string) (w : World) :
  snd (propose_panel_from_jd num_truthy json_loads llm jd w)
  = logged w (mkCall false true JD_PANEL_PROMPT (panel_user_prompt jd))
  /\ (plain llm (List.length (calls w)) true JD_PANEL_PROMPT (panel_user_prompt jd)
      = PlainRaise ->
      fst (propose_panel_from_jd num_truthy json_loads llm jd w) = Raised LLMError)
  /\ (forall head rest,
        jd = head ++ rest -> String.length head = 4000%nat ->
        panel_user_prompt jd = panel_user_prompt head).
Proof.
  repeat apply conj.
  - unfold propose_panel_from_jd. destruct (plain llm _ _ _ _); reflexivity.
  - intros Hr. unfold propose_panel_from_jd. rewrite Hr. reflexivity.
  - intros head rest -> Hlen. unfold panel_user_prompt.
    rewrite (substring_prefix_of head rest Hlen).
    rewrite (substring_whole head Hlen). reflexivity.
Qed.

(* ----------------------------------------------------------------- *)
(** *** The summary *)

(** X19: [summary] never changes the interview state, whether it returns or
    raises.  With a non-empty history it makes exactly one call, whose
    prompt is the rendering of every turn of the history in order followed
    by the fixed instruction, and it returns the stripped reply, the empty
    string when the reply has no content. *)
Theorem summary_reads_the_whole_history
  (llm : LLM) (s : InterviewState) (w : World) :
  dict (snd (summary llm (mkStore s w))) = s
  /\ (history s <> [] ->
      world (snd (summary llm (mkStore s w)))
      = logged w
          (mkCall false false
             "You are an interview coach who writes concise, helpful summaries."
             (Py.join (Py.nl ++ Py.nl) (map render_turn (history s))
              ++ Py.nl ++ Py.nl ++ summary_prompt))
      /\ forall c,
           plain llm (List.length (calls w)) false
             "You are an interview coach who writes concise, helpful summaries."
             (Py.join (Py.nl ++ Py.nl) (map render_turn (history s))
              ++ Py.nl ++ Py.nl ++ summary_prompt)
           = PlainContent c ->
           fst (summary llm (mkStore s w)) = Ok (Py.strip (Py.or_else c ""))).
Proof.
  split; [apply (summary_keeps_dict llm (mkStore s w))|].
  intros Hne. unfold summary, invoke_llm. monad_simpl.
  destruct (history s) as [|t r] eqn:Hh; [congruence|].
  cbn [dict world]. split.
  - destruct (plain llm _ _ _ _); reflexivity.
  - intros c Hc. rewrite Hc. reflexivity.
Qed.

Lemma summary_reads_the_whole_history_witness :
  world (snd (summary silent_llm
                (mkStore (dict sample_finished) empty_world)))
  = logged empty_world
      (mkCall false false
         "You are an interview coach who writes concise, helpful summaries."
         (Py.join (Py.nl ++ Py.nl) (map render_turn (history (dict sample_finished)))
          ++ Py.nl ++ Py.nl ++ summary_prompt))
  /\ forall c,
       plain silent_llm (List.length (calls empty_world)) false
         "You are an interview coach who writes concise, helpful summaries."
         (Py.join (Py.nl ++ Py.nl) (map render_turn (history (dict sample_finished)))
          ++ Py.nl ++ Py.nl ++ summary_prompt)
       = PlainContent c ->
       fst (summary silent_llm (mkStore (dict sample_finished) empty_world))
       = Ok (Py.strip (Py.or_else c "")).
Proof.
  apply (proj2 (@summary_reads_the_whole_history silent_llm
                  (dict sample_finished) empty_world)).
  vm_compute. discriminate.
Defined.

(* ----------------------------------------------------------------- *)
(** *** Mode [done] without a stopping condition *)

(** X20: mode [done] alone does not end a session.  A state whose mode is
    [done] while force_stop is unset and turn_index is below max_turns
    (such a state is never reached from [init_graph], but it can be
    installed from the store, as [interview] in [src/app.py] does) is
    revived by [next_question]: a question is generated and an answer
    awaited. *)
Theorem done_without_stopping_is_revived
  (llm : LLM) (panel : list PanelEntry) (s : InterviewState) (w : World)
  (p : PanelEntry) (nm : string) :
  List.length panel = 3%nat -> plain_never_raises llm ->
  mode s = MDone -> stopping s = false ->
  nth_error panel (route_index panel s) = Some p ->
  name p = Some nm -> Py.truthy nm = true ->
  (exists q, fst (next_question llm panel (mkStore s w)) = Ok (q, nm, false))
  /\ mode (dict (snd (next_question llm panel (mkStore s w)))) = MAwaitAnswer
  /\ ~ reachable llm panel (mkStore s w).
Proof.
  intros H3 Hllm Hm Hs Hp Hn Ht.
  destruct (@next_question_asks llm panel H3 Hllm s w p nm Hs Hp Hn Ht)
    as [q [pa E]].
  rewrite E. cbn. split; [eauto|]. split; [reflexivity|].
  intros Hr. pose proof (reachable_done_means_stopping Hr Hm) as Hs'.
  cbn in Hs'. congruence.
Qed.

Lemma done_without_stopping_is_revived_witness :
  (exists q,
      fst (next_question numbered_llm sample_panel
             (mkStore (set_mode MDone (dict (sample_start 8))) empty_world))
      = Ok (q, "Domain Expert", false))
  /\ mode (dict (snd (next_question numbered_llm sample_panel
                        (mkStore (set_mode MDone (dict (sample_start 8)))
                                 empty_world))))
     = MAwaitAnswer
  /\ ~ reachable numbered_llm sample_panel
         (mkStore (set_mode MDone (dict (sample_start 8))) empty_world).
Proof.
  apply (@done_without_stopping_is_revived numbered_llm sample_panel
           (set_mode MDone (dict (sample_start 8))) empty_world
           (mkEntry (Some "Domain Expert") (Some "You are a domain expert interviewer."))
           "Domain Expert");
    try reflexivity.
  exact numbered_llm_answers.
Defined.

(* ----------------------------------------------------------------- *)
(** *** The cost of a question *)

(** X21: [next_question] makes at most one generation call, whatever the
    service does: the second run of the graph it performs never calls the
    service. *)
Theorem next_question_calls_at_most_once
  (llm : LLM) (panel : list PanelEntry) (s : InterviewState) (w : World) :
  List.length panel = 3%nat ->
  calls (world (snd (next_question llm panel (mkStore s w)))) = calls w
  \/ exists c, calls (world (snd (next_question llm panel (mkStore s w))))
               = (calls w ++ [c])%list.
Proof.
  intros H3. rewrite next_question_eq.
  destruct (stopping s) eqn:Hs.
  { rewrite !app_invoke_stopping by exact Hs. left. reflexivity. }
  destruct (@route_index_entry panel H3 (set_mode MRoute s)) as [p Hp].
  assert (E : app_invoke llm panel (mkStore (set_mode MRoute s) w)
              = match run llm panel 25 NRoute (mkStore (set_mode MRoute s) w) with
                | (Ok _, st') => (Ok tt, st')
                | (Raised e, st') =>
                    (Raised e,
                     mkStore (set_history (history (dict st')) (set_mode MRoute s))
                             (world st'))
                end).
  { unfold app_invoke, recursion_limit.
    destruct (run llm panel 25 NRoute _) as [[[]|e] st']; reflexivity. }
  rewrite E. clear E.
  rewrite (@run_ask llm panel H3 23 (set_mode MRoute s) w p Hs eq_refl Hp).
  destruct (Py.truthy _) eqn:Ht.
  - destruct (@index_of_agent_entry panel H3
                (name_or_expert (route_index panel (set_mode MRoute s)) p))
      as [pa Hpa].
    rewrite Hpa. unfold ask_outcome.
    destruct (plain llm _ _ _ _).
    + right. eexists. reflexivity.
    + rewrite (@app_invoke_settled llm panel H3) by (auto; left; reflexivity).
      right. eexists. reflexivity.
  - rewrite (@app_invoke_settled llm panel H3) by (auto; right; auto).
    left. reflexivity.
Qed.

Lemma next_question_calls_at_most_once_witness :
  calls (world (snd (next_question flaky_llm sample_panel
                       (mkStore (dict sample_awaiting) (world sample_awaiting)))))
  = calls (world sample_awaiting)
  \/ exists c,
       calls (world (snd (next_question flaky_llm sample_panel
                            (mkStore (dict sample_awaiting) (world sample_awaiting)))))
       = (calls (world sample_awaiting) ++ [c])%list.
Proof.
  apply (@next_question_calls_at_most_once flaky_llm sample_panel
           (dict sample_awaiting) (world sample_awaiting)).
  reflexivity.
Defined.

(* ----------------------------------------------------------------- *)
(** *** The panel read back from the form ([src/app.py]) *)

(** X22: [save_panel] always builds a panel that [init_graph] accepts:
    exactly three entries, each with both keys present, so that the
    defaults of the orchestrator for a missing key are never used; a form
    field left out yields the name "Expert i+1" and the empty prompt, while
    a name submitted empty stays empty. *)
Theorem saved_panel_is_accepted (form : string -> option string)
  (notes : string) (budget : Z) :
  List.length (save_panel form) = 3%nat
  /\ (forall p, In p (save_panel form) ->
                name p <> None /\ system_prompt p <> None)
  /\ init_graph (save_panel form) notes budget
     = Ok (mkState (save_panel form) notes [] 0 budget None MRoute None None None false)
  /\ (forall i, (i < 3)%nat ->
        form ("name_" ++ Py.str_of_Z (Z.of_nat i)) = None ->
        option_map name (nth_error (save_panel form) i)
        = Some (Some ("Expert " ++ Py.str_of_Z (Z.of_nat i + 1))))
  /\ (forall i, (i < 3)%nat ->
        form ("name_" ++ Py.str_of_Z (Z.of_nat i)) = Some "" ->
        option_map name (nth_error (save_panel form) i) = Some (Some "")).
Proof.
  repeat apply conj.
  - reflexivity.
  - intros p Hp. unfold save_panel in Hp. apply in_map_iff in Hp.
    destruct Hp as [i [<- _]]. split; discriminate.
  - reflexivity.
  - intros i Hi Hf.
    destruct i as [|[|[|i]]]; try lia;
      cbn [save_panel seq map nth_error option_map save_panel_entry name];
      unfold form_get; rewrite Hf; reflexivity.
  - intros i Hi Hf.
    destruct i as [|[|[|i]]]; try lia;
      cbn [save_panel seq map nth_error option_map save_panel_entry name];
      unfold form_get; rewrite Hf; reflexivity.
Qed.

(** The panel of an empty form. *)
Example saved_panel_of_empty_form :
  save_panel empty_form
  = [ mkEntry (Some "Expert 1") (Some "");
      mkEntry (Some "Expert 2") (Some "");
      mkEntry (Some "Expert 3") (Some "") ].
Proof. vm_compute. reflexivity. Qed.
